(** * Planer: plans, tasks and the generation workflow

    A shallow embedding of the planning server: the Python string
    operations the code relies on, the JSON values it exchanges with the
    generative service, the response extractor of [server.py], the
    SQL-backed store of [database/manager.py] and the generation and
    preview stages of [new_plan].

    Conventions.
    - A Python [str] is a Rocq [string]; a character stands for a code
      point below 256.
    - Python and SQL integers are [Z]; a timestamp is a [Z] read from a
      clock, [None]/[NULL] is [None].
    - A table is the list of its rows in insertion order.
    - A call that can raise returns an [outcome]; [json.loads] returns a
      [loads_result], which keeps [JSONDecodeError] apart from the other
      exceptions it can raise. *)

From Stdlib Require Import Decimal DecimalFacts DecimalString DecimalZ.
From Stdlib Require Import ZArith List String Ascii Bool Lia Arith.
From Stdlib Require Import Sorting.Sorted Permutation.
Import ListNotations.

Local Open Scope string_scope.
Local Open Scope Z_scope.

(** ** Python strings *)

Module PyStr.

Definition dquote : ascii := "034"%char.
Definition newline : ascii := "010"%char.
Definition backslash : ascii := "092"%char.

(** [str.isspace] on the code points below 256. *)
Definition is_space (a : ascii) : bool :=
  let n := nat_of_ascii a in
  ((9 <=? n) && (n <=? 13))%nat || ((28 <=? n) && (n <=? 32))%nat
  || (n =? 133)%nat || (n =? 160)%nat.

Fixpoint lstrip (s : string) : string :=
  match s with
  | EmptyString => EmptyString
  | String a r => if is_space a then lstrip r else s
  end.

Fixpoint rstrip (s : string) : string :=
  match s with
  | EmptyString => EmptyString
  | String a r =>
      match rstrip r with
      | EmptyString => if is_space a then EmptyString else String a EmptyString
      | r' => String a r'
      end
  end.

(** [s.strip()] *)
Definition strip (s : string) : string := rstrip (lstrip s).

(** [s.startswith(c)] for a one-character [c]. *)
Definition startswith (s : string) (c : ascii) : bool :=
  match s with
  | String a _ => Ascii.eqb a c
  | EmptyString => false
  end.

(** [s.find(c)] scanning from offset [i]: lowest index, or [-1]. *)
Fixpoint find_from (c : ascii) (s : string) (i : Z) : Z :=
  match s with
  | EmptyString => -1
  | String a r => if Ascii.eqb a c then i else find_from c r (i + 1)
  end.

Definition find (s : string) (c : ascii) : Z := find_from c s 0.

(** [s.rfind(c)]: highest index, or [-1]. *)
Fixpoint rfind_from (c : ascii) (s : string) (i : Z) : Z :=
  match s with
  | EmptyString => -1
  | String a r =>
      let j := rfind_from c r (i + 1) in
      if j =? -1 then (if Ascii.eqb a c then i else -1) else j
  end.

Definition rfind (s : string) (c : ascii) : Z := rfind_from c s 0.

(** [s[lo:hi]] for [0 <= lo]; the slice is clamped to the string. *)
Definition slice (s : string) (lo hi : Z) : string :=
  substring (Z.to_nat lo) (Z.to_nat (hi - lo)) s.

(** [c.lower()] on the code points below 256: A-Z and the accented
    capitals 192-222 (except the multiplication sign 215). *)
Definition lower_char (a : ascii) : ascii :=
  let n := nat_of_ascii a in
  if ((65 <=? n) && (n <=? 90))%nat
     || ((192 <=? n) && (n <=? 222) && negb (n =? 215))%nat
  then ascii_of_nat (n + 32) else a.

Fixpoint lower (s : string) : string :=
  match s with
  | EmptyString => EmptyString
  | String a r => String (lower_char a) (lower r)
  end.

(** [sub in s] *)
Fixpoint contains (sub s : string) : bool :=
  prefix sub s
  || match s with
     | EmptyString => false
     | String _ r => contains sub r
     end.

(** [len(s)] *)
Definition len (s : string) : Z := Z.of_nat (String.length s).

(** [str(n)] for an integer. *)
Definition str_of_Z (n : Z) : string := NilZero.string_of_int (Z.to_int n).

End PyStr.

(** ** JSON values, as [json.loads] returns them *)

#[warnings="-register-all"]
Inductive json : Type :=
| JNull
| JBool (b : bool)
| JInt (n : Z)
| JFloat (literal : string)
| JStr (s : string)
| JArr (items : list json)
| JObj (members : list (string * json)).

(** Python truthiness of a decoded value. *)
Definition truthy (v : json) : bool :=
  match v with
  | JNull => false
  | JBool b => b
  | JInt n => negb (n =? 0)
  | JFloat _ => true
  | JStr s => negb (String.eqb s "")
  | JArr l => match l with [] => false | _ => true end
  | JObj l => match l with [] => false | _ => true end
  end.

(** [if not v] for the optional result of the extractor. *)
Definition truthy_opt (o : option json) : bool :=
  match o with Some v => truthy v | None => false end.

Definition is_list (v : json) : bool :=
  match v with JArr _ => true | _ => false end.

(** [d.get(k)]: with duplicated keys the decoder keeps the last one. *)
Fixpoint dict_get (k : string) (members : list (string * json)) : option json :=
  match members with
  | [] => None
  | (k', v) :: rest =>
      match dict_get k rest with
      | Some w => Some w
      | None => if String.eqb k' k then Some v else None
      end
  end.

(** ** Calls that can raise *)

(** A call that either returns or raises. *)
Inductive outcome (A : Type) : Type :=
| Returned (a : A)
| Raised (error : string).

Arguments Returned {A} a.
Arguments Raised {A} error.

Definition bind_outcome {A B : Type} (o : outcome A) (k : A -> outcome B)
  : outcome B :=
  match o with
  | Returned a => k a
  | Raised e => Raised e
  end.

(** [[f(x) for x in l]], stopping at the first call that raises. *)
Fixpoint map_outcome {A B : Type} (f : A -> outcome B) (l : list A)
  : outcome (list B) :=
  match l with
  | [] => Returned []
  | x :: rest =>
      bind_outcome (f x) (fun y =>
      bind_outcome (map_outcome f rest) (fun ys => Returned (y :: ys)))
  end.

Definition of_option {A : Type} (error : string) (o : option A) : outcome A :=
  match o with
  | Some a => Returned a
  | None => Raised error
  end.

(** What [json.loads] does with a text: it returns the decoded value,
    raises [JSONDecodeError], or raises another exception ([RecursionError]
    for a text nested deeper than the interpreter allows, [ValueError] for an
    integer literal longer than the interpreter converts). *)
Inductive loads_result : Type :=
| Loaded (v : json)
| JSONDecodeError
| LoadsError (error : string).

(** ** Response extractor ([server.py], [_extract_json_from_text]) *)

Section Extractor.

(** [json.loads] *)
Variable json_loads : string -> loads_result.

Definition start_char_of (expected_type : string) : ascii :=
  if String.eqb expected_type "array" then "["%char else "{"%char.

Definition end_char_of (expected_type : string) : ascii :=
  if String.eqb expected_type "array" then "]"%char else "}"%char.

(** [except json.JSONDecodeError: pass] catches the decoding error only;
    any other exception of [json.loads] leaves the function. *)
Definition _extract_json_from_text (text expected_type : string)
  : outcome (option json) :=
  let text := PyStr.strip text in
  let start_char := start_char_of expected_type in
  let end_char := end_char_of expected_type in
  let second_attempt :=
    let start_idx := PyStr.find text start_char in
    let end_idx := PyStr.rfind text end_char in
    if negb (start_idx =? -1) && (end_idx >? start_idx)
    then
      match json_loads (PyStr.slice text start_idx (end_idx + 1)) with
      | Loaded v => Returned (Some v)
      | JSONDecodeError => Returned None
      | LoadsError e => Raised e
      end
    else Returned None in
  if PyStr.startswith text start_char then
    match json_loads text with
    | Loaded v => Returned (Some v)
    | JSONDecodeError => second_attempt
    | LoadsError e => Raised e
    end
  else second_attempt.

(** The extractor as the specification words it, on a text that is
    already trimmed: a direct parse when the text opens with the delimiter,
    then the span from the first opening to the last closing delimiter,
    then absence. *)

Fixpoint first_occurrence (c : ascii) (s : string) : option nat :=
  match s with
  | EmptyString => None
  | String a r =>
      if Ascii.eqb a c then Some O
      else option_map S (first_occurrence c r)
  end.

Fixpoint last_occurrence (c : ascii) (s : string) : option nat :=
  match s with
  | EmptyString => None
  | String a r =>
      match last_occurrence c r with
      | Some n => Some (S n)
      | None => if Ascii.eqb a c then Some O else None
      end
  end.

(** The characters at positions [i..j], both included. *)
Definition span (s : string) (i j : nat) : string :=
  substring i (S j - i) s.

(** A parse attempt that is not made counts as a failed one. *)
Definition direct_parse (t : string) (opening : ascii) : loads_result :=
  match t with
  | String a _ => if Ascii.eqb a opening then json_loads t else JSONDecodeError
  | EmptyString => JSONDecodeError
  end.

Definition fallback_parse (t : string) (opening closing : ascii)
  : loads_result :=
  match first_occurrence opening t, last_occurrence closing t with
  | Some i, Some j =>
      if (i <? j)%nat then json_loads (span t i j) else JSONDecodeError
  | _, _ => JSONDecodeError
  end.

Definition extract_trimmed (t expected_type : string) : outcome (option json) :=
  let opening := start_char_of expected_type in
  let closing := end_char_of expected_type in
  match direct_parse t opening with
  | Loaded v => Returned (Some v)
  | LoadsError e => Raised e
  | JSONDecodeError =>
      match fallback_parse t opening closing with
      | Loaded v => Returned (Some v)
      | LoadsError e => Raised e
      | JSONDecodeError => Returned None
      end
  end.

Definition extract_spec (text expected_type : string) : outcome (option json) :=
  extract_trimmed (PyStr.strip text) expected_type.

End Extractor.

(** ** A reference reader and writer for JSON

    [json.loads] and [json.dumps] belong to the Python library; the
    extractor and the store take the reader as a parameter.  The reader
    below follows the library's grammar (strict mode) and serves as the
    instance on which the parametric results are evaluated.  Escapes of the
    form [\uXXXX] and the constants [NaN] and [Infinity] are not read, and of
    the interpreter's limits only the recursion limit is modelled (not the
    limit on the digits of an integer literal). *)

Module JsonRef.

Definition is_ws (a : ascii) : bool :=
  Ascii.eqb a " "%char || Ascii.eqb a "009"%char
  || Ascii.eqb a "010"%char || Ascii.eqb a "013"%char.

Fixpoint skip_ws (s : string) : string :=
  match s with
  | EmptyString => EmptyString
  | String a r => if is_ws a then skip_ws r else s
  end.

Definition is_digit (a : ascii) : bool :=
  let n := nat_of_ascii a in ((48 <=? n) && (n <=? 57))%nat.

(** The longest run of digits at the head of [s], and what follows. *)
Fixpoint take_digits (s : string) : string * string :=
  match s with
  | EmptyString => (EmptyString, EmptyString)
  | String a r =>
      if is_digit a
      then let (ds, rest) := take_digits r in (String a ds, rest)
      else (EmptyString, s)
  end.

Definition leading_zero (ds : string) : bool :=
  match ds with
  | String a (String _ _) => Ascii.eqb a "0"%char
  | _ => false
  end.

(** [\.\d+], if the text goes on with a point. *)
Definition take_frac (s : string) : option (string * string) :=
  match s with
  | String c r =>
      if Ascii.eqb c "."%char then
        match take_digits r with
        | (EmptyString, _) => None
        | (fs, rest) => Some (String c fs, rest)
        end
      else Some (EmptyString, s)
  | EmptyString => Some (EmptyString, s)
  end.

(** [[eE][-+]?\d+], if the text goes on with an exponent mark. *)
Definition take_exp (s : string) : option (string * string) :=
  match s with
  | String e r =>
      if Ascii.eqb e "e"%char || Ascii.eqb e "E"%char then
        let (sign, r') :=
          match r with
          | String g r1 =>
              if Ascii.eqb g "+"%char || Ascii.eqb g "-"%char
              then (String g EmptyString, r1) else (EmptyString, r)
          | EmptyString => (EmptyString, r)
          end in
        match take_digits r' with
        | (EmptyString, _) => None
        | (es, rest) => Some (String e (sign ++ es), rest)
        end
      else Some (EmptyString, s)
  | EmptyString => Some (EmptyString, s)
  end.

(** The number at the head of [s], after its sign. *)
Definition parse_unsigned (neg : bool) (s : string) : option (json * string) :=
  let (ds, r1) := take_digits s in
  if leading_zero ds then None else
  match NilZero.uint_of_string ds with
  | None => None
  | Some d =>
      match take_frac r1 with
      | None => None
      | Some (fs, r2) =>
          match take_exp r2 with
          | None => None
          | Some (es, r3) =>
              match fs, es with
              | EmptyString, EmptyString =>
                  let n := Z.of_uint d in
                  Some (JInt (if neg then - n else n), r3)
              | _, _ =>
                  Some (JFloat ((if neg then "-" else "") ++ ds ++ fs ++ es), r3)
              end
          end
      end
  end.

Definition parse_number (s : string) : option (json * string) :=
  match s with
  | String c r =>
      if Ascii.eqb c "-"%char then parse_unsigned true r
      else parse_unsigned false s
  | EmptyString => None
  end.

Definition unescape (a : ascii) : option ascii :=
  if Ascii.eqb a PyStr.dquote then Some PyStr.dquote
  else if Ascii.eqb a PyStr.backslash then Some PyStr.backslash
  else if Ascii.eqb a "/"%char then Some "/"%char
  else if Ascii.eqb a "b"%char then Some "008"%char
  else if Ascii.eqb a "f"%char then Some "012"%char
  else if Ascii.eqb a "n"%char then Some "010"%char
  else if Ascii.eqb a "r"%char then Some "013"%char
  else if Ascii.eqb a "t"%char then Some "009"%char
  else None.

(** The body of a string literal, after its opening quote. *)
Fixpoint parse_chars (s : string) : option (string * string) :=
  match s with
  | EmptyString => None
  | String a r =>
      if Ascii.eqb a PyStr.dquote then Some (EmptyString, r)
      else if Ascii.eqb a PyStr.backslash then
        match r with
        | String e r' =>
            match unescape e, parse_chars r' with
            | Some c, Some (body, rest) => Some (String c body, rest)
            | _, _ => None
            end
        | EmptyString => None
        end
      else if (nat_of_ascii a <? 32)%nat then None
      else
        match parse_chars r with
        | Some (body, rest) => Some (String a body, rest)
        | None => None
        end
  end.

(** What follows the word [w] at the head of [s], if [s] starts with it. *)
Fixpoint after_word (w s : string) : option string :=
  match w, s with
  | EmptyString, _ => Some s
  | String a w', String b s' => if Ascii.eqb a b then after_word w' s' else None
  | String _ _, EmptyString => None
  end.

Definition parse_word (s : string) : option (json * string) :=
  match after_word "null" s, after_word "true" s, after_word "false" s with
  | Some r, _, _ => Some (JNull, r)
  | None, Some r, _ => Some (JBool true, r)
  | None, None, Some r => Some (JBool false, r)
  | None, None, None => parse_number s
  end.

Definition starts_with (c : ascii) (s : string) : bool :=
  match s with
  | String a _ => Ascii.eqb a c
  | EmptyString => false
  end.

Definition tail (s : string) : string :=
  match s with
  | String _ r => r
  | EmptyString => EmptyString
  end.

(** How reading a value ends: the value and the text after it, a text
    that is not JSON, or a nesting deeper than the recursion limit. *)
Inductive parsed (A : Type) : Type :=
| Ok (a : A) (rest : string)
| Malformed
| TooDeep.

Arguments Ok {A} a rest.
Arguments Malformed {A}.
Arguments TooDeep {A}.

Definition of_scalar (o : option (json * string)) : parsed json :=
  match o with
  | Some (v, rest) => Ok v rest
  | None => Malformed
  end.

(** [room] is the number of arrays and objects that may still be entered,
    one inside the other; the decoder checks it on entering each of them. *)
Fixpoint parse_value (fuel room : nat) (s : string) : parsed json :=
  match fuel with
  | O => Malformed
  | S fuel' =>
      if starts_with "["%char s then
        match room with
        | O => TooDeep
        | S room' =>
            let r := skip_ws (tail s) in
            if starts_with "]"%char r then Ok (JArr []) (tail r)
            else
              match parse_items fuel' room' r with
              | Ok vs rest => Ok (JArr vs) rest
              | Malformed => Malformed
              | TooDeep => TooDeep
              end
        end
      else if starts_with "{"%char s then
        match room with
        | O => TooDeep
        | S room' =>
            let r := skip_ws (tail s) in
            if starts_with "}"%char r then Ok (JObj []) (tail r)
            else
              match parse_members fuel' room' r with
              | Ok ms rest => Ok (JObj ms) rest
              | Malformed => Malformed
              | TooDeep => TooDeep
              end
        end
      else if starts_with PyStr.dquote s then
        match parse_chars (tail s) with
        | Some (body, rest) => Ok (JStr body) rest
        | None => Malformed
        end
      else of_scalar (parse_word s)
  end

(** The items of an array up to and including its closing bracket; the
    text starts at the first item. *)
with parse_items (fuel room : nat) (s : string) : parsed (list json) :=
  match fuel with
  | O => Malformed
  | S fuel' =>
      match parse_value fuel' room s with
      | Malformed => Malformed
      | TooDeep => TooDeep
      | Ok v r =>
          let r1 := skip_ws r in
          if starts_with ","%char r1 then
            match parse_items fuel' room (skip_ws (tail r1)) with
            | Ok vs rest => Ok (v :: vs) rest
            | Malformed => Malformed
            | TooDeep => TooDeep
            end
          else if starts_with "]"%char r1 then Ok [v] (tail r1)
          else Malformed
      end
  end

(** The members of an object up to and including its closing brace. *)
with parse_members (fuel room : nat) (s : string)
  : parsed (list (string * json)) :=
  match fuel with
  | O => Malformed
  | S fuel' =>
      if starts_with PyStr.dquote s then
        match parse_chars (tail s) with
        | None => Malformed
        | Some (k, r1) =>
            let r2 := skip_ws r1 in
            if starts_with ":"%char r2 then
              match parse_value fuel' room (skip_ws (tail r2)) with
              | Malformed => Malformed
              | TooDeep => TooDeep
              | Ok v r3 =>
                  let r4 := skip_ws r3 in
                  if starts_with ","%char r4 then
                    match parse_members fuel' room (skip_ws (tail r4)) with
                    | Ok ms rest => Ok ((k, v) :: ms) rest
                    | Malformed => Malformed
                    | TooDeep => TooDeep
                    end
                  else if starts_with "}"%char r4 then Ok [(k, v)] (tail r4)
                  else Malformed
              end
            else Malformed
        end
      else Malformed
  end.

(** [json.loads(s)] in an interpreter that lets the decoder enter
    [recursion_limit] arrays and objects one inside the other. *)
Definition loads_within (recursion_limit : nat) (s : string) : loads_result :=
  match parse_value (2 * String.length s + 2) recursion_limit (skip_ws s) with
  | Ok v rest =>
      match skip_ws rest with
      | EmptyString => Loaded v
      | _ => JSONDecodeError
      end
  | Malformed => JSONDecodeError
  | TooDeep => LoadsError "RecursionError"
  end.

(** The interpreter's default, [sys.getrecursionlimit()]. *)
Definition recursion_limit : nat := 1000.

(** [json.loads(s)] *)
Definition loads (s : string) : loads_result := loads_within recursion_limit s.

(** [json.dumps(l)] for a list of integers. *)
Definition dumps_ints (l : list Z) : string :=
  "[" ++ String.concat ", " (map PyStr.str_of_Z l) ++ "]".

End JsonRef.

(** ** Schemas ([models/schemas.py]) *)

Inductive TaskStatus : Type := PENDING | IN_PROGRESS | COMPLETED | DELETED.

Inductive Priority : Type := LOW | MEDIUM | HIGH | CRITICAL.

Inductive PlanCategory : Type :=
| PROJECT | PERSONAL | LEARNING | BUSINESS | CREATIVE | RESEARCH
| MAINTENANCE | CODE | DEBUGGING | BACKEND | FRONTEND | SYSTEM_DESIGN
| FEATURE_DEVELOPMENT.

(** The [.value] of each enumeration member. *)
Definition TaskStatus_value (s : TaskStatus) : string :=
  match s with
  | PENDING => "pending"
  | IN_PROGRESS => "in_progress"
  | COMPLETED => "completed"
  | DELETED => "deleted"
  end.

Definition Priority_value (p : Priority) : string :=
  match p with
  | LOW => "low"
  | MEDIUM => "medium"
  | HIGH => "high"
  | CRITICAL => "critical"
  end.

Definition PlanCategory_value (c : PlanCategory) : string :=
  match c with
  | PROJECT => "project"
  | PERSONAL => "personal"
  | LEARNING => "learning"
  | BUSINESS => "business"
  | CREATIVE => "creative"
  | RESEARCH => "research"
  | MAINTENANCE => "maintenance"
  | CODE => "code"
  | DEBUGGING => "debugging"
  | BACKEND => "backend"
  | FRONTEND => "frontend"
  | SYSTEM_DESIGN => "system_design"
  | FEATURE_DEVELOPMENT => "feature_development"
  end.

(** Lookup of a member by value, [E(value)]; [None] is [ValueError]. *)
Definition lookup_by_value {E : Type} (value_of : E -> string) (members : list E)
  (v : string) : option E :=
  find (fun m => String.eqb (value_of m) v) members.

Definition TaskStatus_of_value : string -> option TaskStatus :=
  lookup_by_value TaskStatus_value [PENDING; IN_PROGRESS; COMPLETED; DELETED].

Definition Priority_of_value : string -> option Priority :=
  lookup_by_value Priority_value [LOW; MEDIUM; HIGH; CRITICAL].

Definition PlanCategory_of_value : string -> option PlanCategory :=
  lookup_by_value PlanCategory_value
    [PROJECT; PERSONAL; LEARNING; BUSINESS; CREATIVE; RESEARCH; MAINTENANCE;
     CODE; DEBUGGING; BACKEND; FRONTEND; SYSTEM_DESIGN; FEATURE_DEVELOPMENT].

Definition TaskStatus_eqb (a b : TaskStatus) : bool :=
  match a, b with
  | PENDING, PENDING | IN_PROGRESS, IN_PROGRESS
  | COMPLETED, COMPLETED | DELETED, DELETED => true
  | _, _ => false
  end.

Module Task.
Record t : Type := mk {
  id : option Z;
  plan_id : Z;
  title : string;
  description : option string;
  status : TaskStatus;
  priority : Priority;
  order_index : Z;
  dependencies : list Z;
  created_at : option Z;
  updated_at : option Z;
  completed_at : option Z
}.
End Task.

Module Plan.
Record t : Type := mk {
  id : option Z;
  title : string;
  description : option string;
  category : PlanCategory;
  goal : string;
  status : TaskStatus;
  total_tasks : Z;
  completed_tasks : Z;
  created_at : option Z;
  updated_at : option Z;
  tasks : list Task.t
}.

(** [is_completed] *)
Definition is_completed (p : t) : bool :=
  (total_tasks p >? 0) && (completed_tasks p =? total_tasks p).
End Plan.

(** The [Field] constraints, checked when a value is constructed. *)
Definition len_between (lo hi : nat) (s : string) : bool :=
  ((lo <=? String.length s) && (String.length s <=? hi))%nat.

Definition opt_len_at_most (hi : nat) (o : option string) : bool :=
  match o with
  | Some s => (String.length s <=? hi)%nat
  | None => true
  end.

Definition Task_valid (t : Task.t) : bool :=
  len_between 1 200 (Task.title t) && opt_len_at_most 1000 (Task.description t).

Definition Plan_valid (p : Plan.t) : bool :=
  len_between 1 200 (Plan.title p)
  && opt_len_at_most 1000 (Plan.description p)
  && len_between 1 500 (Plan.goal p)
  && forallb Task_valid (Plan.tasks p).

(** ** Tables ([database/models.py]) *)

Module PlanModel.
Record t : Type := mk {
  id : Z;
  title : string;
  description : option string;
  category : string;
  goal : string;
  status : string;
  total_tasks : Z;
  completed_tasks : Z;
  created_at : Z;
  updated_at : Z
}.
End PlanModel.

Module TaskModel.
Record t : Type := mk {
  id : Z;
  plan_id : Z;
  title : string;
  description : option string;
  status : string;
  priority : string;
  order_index : Z;
  dependencies : string;
  created_at : Z;
  updated_at : Z;
  completed_at : option Z
}.
End TaskModel.

(** Construction of a schema value: the field constraints are checked,
    task values that are already constructed are taken as they are. *)
Definition Task_new (t : Task.t) : outcome Task.t :=
  if Task_valid t then Returned t else Raised "ValidationError".

Definition Plan_new (p : Plan.t) : outcome Plan.t :=
  if len_between 1 200 (Plan.title p)
     && opt_len_at_most 1000 (Plan.description p)
     && len_between 1 500 (Plan.goal p)
  then Returned p else Raised "ValidationError".

(** ** Query helpers *)

(** [ORDER BY key]: rows with equal keys keep their table order. *)
Fixpoint insert_by {A : Type} (leb : A -> A -> bool) (x : A) (l : list A) : list A :=
  match l with
  | [] => [x]
  | y :: rest => if leb x y then x :: l else y :: insert_by leb x rest
  end.

Fixpoint order_by {A : Type} (leb : A -> A -> bool) (l : list A) : list A :=
  match l with
  | [] => []
  | x :: rest => insert_by leb x (order_by leb rest)
  end.

(** Update of the row that [.first()] returned. *)
Fixpoint update_first {A : Type} (p : A -> bool) (f : A -> A) (l : list A) : list A :=
  match l with
  | [] => []
  | x :: rest => if p x then f x :: rest else x :: update_first p f rest
  end.

(** Deletion of the row that [.first()] returned. *)
Fixpoint delete_first {A : Type} (p : A -> bool) (l : list A) : list A :=
  match l with
  | [] => []
  | x :: rest => if p x then rest else x :: delete_first p rest
  end.

Definition mem_Z (x : Z) (l : list Z) : bool := existsb (Z.eqb x) l.

(** The members of [set(l)], each once. *)
Fixpoint distinct (l : list Z) : list Z :=
  match l with
  | [] => []
  | x :: rest => if mem_Z x rest then distinct rest else x :: distinct rest
  end.

(** The key SQLite gives a new row: one more than the largest key in the
    table, [1] in an empty table. *)
Definition next_rowid (ids : list Z) : Z := 1 + fold_right Z.max 0 ids.

(** [func.max(column)] over the selected rows, [None] without rows. *)
Definition sql_max (l : list Z) : option Z :=
  match l with
  | [] => None
  | x :: rest => Some (fold_right Z.max x rest)
  end.

(** ** The store ([database/manager.py]) *)

(** The two tables, and the number of clock readings taken so far. *)
Record World : Type := mkWorld {
  plans : list PlanModel.t;
  tasks : list TaskModel.t;
  ticks : nat
}.

Definition empty_world : World := mkWorld [] [] 0.

Section Store.

(** The value of the [k]-th reading of the clock: [datetime.now()] in the
    manager and [func.now()] in the column defaults. *)
Variable clock : nat -> Z.

(** [json.loads] *)
Variable json_loads : string -> loads_result.

Definition now (w : World) : Z * World :=
  (clock (ticks w), mkWorld (plans w) (tasks w) (S (ticks w))).

Definition plan_has_id (pid : Z) (p : PlanModel.t) : bool :=
  PlanModel.id p =? pid.

(** [session.query(PlanModel).filter(PlanModel.id == pid).first()] *)
Definition first_plan (w : World) (pid : Z) : option PlanModel.t :=
  List.find (plan_has_id pid) (plans w).

Definition owned_by (pid : Z) (t : TaskModel.t) : bool :=
  TaskModel.plan_id t =? pid.

(** *** create_plan *)

Definition insert_plan (plan : Plan.t) (w : World) : PlanModel.t * World :=
  let (t, w1) := now w in
  let row :=
    PlanModel.mk
      (next_rowid (map PlanModel.id (plans w)))
      (Plan.title plan)
      (Plan.description plan)
      (PlanCategory_value (Plan.category plan))
      (Plan.goal plan)
      (TaskStatus_value (Plan.status plan))
      (Z.of_nat (List.length (Plan.tasks plan)))
      0
      t t in
  (row, mkWorld (plans w1 ++ [row]) (tasks w1) (ticks w1)).

Definition insert_task (pid : Z) (order_index : Z) (task : Task.t) (w : World)
  : TaskModel.t * World :=
  let (t, w1) := now w in
  let row :=
    TaskModel.mk
      (next_rowid (map TaskModel.id (tasks w)))
      pid
      (Task.title task)
      (Task.description task)
      (TaskStatus_value (Task.status task))
      (Priority_value (Task.priority task))
      order_index
      (JsonRef.dumps_ints (Task.dependencies task))
      t t None in
  (row, mkWorld (plans w1) (tasks w1 ++ [row]) (ticks w1)).

(** The task after [create_plan] has copied the row's key and times. *)
Definition created_task (task : Task.t) (row : TaskModel.t) : Task.t :=
  Task.mk
    (Some (TaskModel.id row))
    (TaskModel.plan_id row)
    (Task.title task)
    (Task.description task)
    (Task.status task)
    (Task.priority task)
    (Task.order_index task)
    (Task.dependencies task)
    (Some (TaskModel.created_at row))
    (Some (TaskModel.updated_at row))
    (Task.completed_at task).

(** [for i, task in enumerate(plan.tasks)], from index [i]. *)
Fixpoint create_tasks (pid : Z) (i : Z) (l : list Task.t) (w : World)
  : list Task.t * World :=
  match l with
  | [] => ([], w)
  | task :: rest =>
      let (row, w1) := insert_task pid i task w in
      let (created, w2) := create_tasks pid (i + 1) rest w1 in
      (created_task task row :: created, w2)
  end.

Definition create_plan (w : World) (plan : Plan.t) : Plan.t * World :=
  let (plan_model, w1) := insert_plan plan w in
  let (created_tasks, w2) :=
    create_tasks (PlanModel.id plan_model) 0 (Plan.tasks plan) w1 in
  (Plan.mk
     (Some (PlanModel.id plan_model))
     (Plan.title plan)
     (Plan.description plan)
     (Plan.category plan)
     (Plan.goal plan)
     (Plan.status plan)
     (PlanModel.total_tasks plan_model)
     (PlanModel.completed_tasks plan_model)
     (Some (PlanModel.created_at plan_model))
     (Some (PlanModel.updated_at plan_model))
     created_tasks,
   w2).

(** *** get_plan *)

(** [json.loads(row.dependencies) if row.dependencies else []], and the
    schema's check that the value is a list of integers.  The conversions
    the schema library applies to other values (numeric strings, whole
    floats) do not arise for columns written by this module and are read as
    validation errors. *)
Definition decode_dependencies (s : string) : outcome (list Z) :=
  if String.eqb s "" then Returned []
  else
    match json_loads s with
    | JSONDecodeError => Raised "JSONDecodeError"
    | LoadsError e => Raised e
    | Loaded (JArr items) =>
        map_outcome
          (fun v => match v with
                    | JInt n => Returned n
                    | _ => Raised "ValidationError"
                    end) items
    | Loaded _ => Raised "ValidationError"
    end.

Definition task_of_row (row : TaskModel.t) : outcome Task.t :=
  bind_outcome (of_option "ValueError" (TaskStatus_of_value (TaskModel.status row)))
    (fun status =>
  bind_outcome (of_option "ValueError" (Priority_of_value (TaskModel.priority row)))
    (fun priority =>
  bind_outcome (decode_dependencies (TaskModel.dependencies row))
    (fun dependencies =>
  Task_new
    (Task.mk
       (Some (TaskModel.id row))
       (TaskModel.plan_id row)
       (TaskModel.title row)
       (TaskModel.description row)
       status priority
       (TaskModel.order_index row)
       dependencies
       (Some (TaskModel.created_at row))
       (Some (TaskModel.updated_at row))
       (TaskModel.completed_at row))))).

Definition plan_of_row (row : PlanModel.t) (tasks : list Task.t) : outcome Plan.t :=
  bind_outcome (of_option "ValueError" (PlanCategory_of_value (PlanModel.category row)))
    (fun category =>
  bind_outcome (of_option "ValueError" (TaskStatus_of_value (PlanModel.status row)))
    (fun status =>
  Plan_new
    (Plan.mk
       (Some (PlanModel.id row))
       (PlanModel.title row)
       (PlanModel.description row)
       category
       (PlanModel.goal row)
       status
       (PlanModel.total_tasks row)
       (PlanModel.completed_tasks row)
       (Some (PlanModel.created_at row))
       (Some (PlanModel.updated_at row))
       tasks))).

Definition by_order_index (a b : TaskModel.t) : bool :=
  TaskModel.order_index a <=? TaskModel.order_index b.

Definition get_plan (w : World) (plan_id : Z) : outcome (option Plan.t) :=
  match first_plan w plan_id with
  | None => Returned None
  | Some plan_model =>
      let task_models :=
        order_by by_order_index (filter (owned_by plan_id) (tasks w)) in
      bind_outcome (map_outcome task_of_row task_models) (fun tasks =>
      bind_outcome (plan_of_row plan_model tasks) (fun plan =>
      Returned (Some plan)))
  end.

(** *** get_all_plans *)

Definition is_active (p : PlanModel.t) : bool :=
  (PlanModel.total_tasks p =? 0)
  || (PlanModel.completed_tasks p <? PlanModel.total_tasks p).

Definition by_updated_at_desc (a b : PlanModel.t) : bool :=
  PlanModel.updated_at b <=? PlanModel.updated_at a.

(** [OFFSET] and [LIMIT] as SQLite reads them: a negative offset is no
    offset, a negative limit is no limit. *)
Definition offset_limit {A : Type} (offset limit : Z) (l : list A) : list A :=
  let rest := skipn (Z.to_nat offset) l in
  if limit <? 0 then rest else firstn (Z.to_nat limit) rest.

Definition select_plans (w : World) (include_completed : bool)
  (page page_size : Z) : list PlanModel.t :=
  let query := plans w in
  let query := if negb include_completed then filter is_active query else query in
  let query := order_by by_updated_at_desc query in
  let offset := (page - 1) * page_size in
  offset_limit offset page_size query.

Definition get_all_plans (w : World) (include_completed : bool)
  (page page_size : Z) : outcome (list Plan.t) :=
  map_outcome (fun plan_model => plan_of_row plan_model [])
    (select_plans w include_completed page page_size).

(** *** _update_plan_progress *)

Definition not_deleted (t : TaskModel.t) : bool :=
  negb (String.eqb (TaskModel.status t) "deleted").

Definition is_completed_row (t : TaskModel.t) : bool :=
  String.eqb (TaskModel.status t) "completed".

(** The rows the progress query aggregates over. *)
Definition progress_rows (w : World) (plan_id : Z) : list TaskModel.t :=
  filter (fun t => owned_by plan_id t && not_deleted t) (tasks w).

(** [func.count(TaskModel.id)] *)
Definition progress_total (w : World) (plan_id : Z) : Z :=
  Z.of_nat (List.length (progress_rows w plan_id)).

(** [func.sum(case((status == 'completed', 1), else_=0))], [or 0]. *)
Definition progress_completed (w : World) (plan_id : Z) : Z :=
  fold_right (fun t acc => (if is_completed_row t then 1 else 0) + acc) 0
    (progress_rows w plan_id).

Definition set_progress (total completed updated_at : Z) (p : PlanModel.t)
  : PlanModel.t :=
  PlanModel.mk (PlanModel.id p) (PlanModel.title p) (PlanModel.description p)
    (PlanModel.category p) (PlanModel.goal p) (PlanModel.status p)
    total completed (PlanModel.created_at p) updated_at.

Definition _update_plan_progress (w : World) (plan_id : Z) : World :=
  let total := progress_total w plan_id in
  let completed := progress_completed w plan_id in
  match first_plan w plan_id with
  | None => w
  | Some _ =>
      let (t, w1) := now w in
      mkWorld
        (update_first (plan_has_id plan_id) (set_progress total completed t)
           (plans w1))
        (tasks w1) (ticks w1)
  end.

(** *** update_task_status *)

Definition set_task_status (status : string) (update_time : Z)
  (completed_time : option Z) (t : TaskModel.t) : TaskModel.t :=
  TaskModel.mk (TaskModel.id t) (TaskModel.plan_id t) (TaskModel.title t)
    (TaskModel.description t) status (TaskModel.priority t)
    (TaskModel.order_index t) (TaskModel.dependencies t)
    (TaskModel.created_at t) update_time
    (match completed_time with
     | Some c => Some c
     | None => TaskModel.completed_at t
     end).

Definition targeted (task_ids : list Z) (t : TaskModel.t) : bool :=
  mem_Z (TaskModel.id t) task_ids.

Definition update_task_status (w : World) (task_ids : list Z)
  (status : TaskStatus) (notes : option string) : bool * World :=
  let (update_time, w1) := now w in
  let completed_time :=
    if TaskStatus_eqb status COMPLETED then Some update_time else None in
  let affected_tasks := filter (targeted task_ids) (tasks w1) in
  match affected_tasks with
  | [] => (false, w1)
  | _ =>
      let w2 :=
        mkWorld (plans w1)
          (map (fun t =>
                  if targeted task_ids t
                  then set_task_status (TaskStatus_value status) update_time
                         completed_time t
                  else t)
             (tasks w1))
          (ticks w1) in
      let affected_plan_ids := distinct (map TaskModel.plan_id affected_tasks) in
      (true, fold_left _update_plan_progress affected_plan_ids w2)
  end.

(** *** add_tasks_to_plan *)

(** [for i, task in enumerate(new_tasks)], from index [i]. *)
Fixpoint add_tasks (plan_id max_index i : Z) (l : list Task.t) (w : World)
  : World :=
  match l with
  | [] => w
  | task :: rest =>
      let (_, w1) := insert_task plan_id (max_index + 1 + i) task w in
      add_tasks plan_id max_index (i + 1) rest w1
  end.

Definition add_tasks_to_plan (w : World) (plan_id : Z) (new_tasks : list Task.t)
  : bool * World :=
  let max_index :=
    match sql_max (map TaskModel.order_index
                     (filter (owned_by plan_id) (tasks w))) with
    | None => -1
    | Some m => if m =? 0 then -1 else m
    end in
  let w1 := add_tasks plan_id max_index 0 new_tasks w in
  (true, _update_plan_progress w1 plan_id).

(** *** update_plan_info *)

Definition set_info (title description : option string) (updated_at : Z)
  (p : PlanModel.t) : PlanModel.t :=
  PlanModel.mk (PlanModel.id p)
    (match title with
     | Some s => if String.eqb s "" then PlanModel.title p else s
     | None => PlanModel.title p
     end)
    (match description with
     | Some d => Some d
     | None => PlanModel.description p
     end)
    (PlanModel.category p) (PlanModel.goal p) (PlanModel.status p)
    (PlanModel.total_tasks p) (PlanModel.completed_tasks p)
    (PlanModel.created_at p) updated_at.

Definition update_plan_info (w : World) (plan_id : Z)
  (title description : option string) : bool * World :=
  match first_plan w plan_id with
  | None => (false, w)
  | Some _ =>
      let (t, w1) := now w in
      (true,
       mkWorld (update_first (plan_has_id plan_id) (set_info title description t)
                  (plans w1))
         (tasks w1) (ticks w1))
  end.

(** *** delete_plan *)

(** The plan row goes, and with it (cascade) the rows of its tasks. *)
Definition delete_plan (w : World) (plan_id : Z) : bool * World :=
  match first_plan w plan_id with
  | None => (false, w)
  | Some _ =>
      (true,
       mkWorld (delete_first (plan_has_id plan_id) (plans w))
         (filter (fun t => negb (owned_by plan_id t)) (tasks w))
         (ticks w))
  end.

End Store.

(** ** The generation workflow ([server.py], [new_plan]) *)

(** What [ctx.sample] gives back: the text of the reply, or an exception
    with its message. *)
Inductive sample_result : Type :=
| Sampled (text : string)
| SampleError (message : string).

(** What [ctx.elicit] gives back. *)
Record elicit_result : Type := mkElicit {
  action : string;
  data : option string
}.

(** The text [new_plan] returns, by case:
    - [GenerationFailed e]: the failure report after the last attempt, which
      quotes the error [e];
    - [NoValidTasks]: the report that no task was generated;
    - [Cancelled]: "Plan creation cancelled.";
    - [Created p]: the success report for the stored plan [p];
    - [Unhandled e]: an exception that leaves [new_plan]. *)
Inductive new_plan_result : Type :=
| GenerationFailed (error : string)
| NoValidTasks
| Cancelled
| Created (plan : Plan.t)
| Unhandled (error : string).

Definition max_retries : Z := 3.

Definition nl2 : string := String PyStr.newline (String PyStr.newline EmptyString).
Definition nl1 : string := String PyStr.newline EmptyString.

(** The clause appended to the prompt after an invalid reply. *)
Definition JSON_ONLY : string :=
  nl2 ++ "IMPORTANT: You MUST respond with ONLY a valid JSON array of task objects. No explanations, no markdown, just the JSON array.".

Definition INVALID_TASK_LIST : string :=
  "LLM failed to generate valid task list after multiple attempts".

Section Workflow.

Variable clock : nat -> Z.
Variable json_loads : string -> loads_result.

(** The generative service: the reply to the [k]-th request of this
    invocation, given the content of its message. *)
Variable sample : nat -> string -> sample_result.

(** The conversion of a decoded value to [int] by the schema library;
    [None] is a validation error. *)
Variable int_of_json : json -> option Z.

(** [json.dumps(..., indent=2)] of the title, priority and description of
    the current tasks. *)
Variable dumps_tasks : list Task.t -> string.

(** *** _create_task_from_dict *)

(** [Task(...)] on values as decoded: the schema checks their types. *)
Definition Task_of_decoded (plan_id : Z) (title : json)
  (description : option json) (priority : Priority) (order_index : Z)
  (dependencies : json) : outcome Task.t :=
  match title with
  | JStr title_str =>
      bind_outcome
        (match description with
         | None | Some JNull => Returned None
         | Some (JStr d) => Returned (Some d)
         | Some _ => Raised "ValidationError"
         end) (fun description_opt =>
      bind_outcome
        (match dependencies with
         | JArr items =>
             map_outcome (fun v => of_option "ValidationError" (int_of_json v))
               items
         | _ => Raised "ValidationError"
         end) (fun dependency_list =>
      Task_new
        (Task.mk None plan_id title_str description_opt PENDING priority
           order_index dependency_list None None None)))
  | _ => Raised "ValidationError"
  end.

Definition _create_task_from_dict (task_dict : json) (order_index : Z)
  (plan_id : Z) : outcome Task.t :=
  match task_dict with
  | JObj d =>
      let priority :=
        match dict_get "priority" d with
        | None => MEDIUM
        | Some (JStr priority_str) =>
            match Priority_of_value priority_str with
            | Some p => p
            | None => MEDIUM
            end
        | Some _ => MEDIUM
        end in
      Task_of_decoded plan_id
        (match dict_get "title" d with
         | Some v => v
         | None => JStr ("Task " ++ PyStr.str_of_Z (order_index + 1))
         end)
        (dict_get "description" d)
        priority
        order_index
        (match dict_get "dependencies" d with
         | Some v => v
         | None => JArr []
         end)
  | _ => Raised "AttributeError"
  end.

(** [[_create_task_from_dict(d, i) for i, d in enumerate(items)]] *)
Fixpoint create_tasks_from (i : Z) (items : list json) : outcome (list Task.t) :=
  match items with
  | [] => Returned []
  | task_dict :: rest =>
      bind_outcome (_create_task_from_dict task_dict i 0) (fun t =>
      bind_outcome (create_tasks_from (i + 1) rest) (fun ts =>
      Returned (t :: ts)))
  end.

(** *** The generation stage *)

Definition items_of (o : option json) : list json :=
  match o with
  | Some (JArr items) => items
  | _ => []
  end.

Definition is_list_opt (o : option json) : bool :=
  match o with
  | Some v => is_list v
  | None => false
  end.

(** [tasks_data and isinstance(tasks_data, list) and len(tasks_data) > 0] *)
Definition usable (tasks_data : option json) : bool :=
  truthy_opt tasks_data && is_list_opt tasks_data
  && (Z.of_nat (List.length (items_of tasks_data)) >? 0).

(** How the body of one attempt ends. *)
Inductive attempt_end : Type :=
| Break (tasks : list Task.t)
| Continue (planning_prompt : string)
| Except (error : string).

Definition attempt_body (attempt : Z) (planning_prompt : string) (calls : nat)
  : attempt_end :=
  match sample calls planning_prompt with
  | SampleError e => Except e
  | Sampled llm_response =>
      match _extract_json_from_text json_loads llm_response "array" with
      | Raised e => Except e
      | Returned tasks_data =>
          if usable tasks_data then
            match create_tasks_from 0 (items_of tasks_data) with
            | Returned tasks => Break tasks
            | Raised e => Except e
            end
          else if attempt <? max_retries - 1
               then Continue (planning_prompt ++ JSON_ONLY)
               else Except INVALID_TASK_LIST
      end
  end.

(** How the stage ends, with the prompt as the attempts left it. *)
Inductive generation_end : Type :=
| Generated (tasks : list Task.t) (planning_prompt : string)
| Failed (error : string)
| Exhausted (planning_prompt : string).

(** [for attempt in attempts]; [sent] lists the messages sent to the
    service so far, oldest first. *)
Fixpoint generation_loop (attempts : list Z) (planning_prompt : string)
  (sent : list string) : generation_end * list string :=
  match attempts with
  | [] => (Exhausted planning_prompt, sent)
  | attempt :: rest =>
      let sent1 := (sent ++ [planning_prompt])%list in
      match attempt_body attempt planning_prompt (List.length sent) with
      | Break tasks => (Generated tasks planning_prompt, sent1)
      | Continue prompt1 => generation_loop rest prompt1 sent1
      | Except e =>
          if attempt <? max_retries - 1
          then generation_loop rest planning_prompt sent1
          else (Failed e, sent1)
      end
  end.

(** [range(max_retries)] *)
Definition attempts_range : list Z := [0; 1; 2].

Definition generation_stage (planning_prompt : string) (sent : list string)
  : generation_end * list string :=
  generation_loop attempts_range planning_prompt sent.

(** *** Preview, confirmation and commit *)

Definition regeneration_message (planning_prompt : string) (tasks : list Task.t)
  (user_response : string) : string :=
  planning_prompt ++ nl2 ++ "Current tasks:" ++ nl1 ++ dumps_tasks tasks
  ++ nl2 ++ "User feedback for improvements:" ++ nl1 ++ user_response
  ++ nl2 ++ "Please regenerate the task list incorporating this feedback.".

Definition with_tasks (plan : Plan.t) (tasks : list Task.t) : Plan.t :=
  Plan.mk (Plan.id plan) (Plan.title plan) (Plan.description plan)
    (Plan.category plan) (Plan.goal plan) (Plan.status plan)
    (Z.of_nat (List.length tasks)) (Plan.completed_tasks plan)
    (Plan.created_at plan) (Plan.updated_at plan) tasks.

(** The regeneration request; any failure keeps the plan as it was. *)
Definition regenerate (plan : Plan.t) (planning_prompt user_response : string)
  (sent : list string) : Plan.t * list string :=
  let message := regeneration_message planning_prompt (Plan.tasks plan)
                   user_response in
  let sent1 := (sent ++ [message])%list in
  match sample (List.length sent) message with
  | SampleError _ => (plan, sent1)
  | Sampled regen_response =>
      match _extract_json_from_text json_loads regen_response "array" with
      | Raised _ => (plan, sent1)
      | Returned new_tasks_data =>
          if truthy_opt new_tasks_data && is_list_opt new_tasks_data then
            match create_tasks_from 0 (items_of new_tasks_data) with
            | Returned tasks => (with_tasks plan tasks, sent1)
            | Raised _ => (plan, sent1)
            end
          else (plan, sent1)
      end
  end.

(** [confirmation_result.data.lower() if confirmation_result.data else ""] *)
Definition user_response_of (confirmation : elicit_result) : string :=
  match data confirmation with
  | Some d => if String.eqb d "" then "" else PyStr.lower d
  | None => ""
  end.

Definition is_cancel_reply (user_response : string) : bool :=
  PyStr.contains "cancel" user_response
  || PyStr.contains "abort" user_response
  || String.eqb "no" user_response.

Definition wants_regeneration (user_response : string) : bool :=
  negb (PyStr.contains "yes" user_response)
  && (PyStr.len user_response >? 10).

(** From the answer to the preview to the end of [new_plan]. *)
Definition confirm_and_commit (w : World) (plan : Plan.t)
  (planning_prompt : string) (confirmation : elicit_result)
  (sent : list string) : new_plan_result * World * list string :=
  if String.eqb (action confirmation) "cancel" then (Cancelled, w, sent)
  else
    let commit (p : Plan.t) (sent' : list string) :=
      let (created_plan, w') := create_plan clock w p in
      (Created created_plan, w', sent') in
    if String.eqb (action confirmation) "accept" then
      let user_response := user_response_of confirmation in
      if is_cancel_reply user_response then (Cancelled, w, sent)
      else if wants_regeneration user_response then
        let (plan', sent') := regenerate plan planning_prompt user_response sent in
        commit plan' sent'
      else commit plan sent
    else commit plan sent.

(** [new_plan] from the generation stage on: [planning_prompt] is the
    prompt built for the request, [confirmation] the answer to the
    preview. *)
Definition generate_and_commit (w : World) (title : string)
  (description : option string) (category : PlanCategory) (goal : string)
  (planning_prompt : string) (confirmation : elicit_result)
  (sent : list string) : new_plan_result * World * list string :=
  match generation_stage planning_prompt sent with
  | (Failed e, sent1) => (GenerationFailed e, w, sent1)
  | (Exhausted _, sent1) => (NoValidTasks, w, sent1)
  | (Generated tasks prompt1, sent1) =>
      match tasks with
      | [] => (NoValidTasks, w, sent1)
      | _ =>
          match Plan_new (Plan.mk None title description category goal PENDING
                            (Z.of_nat (List.length tasks)) 0 None None tasks) with
          | Raised e => (Unhandled e, w, sent1)
          | Returned plan => confirm_and_commit w plan prompt1 confirmation sent1
          end
      end
  end.

End Workflow.

(** The reply of the specification's example: a JSON array inside a
    markdown code fence, after a line of prose. *)
Definition quoted (s : string) : string :=
  String PyStr.dquote (s ++ String PyStr.dquote EmptyString).

Definition bracketed_example : string :=
  "[{" ++ quoted "title" ++ ":" ++ quoted "A" ++ "}]".

Definition fenced_example : string :=
  "Here are the tasks:" ++ nl1 ++ "```json" ++ nl1 ++ bracketed_example
  ++ nl1 ++ "```".

(** A reply the generation stage cannot use: nothing can be extracted
    from it, or what is extracted is not an array, or the array is empty. *)
Definition invalid_reply (json_loads : string -> loads_result) (text : string)
  : Prop :=
  let tasks_data := _extract_json_from_text json_loads text "array" in
  tasks_data = Returned None
  \/ (exists v, tasks_data = Returned (Some v) /\ is_list v = false)
  \/ tasks_data = Returned (Some (JArr [])).

(** ** Values for the examples *)

(** The plan of the test suite's fixture. *)
Definition sample_plan : Plan.t :=
  Plan.mk None "Test Project" (Some "A test project plan") PROJECT
    "Complete the test successfully" PENDING 0 0 None None
    [Task.mk None 0 "Task 1" (Some "First task") PENDING HIGH 0 [] None None None;
     Task.mk None 0 "Task 2" (Some "Second task") PENDING MEDIUM 1 [0] None None None].

Definition demo_clock (k : nat) : Z := 1000 + Z.of_nat k.

Definition demo_int_of_json (v : json) : option Z :=
  match v with
  | JInt n => Some n
  | _ => None
  end.

Definition demo_dumps_tasks (l : list Task.t) : string :=
  "[" ++ String.concat ", " (map (fun t => quoted (Task.title t)) l) ++ "]".

(** A service that always answers with a one-task array. *)
Definition one_task_service (k : nat) (prompt : string) : sample_result :=
  Sampled ("[{" ++ quoted "title" ++ ":" ++ quoted "Review" ++ "}]").

(** A service that always answers with an empty array. *)
Definition empty_array_service (k : nat) (prompt : string) : sample_result :=
  Sampled "[]".

(** ** Vocabulary of the statements about the store *)

(** The columns of a plan row that only [update_plan_info] may rewrite
    are left out: the rows agree on key, category, goal, status and
    creation time. *)
Definition same_plan_identity (p p' : PlanModel.t) : Prop :=
  PlanModel.id p' = PlanModel.id p
  /\ PlanModel.category p' = PlanModel.category p
  /\ PlanModel.goal p' = PlanModel.goal p
  /\ PlanModel.status p' = PlanModel.status p
  /\ PlanModel.created_at p' = PlanModel.created_at p.

Definition same_plan_text (p p' : PlanModel.t) : Prop :=
  PlanModel.title p' = PlanModel.title p
  /\ PlanModel.description p' = PlanModel.description p.

Definition same_plan_counters (p p' : PlanModel.t) : Prop :=
  PlanModel.total_tasks p' = PlanModel.total_tasks p
  /\ PlanModel.completed_tasks p' = PlanModel.completed_tasks p.

(** The columns of a task row that a status update leaves alone. *)
Definition same_task_identity (t t' : TaskModel.t) : Prop :=
  TaskModel.id t' = TaskModel.id t
  /\ TaskModel.plan_id t' = TaskModel.plan_id t
  /\ TaskModel.title t' = TaskModel.title t
  /\ TaskModel.description t' = TaskModel.description t
  /\ TaskModel.priority t' = TaskModel.priority t
  /\ TaskModel.order_index t' = TaskModel.order_index t
  /\ TaskModel.dependencies t' = TaskModel.dependencies t
  /\ TaskModel.created_at t' = TaskModel.created_at t.

(** The primary key of the plans table. *)
Definition plan_ids (w : World) : list Z := map PlanModel.id (plans w).

Definition plan_key_ok (w : World) : Prop := NoDup (plan_ids w).

(** The store after the fixture's plan was created in an empty store, and
    the row it holds for it. *)
Definition sample_world : World :=
  snd (create_plan demo_clock empty_world sample_plan).

Definition sample_row : PlanModel.t :=
  PlanModel.mk 1 "Test Project" (Some "A test project plan") "project"
    "Complete the test successfully" "pending" 2 0 1000 1000.

(** What [_update_plan_progress] writes into the row with key [pid]; the
    counts are taken in [w], the time is [t]. *)
Definition recompute (w : World) (pid : Z) (t : Z) (p : PlanModel.t)
  : PlanModel.t :=
  if PlanModel.id p =? pid
  then set_progress (progress_total w pid) (progress_completed w pid) t p
  else p.

(** A plan row [p] and the row [p'] in its place after the plans with keys
    in [pids] had their progress recomputed, with the counts taken in [w]
    and the clock read at some tick from [lo] up to [hi] (excluded). *)
Definition refreshed (clock : nat -> Z) (w : World) (pids : list Z)
  (lo hi : nat) (p p' : PlanModel.t) : Prop :=
  same_plan_identity p p'
  /\ same_plan_text p p'
  /\ (In (PlanModel.id p) pids ->
      PlanModel.total_tasks p' = progress_total w (PlanModel.id p)
      /\ PlanModel.completed_tasks p' = progress_completed w (PlanModel.id p)
      /\ exists k, (lo <= k < hi)%nat /\ PlanModel.updated_at p' = clock k)
  /\ (~ In (PlanModel.id p) pids -> p' = p).

(** The rows that a run of inserts appends to the tasks table: keys from
    [first_id], clock readings from [first_tick], positions from
    [first_index]. *)
Fixpoint rows_from (clock : nat -> Z) (first_id : Z) (first_tick : nat)
  (first_index : Z) (pid : Z) (l : list Task.t) : list TaskModel.t :=
  match l with
  | [] => []
  | task :: rest =>
      TaskModel.mk first_id pid (Task.title task) (Task.description task)
        (TaskStatus_value (Task.status task))
        (Priority_value (Task.priority task))
        first_index
        (JsonRef.dumps_ints (Task.dependencies task))
        (clock first_tick) (clock first_tick) None
      :: rows_from clock (first_id + 1) (S first_tick) (first_index + 1) pid rest
  end.

(** The foreign key of the tasks table: every task row names a stored plan. *)
Definition foreign_key_ok (w : World) : Prop :=
  Forall (fun t => In (TaskModel.plan_id t) (plan_ids w)) (tasks w).

(** The counters of every plan row lie in range. *)
Definition counters_bounded (w : World) : Prop :=
  Forall (fun p => 0 <= PlanModel.completed_tasks p <= PlanModel.total_tasks p)
    (plans w).

(** [total_tasks] of every plan row counts the rows of its tasks that are
    not deleted. *)
Definition totals_exact (w : World) : Prop :=
  Forall (fun p => PlanModel.total_tasks p = progress_total w (PlanModel.id p))
    (plans w).

Definition store_ok (w : World) : Prop :=
  plan_key_ok w /\ foreign_key_ok w /\ counters_bounded w /\ totals_exact w.

(** The mutations of the store. *)
Inductive mutation : Type :=
| CreatePlan (plan : Plan.t)
| UpdateTaskStatus (task_ids : list Z) (status : TaskStatus) (notes : option string)
| AddTasksToPlan (plan_id : Z) (new_tasks : list Task.t)
| UpdatePlanInfo (plan_id : Z) (title description : option string)
| DeletePlan (plan_id : Z).

Definition apply_mutation (clock : nat -> Z) (w : World) (m : mutation) : World :=
  match m with
  | CreatePlan plan => snd (create_plan clock w plan)
  | UpdateTaskStatus task_ids status notes =>
      snd (update_task_status clock w task_ids status notes)
  | AddTasksToPlan plan_id new_tasks =>
      snd (add_tasks_to_plan clock w plan_id new_tasks)
  | UpdatePlanInfo plan_id title description =>
      snd (update_plan_info clock w plan_id title description)
  | DeletePlan plan_id => snd (delete_plan w plan_id)
  end.

(** A plan is created from tasks none of which is deleted, and tasks are
    added to a stored plan. *)
Definition admissible (w : World) (m : mutation) : Prop :=
  match m with
  | CreatePlan plan => Forall (fun t => Task.status t <> DELETED) (Plan.tasks plan)
  | AddTasksToPlan plan_id _ => In plan_id (plan_ids w)
  | _ => True
  end.

Fixpoint run (clock : nat -> Z) (w : World) (ms : list mutation) : World :=
  match ms with
  | [] => w
  | m :: rest => run clock (apply_mutation clock w m) rest
  end.

Fixpoint admissible_run (clock : nat -> Z) (w : World) (ms : list mutation)
  : Prop :=
  match ms with
  | [] => True
  | m :: rest =>
      admissible w m /\ admissible_run clock (apply_mutation clock w m) rest
  end.

(** A plan whose only task is already deleted, and one whose only task is
    already completed (the plan of the filtering test). *)
Definition plan_with_deleted_task : Plan.t :=
  Plan.mk None "Archive" None PROJECT "Keep the record" PENDING 0 0 None None
    [Task.mk None 0 "Old task" None DELETED MEDIUM 0 [] None None None].

Definition completed_plan : Plan.t :=
  Plan.mk None "Completed Plan" None PROJECT "Completed goal" PENDING 0 0 None None
    [Task.mk None 0 "Task 1" None COMPLETED MEDIUM 0 [] None None None].

(** A history of the store that uses every mutation. *)
Definition sample_history : list mutation :=
  [CreatePlan sample_plan;
   UpdateTaskStatus [1; 99] COMPLETED None;
   AddTasksToPlan 1
     [Task.mk None 1 "New Task" None PENDING LOW 2 [] None None None];
   UpdateTaskStatus [2] DELETED (Some "dropped");
   UpdatePlanInfo 1 (Some "Updated Title") (Some "");
   CreatePlan completed_plan;
   DeletePlan 1].

(** The row of a task, by key. *)
Definition first_task (w : World) (task_id : Z) : option TaskModel.t :=
  List.find (fun t => TaskModel.id t =? task_id) (tasks w).

(** C3 as the specification states it: a completed update of a task that
    is already completed leaves its [completed_at] as it was. *)
Definition completed_at_set_once (clock : nat -> Z) : Prop :=
  forall (w : World) (task_id : Z) (t t' : TaskModel.t),
    first_task w task_id = Some t ->
    TaskModel.status t = "completed" ->
    first_task (snd (update_task_status clock w [task_id] COMPLETED None)) task_id
    = Some t' ->
    TaskModel.completed_at t' = TaskModel.completed_at t.

(** The fixture's store after its first task was completed once. *)
Definition completed_once_world : World :=
  snd (update_task_status demo_clock sample_world [1] COMPLETED None).

(** The plans a listing may show. *)
Definition visible_plans (w : World) (include_completed : bool)
  : list PlanModel.t :=
  if include_completed then plans w else filter is_active (plans w).

(** A plan row that [Plan(...)] accepts. *)
Definition row_readable (p : PlanModel.t) : Prop :=
  exists q, plan_of_row p [] = Returned q.

(** The plans of the pagination test, and the store after creating the
    first [n] of them in an empty store. *)
Definition numbered_plan (i : nat) : Plan.t :=
  Plan.mk None ("Plan " ++ PyStr.str_of_Z (Z.of_nat i)) None PROJECT
    ("Goal " ++ PyStr.str_of_Z (Z.of_nat i)) PENDING 0 0 None None [].

Definition numbered_world (n : nat) : World :=
  fold_left (fun w i => snd (create_plan demo_clock w (numbered_plan i)))
    (seq 0 n) empty_world.

(** ** Vocabulary of the statements about the reference reader *)

(** The text after a number inside an array: a comma or the closing
    bracket. *)
Definition closes_item (rest : string) : Prop :=
  JsonRef.starts_with ","%char rest = true
  \/ JsonRef.starts_with "]"%char rest = true.

(** The first character of a written integer: a digit or the sign. *)
Definition number_head (c : ascii) : Prop :=
  JsonRef.is_digit c = true \/ c = "-"%char.

(** The keys of the tasks of a plan value, [[t.id for t in plan.tasks]]
    where they are set. *)
Definition assigned_ids (p : Plan.t) : list Z :=
  flat_map (fun t => match Task.id t with
                     | Some i => [i]
                     | None => []
                     end) (Plan.tasks p).

(** A title of 201 characters. *)
Definition long_title : string :=
  string_of_list_ascii (repeat "x"%char 201).

(** A service that fails on every request, with the number of the request
    in the message. *)
Definition unreachable_service (k : nat) (prompt : string) : sample_result :=
  SampleError ("connection lost, request " ++ PyStr.str_of_Z (Z.of_nat k)).

(** What the generation loop leaves behind when [left] attempts remain:
    the requests it added, and how it ended. *)
Definition stage_shape (left : nat) (prompt : string) (sent : list string)
  (r : generation_end * list string) : Prop :=
  exists requests,
    snd r = (sent ++ requests)%list
    /\ (1 <= List.length requests <= left)%nat
    /\ hd_error requests = Some prompt
    /\ match fst r with
       | Generated ts p =>
           ts <> []
           /\ map Task.order_index ts = map Z.of_nat (seq 0 (List.length ts))
           /\ last requests prompt = p
       | Failed _ => List.length requests = left
       | Exhausted _ => False
       end.

(** ** The tools over the store ([server.py]) *)

(** The text a tool returns, by case:
    - [NoPlansFound hint]: "No plans found.", with the hint about
      [include_completed] when [hint] is true;
    - [PlansListed plans page]: the formatted list with the footer for
      [page];
    - [PlanWithIdNotFound n]: "Plan with ID n not found.";
    - [PlanDetails p]: the formatted plan;
    - [InvalidStatus s]: "Invalid status: s. Valid statuses: ...";
    - [UpdateFailed]: "Failed to update tasks. Check task IDs.";
    - [UpdatedWithoutDetails]: "Tasks updated, but couldn't retrieve plan
      details.";
    - [TasksUpdated p]: "Tasks updated successfully!" and the formatted plan;
    - [PlanNotFound]: "Plan not found.";
    - [PlanUpdated p]: "Plan updated successfully!" and the formatted plan;
    - [PlanIdNotFound n]: "Plan n not found.";
    - [PlanDeleted title n]: the report that the plan has been deleted;
    - [DeleteFailed n]: "Failed to delete plan n.". *)
Inductive tool_reply : Type :=
| NoPlansFound (hint : bool)
| PlansListed (plans : list Plan.t) (page : Z)
| PlanWithIdNotFound (plan_id : Z)
| PlanDetails (plan : Plan.t)
| InvalidStatus (status : string)
| UpdateFailed
| UpdatedWithoutDetails
| TasksUpdated (plan : Plan.t)
| PlanNotFound
| PlanUpdated (plan : Plan.t)
| PlanIdNotFound (plan_id : Z)
| PlanDeleted (title : string) (plan_id : Z)
| DeleteFailed (plan_id : Z).

(** [if s] for an optional string. *)
Definition given (s : option string) : bool :=
  match s with
  | Some v => negb (String.eqb v "")
  | None => false
  end.

Module Tool.

Section Tools.

Variable clock : nat -> Z.
Variable json_loads : string -> loads_result.

Definition list_plans (w : World) (include_completed : bool) (page : Z)
  : outcome tool_reply :=
  bind_outcome (get_all_plans w include_completed page 30) (fun plans =>
  match plans with
  | [] => Returned (NoPlansFound include_completed)
  | _ => Returned (PlansListed plans page)
  end).

Definition update_task_status (w : World) (plan_id : Z) (task_ids : list Z)
  (status : string) (notes : option string) : outcome tool_reply * World :=
  match TaskStatus_of_value status with
  | None => (Returned (InvalidStatus status), w)
  | Some task_status =>
      let (success, w1) :=
        update_task_status clock w task_ids task_status notes in
      if negb success then (Returned UpdateFailed, w1)
      else
        (bind_outcome (get_plan json_loads w1 plan_id) (fun plan =>
         match plan with
         | None => Returned UpdatedWithoutDetails
         | Some p => Returned (TasksUpdated p)
         end), w1)
  end.

(** [Task(plan_id=plan_id, title=task_title, priority=Priority.MEDIUM)] *)
Definition titled_task (plan_id : Z) (task_title : string) : outcome Task.t :=
  Task_new
    (Task.mk None plan_id task_title None PENDING MEDIUM 0 [] None None None).

Definition update_plan (w : World) (plan_id : Z)
  (title description : option string) (new_tasks : option (list string))
  (additional_context : option string) : outcome tool_reply * World :=
  let w1 :=
    if given title || given description
    then snd (update_plan_info clock w plan_id title description)
    else w in
  let added :=
    match new_tasks with
    | None | Some [] => Returned w1
    | Some titles =>
        bind_outcome (map_outcome (titled_task plan_id) titles) (fun tasks =>
        Returned (snd (add_tasks_to_plan clock w1 plan_id tasks)))
    end in
  match added with
  | Raised e => (Raised e, w1)
  | Returned w2 =>
      (bind_outcome (get_plan json_loads w2 plan_id) (fun plan =>
       match plan with
       | None => Returned PlanNotFound
       | Some p => Returned (PlanUpdated p)
       end), w2)
  end.

Definition delete_plan (w : World) (plan_id : Z)
  : outcome tool_reply * World :=
  match get_plan json_loads w plan_id with
  | Raised e => (Raised e, w)
  | Returned None => (Returned (PlanIdNotFound plan_id), w)
  | Returned (Some plan) =>
      let plan_title := Plan.title plan in
      let (success, w1) := delete_plan w plan_id in
      if success then (Returned (PlanDeleted plan_title plan_id), w1)
      else (Returned (DeleteFailed plan_id), w1)
  end.

(** Defined last, so that the tools above name the store's [get_plan]. *)
Definition get_plan (w : World) (plan_id : Z) : outcome tool_reply :=
  bind_outcome (get_plan json_loads w plan_id) (fun plan =>
  match plan with
  | None => Returned (PlanWithIdNotFound plan_id)
  | Some p => Returned (PlanDetails p)
  end).

End Tools.

End Tool.

(** ** The analysis stage and the whole of [new_plan] ([server.py]) *)

(** [x or default] for an optional string. *)
Definition or_default (x : option string) (default : string) : string :=
  match x with
  | Some v => if String.eqb v "" then default else v
  | None => default
  end.

(** The message of the analysis request. *)
Definition analysis_prompt (title goal category : string)
  (description additional_context : option string) : string :=
  "You are an expert project planner analyzing a planning request." ++ nl2
  ++ "Title: " ++ title ++ nl1
  ++ "Goal: " ++ goal ++ nl1
  ++ "Category: " ++ category ++ nl1
  ++ "Description: " ++ or_default description "Not provided" ++ nl1
  ++ "Additional Context: " ++ or_default additional_context "Not provided"
  ++ nl2
  ++ "Analyze this request and determine:" ++ nl1
  ++ "1. Is there enough information to create a detailed, effective task breakdown?"
  ++ nl1
  ++ "2. What critical information is missing (if any)?" ++ nl2
  ++ "Respond in JSON format:" ++ nl1
  ++ "{" ++ nl1
  ++ "    " ++ quoted "has_sufficient_info" ++ ": true/false," ++ nl1
  ++ "    " ++ quoted "missing_info" ++ ": [" ++ quoted "list" ++ ", "
  ++ quoted "of" ++ ", " ++ quoted "missing" ++ ", " ++ quoted "items"
  ++ "] or []," ++ nl1
  ++ "    " ++ quoted "specific_questions" ++ ": [" ++ quoted "Question 1?"
  ++ ", " ++ quoted "Question 2?" ++ "] or []," ++ nl1
  ++ "    " ++ quoted "reasoning" ++ ": " ++ quoted "brief explanation" ++ nl1
  ++ "}" ++ nl2
  ++ "Only request clarification if it's truly needed for creating an effective plan.".

(** What is appended to the context after an accepted clarification. *)
Definition clarified (enhanced_context data : string) : string :=
  enhanced_context ++ nl2 ++ "User clarifications:" ++ nl1 ++ data.

(** The text [new_plan] returns: the report of an unknown category, or one
    of the results of the later stages. *)
Inductive new_plan_reply : Type :=
| InvalidCategory (category : string)
| Finished (result : new_plan_result).

Section Analysis.

Variable clock : nat -> Z.
Variable json_loads : string -> loads_result.
Variable sample : nat -> string -> sample_result.
Variable int_of_json : json -> option Z.
Variable dumps_tasks : list Task.t -> string.

(** The truth value of a decoded float, given by its literal. *)
Variable float_truthy : string -> bool.

(** [PlanningPrompts.get_planning_prompt(goal, category, description,
    additional_context)] *)
Variable get_planning_prompt : string -> PlanCategory -> string -> string -> string.

(** [bool(v)] *)
Definition is_true (v : json) : bool :=
  match v with
  | JFloat literal => float_truthy literal
  | _ => truthy v
  end.

(** Whether [enumerate(v)] succeeds. *)
Definition iterable (v : json) : bool :=
  match v with
  | JStr _ | JArr _ | JObj _ => true
  | _ => false
  end.

(** The default taken for an empty or missing analysis. *)
Definition default_analysis : json :=
  JObj [("has_sufficient_info", JBool true);
        ("missing_info", JArr []);
        ("specific_questions", JArr [])].

(** The body of the [try] once the reply is there: whether the user is
    asked for clarification.  [None] is an exception, which the stage
    swallows. *)
Definition needs_clarification (analysis_text : string) : option bool :=
  match _extract_json_from_text json_loads analysis_text "object" with
  | Raised _ => None
  | Returned extracted =>
      let analysis_data :=
        match extracted with
        | Some v => if is_true v then v else default_analysis
        | None => default_analysis
        end in
      match analysis_data with
      | JObj members =>
          let sufficient :=
            match dict_get "has_sufficient_info" members with
            | Some v => is_true v
            | None => true
            end in
          let questions :=
            match dict_get "specific_questions" members with
            | Some v => is_true v
            | None => false
            end in
          if negb sufficient && questions then
            match dict_get "specific_questions" members with
            | Some v => if iterable v then Some true else None
            | None => None
            end
          else Some false
      | _ => None
      end
  end.

(** The analysis stage: the context for the planning prompt, and the
    requests sent.  [clarification] is the answer to the request for
    clarification, if one is made. *)
Definition analysis_stage (title goal category : string)
  (description additional_context : option string)
  (clarification : elicit_result) (sent : list string)
  : string * list string :=
  let message :=
    analysis_prompt title goal category description additional_context in
  let enhanced_context := or_default additional_context "" in
  let sent1 := (sent ++ [message])%list in
  match sample (List.length sent) message with
  | SampleError _ => (enhanced_context, sent1)
  | Sampled analysis_text =>
      match needs_clarification analysis_text with
      | Some true =>
          if String.eqb (action clarification) "accept"
             && given (data clarification)
          then (clarified enhanced_context
                  (or_default (data clarification) ""), sent1)
          else (enhanced_context, sent1)
      | _ => (enhanced_context, sent1)
      end
  end.

(** [new_plan], called with a context. *)
Definition new_plan (w : World) (title goal category : string)
  (description additional_context : option string)
  (clarification confirmation : elicit_result)
  : new_plan_reply * World * list string :=
  match PlanCategory_of_value category with
  | None => (InvalidCategory category, w, [])
  | Some plan_category =>
      let (enhanced_context, sent1) :=
        analysis_stage title goal category description additional_context
          clarification [] in
      let planning_prompt :=
        get_planning_prompt goal plan_category (or_default description "")
          enhanced_context in
      let '(result, w', sent') :=
        generate_and_commit clock json_loads sample int_of_json dumps_tasks
          w title description plan_category goal planning_prompt confirmation
          sent1 in
      (Finished result, w', sent')
  end.

End Analysis.

(** A prompt builder and a float test for the examples. *)
Definition demo_planning_prompt (goal : string) (category : PlanCategory)
  (description additional_context : string) : string :=
  "GOAL: " ++ goal ++ nl1 ++ "CATEGORY: " ++ PlanCategory_value category ++ nl1
  ++ "DESCRIPTION: " ++ description ++ nl1
  ++ "ADDITIONAL CONTEXT: " ++ additional_context.

Definition demo_float_truthy (literal : string) : bool :=
  negb (String.eqb literal "0.0").

(** ** Whitespace, as the specification's "trimmed" reads

    The characters below code point 256 that [str.strip] removes, listed
    one by one: tab, line feed, vertical tab, form feed, carriage return,
    the four separators 28 to 31, space, next line (133) and no-break space
    (160). *)
Definition python_whitespace : list ascii :=
  ["009"; "010"; "011"; "012"; "013"; "028"; "029"; "030"; "031"; "032";
   "133"; "160"]%char.

Definition is_whitespace (a : ascii) : bool :=
  existsb (Ascii.eqb a) python_whitespace.

Fixpoint all_whitespace (s : string) : bool :=
  match s with
  | EmptyString => true
  | String a r => is_whitespace a && all_whitespace r
  end.

Fixpoint last_char (s : string) : option ascii :=
  match s with
  | EmptyString => None
  | String a EmptyString => Some a
  | String _ r => last_char r
  end.

(** A text with no whitespace at either end. *)
Definition trimmed (t : string) : bool :=
  match t, last_char t with
  | String a _, Some z => negb (is_whitespace a) && negb (is_whitespace z)
  | _, _ => true
  end.

(** A text of 100000 opening brackets: nested deeper than the decoder may
    go. *)
Definition deeply_nested : string :=
  string_of_list_ascii (repeat "["%char (100 * 1000)).

(** The store after the [update_plan] tool was asked, on an empty store, to
    add a task to plan 1, which does not exist: the task row is there. *)
Definition orphan_world : World :=
  snd (Tool.update_plan demo_clock JsonRef.loads empty_world 1 None None
         (Some ["Orphan"]) None).

(** * Properties *)

(** ** Comparisons *)

Lemma gtb_false (n m : Z) : n <= m -> (n >? m) = false.
Proof. intros H. rewrite Z.gtb_ltb. apply Z.ltb_ge. lia. Qed.

Lemma gtb_true (n m : Z) : m < n -> (n >? m) = true.
Proof. intros H. rewrite Z.gtb_ltb. apply Z.ltb_lt. lia. Qed.

(** ** Response extractor *)

Section ExtractorFacts.

Variable json_loads : string -> loads_result.

Lemma find_from_first_occurrence (c : ascii) (s : string) (i : Z) :
  PyStr.find_from c s i =
  match first_occurrence c s with
  | Some n => i + Z.of_nat n
  | None => -1
  end.
Proof.
  revert i. induction s as [|a r IH]; intros i; simpl.
  - reflexivity.
  - destruct (Ascii.eqb a c).
    + simpl. lia.
    + rewrite IH. destruct (first_occurrence c r); simpl; lia.
Qed.

Lemma rfind_from_last_occurrence (c : ascii) (s : string) (i : Z) :
  0 <= i ->
  PyStr.rfind_from c s i =
  match last_occurrence c s with
  | Some n => i + Z.of_nat n
  | None => -1
  end.
Proof.
  revert i. induction s as [|a r IH]; intros i Hi; simpl.
  - reflexivity.
  - rewrite IH by lia. destruct (last_occurrence c r) as [n|].
    + destruct (Z.eqb_spec (i + 1 + Z.of_nat n) (-1)); lia.
    + simpl. destruct (Ascii.eqb a c); lia.
Qed.

Lemma direct_parse_startswith (t : string) (c : ascii) :
  (if PyStr.startswith t c then json_loads t else JSONDecodeError)
  = direct_parse json_loads t c.
Proof. destruct t; reflexivity. Qed.

Lemma fallback_parse_indices (t : string) (opening closing : ascii) :
  (if negb (PyStr.find t opening =? -1)
      && (PyStr.rfind t closing >? PyStr.find t opening)
   then json_loads (PyStr.slice t (PyStr.find t opening)
                      (PyStr.rfind t closing + 1))
   else JSONDecodeError)
  = fallback_parse json_loads t opening closing.
Proof.
  unfold PyStr.find, PyStr.rfind, fallback_parse.
  rewrite find_from_first_occurrence, rfind_from_last_occurrence by lia.
  destruct (first_occurrence opening t) as [i|]; [|reflexivity].
  destruct (last_occurrence closing t) as [j|].
  - replace (0 + Z.of_nat i =? -1) with false
      by (symmetry; apply Z.eqb_neq; lia).
    simpl negb. rewrite andb_true_l.
    destruct (Nat.ltb_spec i j) as [Hlt|Hge].
    + replace (0 + Z.of_nat j >? 0 + Z.of_nat i) with true
        by (symmetry; apply Z.gtb_lt; lia).
      unfold PyStr.slice, span. do 2 f_equal; lia.
    + destruct (0 + Z.of_nat j >? 0 + Z.of_nat i) eqn:E; [|reflexivity].
      apply Z.gtb_lt in E. lia.
  - destruct (-1 >? 0 + Z.of_nat i) eqn:E.
    + apply Z.gtb_lt in E. lia.
    + now rewrite andb_false_r.
Qed.

Lemma second_attempt_fallback (t : string) (opening closing : ascii) :
  (if negb (PyStr.find t opening =? -1)
      && (PyStr.rfind t closing >? PyStr.find t opening)
   then
     match json_loads (PyStr.slice t (PyStr.find t opening)
                         (PyStr.rfind t closing + 1)) with
     | Loaded v => Returned (Some v)
     | JSONDecodeError => Returned None
     | LoadsError e => Raised e
     end
   else Returned None)
  = match fallback_parse json_loads t opening closing with
    | Loaded v => Returned (Some v)
    | LoadsError e => Raised e
    | JSONDecodeError => Returned None
    end.
Proof.
  rewrite <- fallback_parse_indices.
  destruct (negb _ && _); [|reflexivity].
  now destruct (json_loads _).
Qed.

Lemma extract_refines_spec (text expected_type : string) :
  _extract_json_from_text json_loads text expected_type
  = extract_spec json_loads text expected_type.
Proof.
  unfold _extract_json_from_text, extract_spec, extract_trimmed.
  cbv zeta. rewrite second_attempt_fallback, <- direct_parse_startswith.
  destruct (PyStr.startswith _ _); [|reflexivity].
  now destruct (json_loads (PyStr.strip text)).
Qed.

Lemma is_whitespace_is_space (a : ascii) :
  is_whitespace a = PyStr.is_space a.
Proof. destruct a as [[] [] [] [] [] [] [] []]; reflexivity. Qed.

Lemma lstrip_whitespace (lead x : string) :
  all_whitespace lead = true -> PyStr.lstrip (lead ++ x) = PyStr.lstrip x.
Proof.
  induction lead as [|a lead IH]; [reflexivity|].
  cbn [all_whitespace]. intros H. apply andb_prop in H. destruct H as [Ha Hl].
  cbn [append PyStr.lstrip]. rewrite <- is_whitespace_is_space, Ha.
  now apply IH.
Qed.

Lemma rstrip_whitespace (trail : string) :
  all_whitespace trail = true -> PyStr.rstrip trail = "".
Proof.
  induction trail as [|a trail IH]; [reflexivity|].
  cbn [all_whitespace]. intros H. apply andb_prop in H. destruct H as [Ha Hl].
  cbn [PyStr.rstrip]. rewrite (IH Hl), <- is_whitespace_is_space, Ha.
  reflexivity.
Qed.

Lemma rstrip_trimmed (t trail : string) (z : ascii) :
  all_whitespace trail = true ->
  last_char t = Some z -> is_whitespace z = false ->
  PyStr.rstrip (t ++ trail) = t.
Proof.
  intros Htrail. induction t as [|a r IH]; [discriminate|].
  intros Hlast Hz. cbn [append PyStr.rstrip].
  destruct r as [|b r'].
  - cbn [last_char] in Hlast. injection Hlast as ->.
    cbn [append]. rewrite (rstrip_whitespace trail Htrail).
    now rewrite <- is_whitespace_is_space, Hz.
  - assert (Hr : PyStr.rstrip (String b r' ++ trail) = String b r').
    { apply IH; [exact Hlast|exact Hz]. }
    now rewrite Hr.
Qed.

Lemma last_char_some (a : ascii) (r : string) :
  exists z, last_char (String a r) = Some z.
Proof.
  revert a. induction r as [|b r IH]; intros a; [now exists a|].
  destruct (IH b) as [z Hz]. exists z. exact Hz.
Qed.

Lemma strip_trimmed (lead t trail : string) :
  all_whitespace lead = true -> all_whitespace trail = true ->
  trimmed t = true ->
  PyStr.strip (lead ++ t ++ trail) = t.
Proof.
  intros Hlead Htrail Ht. unfold PyStr.strip.
  rewrite (lstrip_whitespace lead _ Hlead).
  destruct t as [|a r].
  - cbn [append].
    assert (E : PyStr.lstrip trail = "").
    { clear Ht. induction trail as [|c trail IH]; [reflexivity|].
      cbn [all_whitespace] in Htrail. apply andb_prop in Htrail.
      destruct Htrail as [Hc Hrest]. cbn [PyStr.lstrip].
      rewrite <- is_whitespace_is_space, Hc. now apply IH. }
    now rewrite E.
  - unfold trimmed in Ht.
    destruct (last_char_some a r) as [z Hlast]. rewrite Hlast in Ht.
    apply andb_prop in Ht. destruct Ht as [Ha Hz].
    apply negb_true_iff in Ha, Hz.
    cbn [append PyStr.lstrip]. rewrite <- is_whitespace_is_space, Ha.
    exact (rstrip_trimmed (String a r) trail z Htrail Hlast Hz).
Qed.

Lemma extract_trims (lead t trail expected_type : string) :
  all_whitespace lead = true -> all_whitespace trail = true ->
  trimmed t = true ->
  _extract_json_from_text json_loads (lead ++ t ++ trail) expected_type
  = extract_trimmed json_loads t expected_type.
Proof.
  intros Hlead Htrail Ht.
  rewrite extract_refines_spec. unfold extract_spec.
  now rewrite strip_trimmed.
Qed.

Lemma extract_trimmed_returns (t expected_type : string) :
  (forall s e, json_loads s <> LoadsError e) ->
  exists found, extract_trimmed json_loads t expected_type = Returned found.
Proof.
  intros Hnever. unfold extract_trimmed.
  destruct (direct_parse json_loads t (start_char_of expected_type))
    as [v| |e] eqn:Hd.
  - now exists (Some v).
  - destruct (fallback_parse json_loads t (start_char_of expected_type)
                (end_char_of expected_type)) as [v| |e] eqn:Hf.
    + now exists (Some v).
    + now exists None.
    + unfold fallback_parse in Hf.
      destruct (first_occurrence _ t); [|discriminate].
      destruct (last_occurrence _ t); [|discriminate].
      destruct (_ <? _)%nat; [|discriminate].
      now destruct (Hnever _ _ Hf).
  - unfold direct_parse in Hd. destruct t as [|a r]; [discriminate|].
    destruct (Ascii.eqb a _); [|discriminate].
    now destruct (Hnever _ _ Hd).
Qed.

End ExtractorFacts.




(** ** The generation stage *)

Section GenerationFacts.

Variable clock : nat -> Z.
Variable json_loads : string -> loads_result.
Variable sample : nat -> string -> sample_result.
Variable int_of_json : json -> option Z.
Variable dumps_tasks : list Task.t -> string.

Lemma invalid_reply_unusable (text : string) :
  invalid_reply json_loads text ->
  exists tasks_data,
    _extract_json_from_text json_loads text "array" = Returned tasks_data
    /\ usable tasks_data = false.
Proof.
  unfold invalid_reply, usable.
  intros [E | [[v [E Hv]] | E]]; rewrite E; eexists; (split; [reflexivity|]);
    simpl.
  - reflexivity.
  - rewrite Hv. now rewrite andb_false_r.
  - reflexivity.
Qed.

(** The service answers every request, and never with a usable reply. *)
Hypothesis always_invalid :
  forall (k : nat) (prompt : string),
    exists text, sample k prompt = Sampled text /\ invalid_reply json_loads text.

Lemma attempt_body_invalid (attempt : Z) (prompt : string) (calls : nat) :
  attempt_body json_loads sample int_of_json attempt prompt calls
  = if attempt <? max_retries - 1
    then Continue (prompt ++ JSON_ONLY)
    else Except INVALID_TASK_LIST.
Proof.
  unfold attempt_body.
  destruct (always_invalid calls prompt) as [text [Hs Hi]].
  destruct (invalid_reply_unusable _ Hi) as (tasks_data & He & Hu).
  rewrite Hs, He, Hu. reflexivity.
Qed.

Lemma generation_stage_invalid (prompt : string) (sent : list string) :
  generation_stage json_loads sample int_of_json prompt sent
  = (Failed INVALID_TASK_LIST,
     (sent ++ [prompt;
               (prompt ++ JSON_ONLY)%string;
               ((prompt ++ JSON_ONLY) ++ JSON_ONLY)%string])%list).
Proof.
  unfold generation_stage, attempts_range.
  cbn [generation_loop].
  rewrite !attempt_body_invalid.
  change (0 <? max_retries - 1) with true.
  change (1 <? max_retries - 1) with true.
  change (2 <? max_retries - 1) with false.
  cbv iota.
  rewrite !attempt_body_invalid.
  change (1 <? max_retries - 1) with true.
  change (2 <? max_retries - 1) with false.
  cbv iota.
  rewrite !attempt_body_invalid.
  change (2 <? max_retries - 1) with false.
  cbv iota.
  now rewrite <- !app_assoc.
Qed.

End GenerationFacts.



(** ** Preview and confirmation *)

Section ConfirmationFacts.

Variable clock : nat -> Z.
Variable json_loads : string -> loads_result.
Variable sample : nat -> string -> sample_result.
Variable int_of_json : json -> option Z.
Variable dumps_tasks : list Task.t -> string.

Lemma user_response_of_accept (a reply : string) :
  user_response_of (mkElicit a (Some reply)) = PyStr.lower reply.
Proof.
  unfold user_response_of. simpl.
  destruct (String.eqb_spec reply ""); [subst|]; reflexivity.
Qed.

(** The regeneration sends one request, whatever comes back. *)
Lemma regenerate_sends_one (plan : Plan.t) (prompt reply : string)
  (sent : list string) :
  snd (regenerate json_loads sample int_of_json dumps_tasks plan prompt reply sent)
  = (sent ++ [regeneration_message dumps_tasks prompt (Plan.tasks plan) reply])%list.
Proof.
  unfold regenerate.
  destruct (sample _ _); [|reflexivity].
  destruct (_extract_json_from_text _ _ _); [|reflexivity].
  destruct (_ && _); [|reflexivity].
  destruct (create_tasks_from _ _ _); reflexivity.
Qed.

End ConfirmationFacts.



(** ** Rows found by key *)

Section FirstFacts.

Context {A : Type}.
Variable p : A -> bool.

Lemma find_split (l : list A) (x : A) :
  List.find p l = Some x ->
  exists before after,
    l = (before ++ x :: after)%list
    /\ p x = true
    /\ Forall (fun y => p y = false) before.
Proof.
  induction l as [|y rest IH]; simpl; [discriminate|].
  destruct (p y) eqn:Hy.
  - intros [= ->]. exists [], rest. repeat split; auto.
  - intros H. destruct (IH H) as (before & after & -> & Hx & Hb).
    exists (y :: before), after. repeat split; auto.
Qed.

Lemma find_none_forall (l : list A) :
  List.find p l = None -> Forall (fun y => p y = false) l.
Proof.
  intros H. apply Forall_forall. intros y Hy.
  now apply (find_none p l H).
Qed.

Lemma update_first_app (f : A -> A) (before after : list A) (x : A) :
  Forall (fun y => p y = false) before -> p x = true ->
  update_first p f (before ++ x :: after) = (before ++ f x :: after)%list.
Proof.
  intros Hb Hx. induction Hb as [|y before Hy _ IH]; simpl.
  - now rewrite Hx.
  - now rewrite Hy, IH.
Qed.

Lemma update_first_none (f : A -> A) (l : list A) :
  Forall (fun y => p y = false) l -> update_first p f l = l.
Proof.
  induction 1 as [|y l Hy _ IH]; simpl; [reflexivity|].
  now rewrite Hy, IH.
Qed.

Lemma delete_first_app (before after : list A) (x : A) :
  Forall (fun y => p y = false) before -> p x = true ->
  delete_first p (before ++ x :: after) = (before ++ after)%list.
Proof.
  intros Hb Hx. induction Hb as [|y before Hy _ IH]; simpl.
  - now rewrite Hx.
  - now rewrite Hy, IH.
Qed.

End FirstFacts.

(** ** update_plan_info *)

(** C9. [update_plan_info] returns false and leaves the store as it was
    when no plan has the key.  Otherwise it returns true and rewrites that
    one row: the title only when a non-empty title is passed, the
    description whenever one is passed (the empty string included), and
    [updated_at], set to the clock's reading; the row's other columns, the
    other plan rows and the tasks table keep their values. *)
Theorem update_plan_info_partial
  (clock : nat -> Z) (w : World) (plan_id : Z) (title description : option string) :
  (first_plan w plan_id = None ->
   update_plan_info clock w plan_id title description = (false, w))
  /\ (forall p, first_plan w plan_id = Some p ->
      exists before after p',
        plans w = (before ++ p :: after)%list
        /\ Forall (fun q => PlanModel.id q <> plan_id) before
        /\ update_plan_info clock w plan_id title description
           = (true, mkWorld (before ++ p' :: after) (tasks w) (S (ticks w)))
        /\ same_plan_identity p p'
        /\ same_plan_counters p p'
        /\ PlanModel.updated_at p' = clock (ticks w)
        /\ (title = None \/ title = Some "" ->
            PlanModel.title p' = PlanModel.title p)
        /\ (forall s, title = Some s -> s <> "" -> PlanModel.title p' = s)
        /\ (description = None ->
            PlanModel.description p' = PlanModel.description p)
        /\ (forall d, description = Some d -> PlanModel.description p' = Some d)).
Proof.
  unfold update_plan_info, first_plan. split.
  - intros ->. reflexivity.
  - intros p Hp. rewrite Hp.
    destruct (find_split _ _ _ Hp) as (before & after & Hl & Hx & Hb).
    exists before, after, (set_info title description (clock (ticks w)) p).
    split; [exact Hl|]. split.
    { eapply Forall_impl; [|exact Hb]. intros q Hq. unfold plan_has_id in Hq.
      now apply Z.eqb_neq. }
    split.
    { simpl. rewrite Hl. now rewrite update_first_app. }
    split; [repeat split|]. split; [repeat split|]. split; [reflexivity|].
    split; [|split; [|split]].
    + intros [-> | ->]; reflexivity.
    + intros s -> Hs. simpl. apply String.eqb_neq in Hs. now rewrite Hs.
    + intros ->. reflexivity.
    + intros d ->. reflexivity.
Qed.

Lemma update_plan_info_partial_witness :
  update_plan_info demo_clock sample_world 7 (Some "Renamed") None
  = (false, sample_world)
  /\ exists before after p',
       plans sample_world = (before ++ sample_row :: after)%list
       /\ Forall (fun q => PlanModel.id q <> 1) before
       /\ update_plan_info demo_clock sample_world 1 (Some "") (Some "")
          = (true, mkWorld (before ++ p' :: after) (tasks sample_world)
                     (S (ticks sample_world)))
       /\ same_plan_identity sample_row p'
       /\ same_plan_counters sample_row p'
       /\ PlanModel.updated_at p' = demo_clock (ticks sample_world)
       /\ (Some "" = None \/ Some "" = Some "" ->
           PlanModel.title p' = PlanModel.title sample_row)
       /\ (forall s, Some "" = Some s -> s <> "" -> PlanModel.title p' = s)
       /\ (Some "" = None ->
           PlanModel.description p' = PlanModel.description sample_row)
       /\ (forall d, Some "" = Some d -> PlanModel.description p' = Some d).
Proof.
  split.
  - apply (proj1 (update_plan_info_partial demo_clock sample_world 7
                    (Some "Renamed") None)).
    reflexivity.
  - apply (proj2 (update_plan_info_partial demo_clock sample_world 1
                    (Some "") (Some "")) sample_row).
    reflexivity.
Defined.

(** ** Lists *)

Lemma mem_Z_In (x : Z) (l : list Z) : mem_Z x l = true <-> In x l.
Proof.
  unfold mem_Z. rewrite existsb_exists. split.
  - intros (y & Hy & E). apply Z.eqb_eq in E. now subst.
  - intros H. exists x. split; [exact H | apply Z.eqb_refl].
Qed.

Lemma mem_Z_not_In (x : Z) (l : list Z) : mem_Z x l = false <-> ~ In x l.
Proof.
  rewrite <- mem_Z_In. destruct (mem_Z x l); split; congruence.
Qed.

Lemma distinct_In (x : Z) (l : list Z) : In x (distinct l) <-> In x l.
Proof.
  induction l as [|y l IH]; simpl; [tauto|].
  destruct (mem_Z y l) eqn:E.
  - apply mem_Z_In in E. rewrite IH. split; [tauto|].
    intros [<- | H]; assumption.
  - simpl. rewrite IH. tauto.
Qed.

Lemma distinct_NoDup (l : list Z) : NoDup (distinct l).
Proof.
  induction l as [|y l IH]; simpl; [constructor|].
  destruct (mem_Z y l) eqn:E; [exact IH|].
  constructor; [|exact IH].
  rewrite distinct_In. now apply mem_Z_not_In.
Qed.

Lemma Forall2_map_left {A B C : Type} (R : B -> C -> Prop) (f : A -> B)
  (l : list A) (l' : list C) :
  Forall2 R (map f l) l' <-> Forall2 (fun x y => R (f x) y) l l'.
Proof.
  revert l'. induction l as [|x l IH]; intros l'; simpl.
  - split; intros H; inversion H; constructor.
  - split; intros H; inversion H; subst; constructor; auto; now apply IH.
Qed.

Lemma Forall2_map_right {A B : Type} (R : A -> B -> Prop) (f : A -> B)
  (l : list A) :
  (forall x, In x l -> R x (f x)) -> Forall2 R l (map f l).
Proof.
  induction l as [|x l IH]; intros H; simpl; constructor.
  - apply H. now left.
  - apply IH. intros y Hy. apply H. now right.
Qed.

Lemma Forall2_same {A : Type} (R : A -> A -> Prop) (l : list A) :
  (forall x, In x l -> R x x) -> Forall2 R l l.
Proof.
  intros H. rewrite <- (map_id l) at 2. now apply Forall2_map_right.
Qed.

Lemma Forall2_weaken {A B : Type} (R R' : A -> B -> Prop) (l : list A)
  (l' : list B) :
  (forall x y, In x l -> R x y -> R' x y) -> Forall2 R l l' -> Forall2 R' l l'.
Proof.
  intros H F. induction F as [|x y l l' Hxy _ IH]; constructor.
  - apply H; [now left | exact Hxy].
  - apply IH. intros a b Ha. apply H. now right.
Qed.

(** A row updated by key is the only row updated when keys are unique. *)
Lemma update_first_by_key {A : Type} (key : A -> Z) (k : Z) (f : A -> A)
  (l : list A) :
  NoDup (map key l) ->
  update_first (fun x => key x =? k) f l
  = map (fun x => if key x =? k then f x else x) l.
Proof.
  induction l as [|x l IH]; simpl; [reflexivity|].
  intros Hnd. inversion Hnd as [|? ? Hx Hl]; subst.
  destruct (Z.eqb_spec (key x) k) as [E|E].
  - f_equal. rewrite <- (map_id l) at 1. apply map_ext_in.
    intros y Hy. destruct (Z.eqb_spec (key y) k) as [E'|]; [|reflexivity].
    exfalso. apply Hx. rewrite E, <- E'. now apply in_map.
  - f_equal. now apply IH.
Qed.

(** ** Progress counters *)

Section ProgressFacts.

Variable clock : nat -> Z.

Lemma progress_same_tasks (w w' : World) (pid : Z) :
  tasks w' = tasks w ->
  progress_total w' pid = progress_total w pid
  /\ progress_completed w' pid = progress_completed w pid.
Proof.
  intros E. unfold progress_total, progress_completed, progress_rows.
  now rewrite E.
Qed.

Lemma completed_le_total (w : World) (pid : Z) :
  0 <= progress_completed w pid <= progress_total w pid.
Proof.
  unfold progress_completed, progress_total.
  induction (progress_rows w pid) as [|t l IH]; simpl List.length; simpl fold_right.
  - simpl. lia.
  - destruct (is_completed_row t); lia.
Qed.

Lemma first_plan_none (w : World) (pid : Z) :
  first_plan w pid = None -> ~ In pid (plan_ids w).
Proof.
  intros H Hin. unfold plan_ids in Hin. apply in_map_iff in Hin.
  destruct Hin as (p & E & Hp).
  pose proof (find_none _ _ H p Hp) as F. unfold plan_has_id in F.
  apply Z.eqb_neq in F. contradiction.
Qed.

Lemma first_plan_some (w : World) (pid : Z) (p : PlanModel.t) :
  first_plan w pid = Some p -> In p (plans w) /\ PlanModel.id p = pid.
Proof.
  intros H. apply find_some in H. destruct H as [Hin E].
  split; [exact Hin|]. now apply Z.eqb_eq.
Qed.

Lemma progress_step_tasks (w : World) (pid : Z) :
  tasks (_update_plan_progress clock w pid) = tasks w.
Proof.
  unfold _update_plan_progress. now destruct (first_plan w pid).
Qed.

Lemma progress_step_ticks (w : World) (pid : Z) :
  ticks (_update_plan_progress clock w pid)
  = if mem_Z pid (plan_ids w) then S (ticks w) else ticks w.
Proof.
  unfold _update_plan_progress.
  destruct (first_plan w pid) as [p|] eqn:E.
  - apply first_plan_some in E. destruct E as [Hin E].
    replace (mem_Z pid (plan_ids w)) with true; [reflexivity|].
    symmetry. apply mem_Z_In. unfold plan_ids. rewrite <- E. now apply in_map.
  - apply first_plan_none in E. apply mem_Z_not_In in E. now rewrite E.
Qed.

Lemma progress_step_plans (w : World) (pid : Z) :
  plan_key_ok w ->
  plans (_update_plan_progress clock w pid)
  = map (recompute w pid (clock (ticks w))) (plans w).
Proof.
  intros Hk. unfold _update_plan_progress.
  destruct (first_plan w pid) as [p|] eqn:E.
  - simpl. unfold plan_has_id.
    now rewrite (update_first_by_key PlanModel.id pid _ (plans w) Hk).
  - rewrite <- (map_id (plans w)) at 1. apply map_ext_in.
    intros q Hq. unfold recompute.
    pose proof (find_none _ _ E q Hq) as F. unfold plan_has_id in F.
    now rewrite F.
Qed.

Lemma recompute_id (w : World) (pid t : Z) (p : PlanModel.t) :
  PlanModel.id (recompute w pid t p) = PlanModel.id p.
Proof. unfold recompute. now destruct (PlanModel.id p =? pid). Qed.

Lemma progress_step_key (w : World) (pid : Z) :
  plan_key_ok w -> plan_ids (_update_plan_progress clock w pid) = plan_ids w.
Proof.
  intros Hk. unfold plan_ids. rewrite progress_step_plans by exact Hk.
  rewrite map_map. apply map_ext. intros p. apply recompute_id.
Qed.

Lemma progress_fold_tasks (pids : list Z) (w : World) :
  tasks (fold_left (_update_plan_progress clock) pids w) = tasks w.
Proof.
  revert w. induction pids as [|a rest IH]; intros w; simpl; [reflexivity|].
  rewrite IH. apply progress_step_tasks.
Qed.

(** The plans after a run of [_update_plan_progress] over [pids]. *)
Lemma progress_fold (pids : list Z) (w : World) :
  plan_key_ok w ->
  let w' := fold_left (_update_plan_progress clock) pids w in
  tasks w' = tasks w
  /\ plan_ids w' = plan_ids w
  /\ (ticks w <= ticks w')%nat
  /\ Forall2 (refreshed clock w pids (ticks w) (ticks w')) (plans w) (plans w').
Proof.
  revert w. induction pids as [|a rest IH]; intros w Hk; simpl.
  - repeat split; auto.
    apply Forall2_same. intros p _. unfold refreshed.
    split; [repeat split|]. split; [repeat split|].
    split; [intros []|reflexivity].
  - set (w1 := _update_plan_progress clock w a).
    assert (Hk1 : plan_key_ok w1).
    { unfold plan_key_ok, w1. now rewrite progress_step_key. }
    destruct (IH w1 Hk1) as (Ht & Hi & Hticks & HF).
    pose proof (progress_step_tasks w a) as Ht1. fold w1 in Ht1.
    pose proof (progress_step_ticks w a) as Htk1. fold w1 in Htk1.
    assert (Hle1 : (ticks w <= ticks w1)%nat).
    { rewrite Htk1. destruct (mem_Z a (plan_ids w)); lia. }
    split; [congruence|].
    split; [rewrite Hi; unfold w1; now apply progress_step_key|].
    split; [lia|].
    pose proof (progress_step_plans w a Hk) as Hp1. fold w1 in Hp1.
    rewrite Hp1 in HF.
    apply (proj1 (Forall2_map_left _ (recompute w a (clock (ticks w)))
                    (plans w) _)) in HF.
    eapply Forall2_weaken; [|exact HF].
    intros p p' Hp (Hid & Htxt & Hin & Hout).
    rewrite recompute_id in Hin, Hout.
    assert (Hrec : same_plan_identity p (recompute w a (clock (ticks w)) p)
                   /\ same_plan_text p (recompute w a (clock (ticks w)) p)).
    { unfold recompute. destruct (PlanModel.id p =? a); repeat split. }
    destruct Hrec as [Hrid Hrtxt].
    unfold refreshed.
    split.
    { unfold same_plan_identity in *. intuition congruence. }
    split.
    { unfold same_plan_text in *. intuition congruence. }
    destruct (progress_same_tasks w w1 (PlanModel.id p) Ht1) as [ET EC].
    split.
    + intros Hmem.
      destruct (in_dec Z.eq_dec (PlanModel.id p) rest) as [Hr|Hr].
      * destruct (Hin Hr) as (H1 & H2 & k & Hk' & H3).
        rewrite <- ET, <- EC. repeat split; auto.
        exists k. split; [lia | exact H3].
      * destruct Hmem as [Ea|Hr']; [|contradiction].
        rewrite (Hout Hr). unfold recompute.
        rewrite <- Ea, Z.eqb_refl. simpl.
        repeat split; auto.
        exists (ticks w). split; [|reflexivity].
        assert (Hm : mem_Z a (plan_ids w) = true).
        { apply mem_Z_In. rewrite Ea. unfold plan_ids. now apply in_map. }
        rewrite Hm in Htk1. lia.
    + intros Hnot.
      assert (Ha : PlanModel.id p <> a) by (intros E; apply Hnot; now left).
      assert (Hr : ~ In (PlanModel.id p) rest) by (intros E; apply Hnot; now right).
      rewrite (Hout Hr). unfold recompute.
      apply Z.eqb_neq in Ha. now rewrite Ha.
Qed.

End ProgressFacts.

(** ** update_task_status *)

Section StatusFacts.

Variable clock : nat -> Z.

Lemma set_task_status_identity (s : string) (t0 : Z) (c : option Z)
  (t : TaskModel.t) :
  same_task_identity t (set_task_status s t0 c t).
Proof. repeat split. Qed.

Lemma filter_nil_forall {A : Type} (f : A -> bool) (l : list A) :
  filter f l = [] <-> (forall x, In x l -> f x = false).
Proof.
  split.
  - intros E x Hx. destruct (f x) eqn:F; [|reflexivity].
    assert (H : In x (filter f l)) by (apply filter_In; auto).
    rewrite E in H. contradiction.
  - intros H. induction l as [|y l IH]; simpl; [reflexivity|].
    rewrite (H y (or_introl eq_refl)). apply IH.
    intros x Hx. apply H. now right.
Qed.

(** [update_task_status] when some row matches: the tables it leaves. *)
Lemma update_task_status_matched (w : World) (task_ids : list Z)
  (status : TaskStatus) (notes : option string) :
  filter (targeted task_ids) (tasks w) <> [] ->
  update_task_status clock w task_ids status notes
  = (true,
     fold_left (_update_plan_progress clock)
       (distinct (map TaskModel.plan_id (filter (targeted task_ids) (tasks w))))
       (mkWorld (plans w)
          (map (fun t =>
                  if targeted task_ids t
                  then set_task_status (TaskStatus_value status) (clock (ticks w))
                         (if TaskStatus_eqb status COMPLETED
                          then Some (clock (ticks w)) else None) t
                  else t) (tasks w))
          (S (ticks w)))).
Proof.
  intros Hne. unfold update_task_status. simpl.
  destruct (filter (targeted task_ids) (tasks w)); [contradiction|reflexivity].
Qed.

Lemma update_task_status_unmatched (w : World) (task_ids : list Z)
  (status : TaskStatus) (notes : option string) :
  filter (targeted task_ids) (tasks w) = [] ->
  update_task_status clock w task_ids status notes
  = (false, mkWorld (plans w) (tasks w) (S (ticks w))).
Proof.
  intros E. unfold update_task_status. simpl. now rewrite E.
Qed.

(** The tasks table after [update_task_status], matched or not. *)
Lemma update_task_status_tasks (w : World) (task_ids : list Z)
  (status : TaskStatus) (notes : option string) :
  tasks (snd (update_task_status clock w task_ids status notes))
  = map (fun t =>
           if targeted task_ids t
           then set_task_status (TaskStatus_value status) (clock (ticks w))
                  (if TaskStatus_eqb status COMPLETED
                   then Some (clock (ticks w)) else None) t
           else t) (tasks w).
Proof.
  destruct (filter (targeted task_ids) (tasks w)) eqn:E.
  - rewrite update_task_status_unmatched by exact E. simpl.
    rewrite <- (map_id (tasks w)) at 1. apply map_ext_in.
    intros t Ht. apply filter_nil_forall with (x := t) in E; [|exact Ht].
    now rewrite E.
  - rewrite update_task_status_matched by (rewrite E; discriminate).
    simpl snd. now rewrite progress_fold_tasks.
Qed.

End StatusFacts.

(** The effect of [update_task_status], the recount written with the
    store's own counting functions. *)
Lemma update_task_status_effect
  (clock : nat -> Z) (w : World) (task_ids : list Z) (status : TaskStatus)
  (notes : option string) :
  plan_key_ok w ->
  let T := clock (ticks w) in
  let result := update_task_status clock w task_ids status notes in
  let w' := snd result in
  let matched (t : TaskModel.t) := In (TaskModel.id t) task_ids in
  let touched (pid : Z) :=
    exists t, In t (tasks w) /\ matched t /\ TaskModel.plan_id t = pid in
  ((forall t, In t (tasks w) -> ~ matched t) ->
   fst result = false /\ plans w' = plans w /\ tasks w' = tasks w)
  /\ ((exists t, In t (tasks w) /\ matched t) ->
      fst result = true
      /\ Forall2
           (fun t t' =>
              same_task_identity t t'
              /\ (matched t ->
                  TaskModel.status t' = TaskStatus_value status
                  /\ TaskModel.updated_at t' = T
                  /\ (status = COMPLETED -> TaskModel.completed_at t' = Some T)
                  /\ (status <> COMPLETED ->
                      TaskModel.completed_at t' = TaskModel.completed_at t))
              /\ (~ matched t -> t' = t))
           (tasks w) (tasks w')
      /\ Forall2
           (fun p p' =>
              same_plan_identity p p'
              /\ same_plan_text p p'
              /\ (touched (PlanModel.id p) ->
                  PlanModel.total_tasks p' = progress_total w' (PlanModel.id p)
                  /\ PlanModel.completed_tasks p'
                     = progress_completed w' (PlanModel.id p)
                  /\ exists k, (ticks w < k < ticks w')%nat
                               /\ PlanModel.updated_at p' = clock k)
              /\ (~ touched (PlanModel.id p) -> p' = p))
           (plans w) (plans w')).
Proof.
  intros Hk T result w' matched touched.
  assert (Hm : forall t, targeted task_ids t = true <-> matched t).
  { intros t. unfold targeted, matched. apply mem_Z_In. }
  split.
  - intros Hnone.
    assert (E : filter (targeted task_ids) (tasks w) = []).
    { apply filter_nil_forall. intros t Ht.
      destruct (targeted task_ids t) eqn:F; [|reflexivity].
      apply Hm in F. now apply Hnone in F. }
    unfold w', result. rewrite update_task_status_unmatched by exact E.
    repeat split.
  - intros (t0 & Ht0 & Hmt0).
    assert (Hne : filter (targeted task_ids) (tasks w) <> []).
    { intros E. apply filter_nil_forall with (x := t0) in E; [|exact Ht0].
      apply Hm in Hmt0. congruence. }
    pose proof (update_task_status_tasks clock w task_ids status notes) as Htasks.
    fold result in Htasks. fold w' in Htasks.
    split; [unfold result; now rewrite update_task_status_matched|].
    split.
    + rewrite Htasks. apply Forall2_map_right. intros t Ht.
      destruct (targeted task_ids t) eqn:F.
      * split; [apply set_task_status_identity|]. split.
        -- intros _. simpl. repeat split.
           ++ intros ->. reflexivity.
           ++ intros Hs. destruct status; try reflexivity. congruence.
        -- intros Hn. apply Hm in F. contradiction.
      * split; [repeat split|]. split; [|reflexivity].
        intros Hyes. apply Hm in Hyes. congruence.
    + unfold w', result. rewrite update_task_status_matched by exact Hne.
      simpl snd.
      set (w2 := mkWorld (plans w) _ (S (ticks w))).
      set (pids := distinct _).
      assert (Hk2 : plan_key_ok w2) by exact Hk.
      destruct (progress_fold clock pids w2 Hk2) as (Ht & _ & Htk & HF).
      eapply Forall2_weaken; [|exact HF].
      intros p p' Hp (Hid & Htxt & Hin & Hout).
      assert (Htouch : touched (PlanModel.id p) <-> In (PlanModel.id p) pids).
      { unfold pids, touched. rewrite distinct_In, in_map_iff. split.
        - intros (t & Ht' & Hmt & Hpid). exists t. split; [exact Hpid|].
          apply filter_In. split; [exact Ht'|]. now apply Hm.
        - intros (t & Hpid & Hf). apply filter_In in Hf. destruct Hf as [Ht' F].
          exists t. repeat split; auto. now apply Hm. }
      split; [exact Hid|]. split; [exact Htxt|]. split.
      * intros Hto. apply Htouch in Hto.
        destruct (Hin Hto) as (H1 & H2 & k & Hrange & H3).
        destruct (progress_same_tasks _ _ (PlanModel.id p) Ht) as [ET EC].
        rewrite ET, EC. repeat split; auto.
        exists k. split; [simpl in Hrange; lia | exact H3].
      * intros Hnt. apply Hout. intros Hin'. apply Hnt. now apply Htouch.
Qed.

Lemma progress_total_count (w : World) (pid : Z) :
  progress_total w pid
  = Z.of_nat
      (List.length
         (filter (fun t => (TaskModel.plan_id t =? pid)
                           && negb (String.eqb (TaskModel.status t) "deleted"))
            (tasks w))).
Proof. reflexivity. Qed.

Lemma progress_completed_count (w : World) (pid : Z) :
  progress_completed w pid
  = Z.of_nat
      (List.length
         (filter (fun t => (TaskModel.plan_id t =? pid)
                           && String.eqb (TaskModel.status t) "completed")
            (tasks w))).
Proof.
  unfold progress_completed, progress_rows.
  induction (tasks w) as [|t rest IH]; [reflexivity|].
  cbn [filter]. unfold owned_by, not_deleted, is_completed_row in *.
  destruct (TaskModel.plan_id t =? pid); cbn [andb]; [|exact IH].
  destruct (String.eqb (TaskModel.status t) "completed") eqn:E1,
           (String.eqb (TaskModel.status t) "deleted") eqn:E2; cbn [negb].
  - apply String.eqb_eq in E1, E2. rewrite E1 in E2. discriminate.
  - cbn [fold_right List.length]. rewrite E1, IH, Nat2Z.inj_succ. lia.
  - exact IH.
  - cbn [fold_right]. rewrite E1, IH. lia.
Qed.

(** C5. With the plan keys unique: when no requested id names a task row,
    [update_task_status] returns false and leaves both tables as they were.
    Otherwise it returns true; every matched row gets the new status and the
    one time [T] read at the start of the call as [updated_at], and [T] as
    [completed_at] when the new status is completed; the other rows and
    columns are unchanged.  Every plan that owns a matched row gets
    as [total_tasks] the number of task rows, after the update, that carry
    its key and whose status is not "deleted", as [completed_tasks] the
    number of those whose status is "completed", and an [updated_at] read
    from the clock during the call; the other plan rows are unchanged. *)
Theorem update_task_status_batch
  (clock : nat -> Z) (w : World) (task_ids : list Z) (status : TaskStatus)
  (notes : option string) :
  plan_key_ok w ->
  let T := clock (ticks w) in
  let result := update_task_status clock w task_ids status notes in
  let w' := snd result in
  let matched (t : TaskModel.t) := In (TaskModel.id t) task_ids in
  let touched (pid : Z) :=
    exists t, In t (tasks w) /\ matched t /\ TaskModel.plan_id t = pid in
  let count (test : TaskModel.t -> bool) :=
    Z.of_nat (List.length (filter test (tasks w'))) in
  ((forall t, In t (tasks w) -> ~ matched t) ->
   fst result = false /\ plans w' = plans w /\ tasks w' = tasks w)
  /\ ((exists t, In t (tasks w) /\ matched t) ->
      fst result = true
      /\ Forall2
           (fun t t' =>
              same_task_identity t t'
              /\ (matched t ->
                  TaskModel.status t' = TaskStatus_value status
                  /\ TaskModel.updated_at t' = T
                  /\ (status = COMPLETED -> TaskModel.completed_at t' = Some T)
                  /\ (status <> COMPLETED ->
                      TaskModel.completed_at t' = TaskModel.completed_at t))
              /\ (~ matched t -> t' = t))
           (tasks w) (tasks w')
      /\ Forall2
           (fun p p' =>
              same_plan_identity p p'
              /\ same_plan_text p p'
              /\ (touched (PlanModel.id p) ->
                  PlanModel.total_tasks p'
                  = count (fun t =>
                             (TaskModel.plan_id t =? PlanModel.id p)
                             && negb (String.eqb (TaskModel.status t)
                                        "deleted"))
                  /\ PlanModel.completed_tasks p'
                     = count (fun t =>
                                (TaskModel.plan_id t =? PlanModel.id p)
                                && String.eqb (TaskModel.status t) "completed")
                  /\ exists k, (ticks w < k < ticks w')%nat
                               /\ PlanModel.updated_at p' = clock k)
              /\ (~ touched (PlanModel.id p) -> p' = p))
           (plans w) (plans w')).
Proof.
  intros Hk T result w' matched touched count.
  destruct (update_task_status_effect clock w task_ids status notes Hk)
    as [Hnone Hsome].
  split; [exact Hnone|].
  intros Hex. destruct (Hsome Hex) as (Hr & Htasks & Hplans).
  split; [exact Hr|]. split; [exact Htasks|].
  eapply Forall2_weaken; [|exact Hplans].
  intros p p' _ (Hid & Htxt & Hin & Hout).
  split; [exact Hid|]. split; [exact Htxt|]. split; [|exact Hout].
  intros Hto. destruct (Hin Hto) as (Htotal & Hcompleted & Hclock).
  split; [|split; [|exact Hclock]].
  - rewrite Htotal. apply progress_total_count.
  - rewrite Hcompleted. apply progress_completed_count.
Qed.

(** ** Row keys *)

Lemma max_key_nonneg (l : list Z) : 0 <= fold_right Z.max 0 l.
Proof. induction l as [|x l IH]; simpl; lia. Qed.

Lemma max_key_app (l l' : list Z) :
  fold_right Z.max 0 (l ++ l')
  = Z.max (fold_right Z.max 0 l) (fold_right Z.max 0 l').
Proof.
  induction l as [|x l IH]; simpl.
  - pose proof (max_key_nonneg l'). lia.
  - rewrite IH. lia.
Qed.

Lemma max_key_bound (l : list Z) (x : Z) : In x l -> x <= fold_right Z.max 0 l.
Proof.
  induction l as [|y l IH]; simpl; [tauto|].
  intros [-> | H]; [lia|]. specialize (IH H). lia.
Qed.

Lemma next_rowid_fresh (l : list Z) : ~ In (next_rowid l) l.
Proof.
  intros H. apply max_key_bound in H. unfold next_rowid in H. lia.
Qed.

Lemma next_rowid_above (l : list Z) (x : Z) : In x l -> x < next_rowid l.
Proof. intros H. apply max_key_bound in H. unfold next_rowid. lia. Qed.

Lemma next_rowid_positive (l : list Z) : 0 < next_rowid l.
Proof. pose proof (max_key_nonneg l). unfold next_rowid. lia. Qed.

Lemma next_rowid_snoc (l : list Z) :
  next_rowid (l ++ [next_rowid l]) = next_rowid l + 1.
Proof.
  unfold next_rowid. rewrite max_key_app. cbn [fold_right].
  pose proof (max_key_nonneg l). lia.
Qed.

(** ** Inserts *)

Section InsertFacts.

Variable clock : nat -> Z.

Lemma create_tasks_rows (pid : Z) (l : list Task.t) (i : Z) (w : World) :
  snd (create_tasks clock pid i l w)
  = mkWorld (plans w)
      (tasks w ++ rows_from clock (next_rowid (map TaskModel.id (tasks w)))
                    (ticks w) i pid l)
      (ticks w + List.length l).
Proof.
  revert i w. induction l as [|task rest IH]; intros i w; simpl.
  - rewrite app_nil_r, Nat.add_0_r. now destruct w.
  - specialize (IH (i + 1)
                  (mkWorld (plans w)
                     (tasks w ++ [TaskModel.mk
                        (next_rowid (map TaskModel.id (tasks w))) pid
                        (Task.title task) (Task.description task)
                        (TaskStatus_value (Task.status task))
                        (Priority_value (Task.priority task)) i
                        (JsonRef.dumps_ints (Task.dependencies task))
                        (clock (ticks w)) (clock (ticks w)) None])
                     (S (ticks w)))).
    destruct (create_tasks clock pid (i + 1) rest _) as [created w2].
    simpl in IH |- *. rewrite IH.
    rewrite map_app. simpl map. rewrite next_rowid_snoc.
    rewrite <- app_assoc. simpl. f_equal. lia.
Qed.

Lemma add_tasks_rows (pid max_index : Z) (l : list Task.t) (i : Z) (w : World) :
  add_tasks clock pid max_index i l w
  = mkWorld (plans w)
      (tasks w ++ rows_from clock (next_rowid (map TaskModel.id (tasks w)))
                    (ticks w) (max_index + 1 + i) pid l)
      (ticks w + List.length l).
Proof.
  revert i w. induction l as [|task rest IH]; intros i w; simpl.
  - rewrite app_nil_r, Nat.add_0_r. now destruct w.
  - rewrite IH. simpl.
    rewrite map_app. simpl map. rewrite next_rowid_snoc.
    rewrite <- app_assoc. simpl.
    replace (max_index + 1 + (i + 1)) with (max_index + 1 + i + 1) by lia.
    f_equal. lia.
Qed.

(** The row [create_plan] stores for the plan. *)
Lemma create_plan_world (w : World) (plan : Plan.t) :
  let pid := next_rowid (plan_ids w) in
  let row :=
    PlanModel.mk pid (Plan.title plan) (Plan.description plan)
      (PlanCategory_value (Plan.category plan)) (Plan.goal plan)
      (TaskStatus_value (Plan.status plan))
      (Z.of_nat (List.length (Plan.tasks plan))) 0
      (clock (ticks w)) (clock (ticks w)) in
  snd (create_plan clock w plan)
  = mkWorld (plans w ++ [row])
      (tasks w ++ rows_from clock (next_rowid (map TaskModel.id (tasks w)))
                    (S (ticks w)) 0 pid (Plan.tasks plan))
      (S (ticks w) + List.length (Plan.tasks plan)).
Proof.
  intros pid row. unfold create_plan, insert_plan, now. simpl.
  match goal with
  | |- context [create_tasks ?c ?q ?i ?l ?w0] =>
      pose proof (create_tasks_rows q l i w0) as H;
      destruct (create_tasks c q i l w0) as [created w2]
  end.
  simpl in H |- *. subst w2. reflexivity.
Qed.

Lemma rows_from_length (first_id : Z) (first_tick : nat) (first_index pid : Z)
  (l : list Task.t) :
  List.length (rows_from clock first_id first_tick first_index pid l)
  = List.length l.
Proof.
  revert first_id first_tick first_index.
  induction l as [|task rest IH]; intros; simpl; [reflexivity|].
  now rewrite IH.
Qed.

Lemma rows_from_owned (first_id : Z) (first_tick : nat) (first_index pid : Z)
  (l : list Task.t) :
  Forall (fun row => TaskModel.plan_id row = pid)
    (rows_from clock first_id first_tick first_index pid l).
Proof.
  revert first_id first_tick first_index.
  induction l as [|task rest IH]; intros; simpl; constructor; auto.
Qed.

(** The [n]-th appended row. *)
Lemma rows_from_nth (first_id : Z) (first_tick : nat) (first_index pid : Z)
  (l : list Task.t) (n : nat) (task : Task.t) :
  nth_error l n = Some task ->
  nth_error (rows_from clock first_id first_tick first_index pid l) n
  = Some (TaskModel.mk (first_id + Z.of_nat n) pid (Task.title task)
            (Task.description task) (TaskStatus_value (Task.status task))
            (Priority_value (Task.priority task))
            (first_index + Z.of_nat n)
            (JsonRef.dumps_ints (Task.dependencies task))
            (clock (first_tick + n)) (clock (first_tick + n)) None).
Proof.
  revert first_id first_tick first_index n.
  induction l as [|x rest IH]; intros first_id first_tick first_index n;
    destruct n as [|n]; simpl; try discriminate.
  - intros [= ->]. rewrite Z.add_0_r, Z.add_0_r, Nat.add_0_r. reflexivity.
  - intros H. rewrite (IH _ _ _ _ H).
    replace (first_id + 1 + Z.of_nat n) with (first_id + Z.of_nat (S n)) by lia.
    replace (first_index + 1 + Z.of_nat n)
      with (first_index + Z.of_nat (S n)) by lia.
    replace (S first_tick + n)%nat with (first_tick + S n)%nat by lia.
    reflexivity.
Qed.

End InsertFacts.

(** ** The counters as an invariant of the store *)

Section InvariantFacts.

Variable clock : nat -> Z.

Lemma filter_andb {A : Type} (f g : A -> bool) (l : list A) :
  filter (fun x => f x && g x) l = filter g (filter f l).
Proof.
  induction l as [|x l IH]; simpl; [reflexivity|].
  destruct (f x); simpl; [|exact IH].
  destruct (g x); now rewrite IH.
Qed.

Lemma progress_total_owned (w w' : World) (pid : Z) :
  filter (owned_by pid) (tasks w') = filter (owned_by pid) (tasks w) ->
  progress_total w' pid = progress_total w pid.
Proof.
  intros E. unfold progress_total, progress_rows.
  now rewrite !filter_andb, E.
Qed.

Lemma filter_none {A : Type} (f : A -> bool) (l : list A) :
  Forall (fun x => f x = false) l -> filter f l = [].
Proof.
  induction 1 as [|x l Hx _ IH]; simpl; [reflexivity|]. now rewrite Hx.
Qed.

Lemma filter_all {A : Type} (f : A -> bool) (l : list A) :
  Forall (fun x => f x = true) l -> filter f l = l.
Proof.
  induction 1 as [|x l Hx _ IH]; simpl; [reflexivity|]. now rewrite Hx, IH.
Qed.

Lemma rows_from_not_owned (q first_id : Z) (first_tick : nat)
  (first_index pid : Z) (l : list Task.t) :
  q <> pid ->
  filter (owned_by q) (rows_from clock first_id first_tick first_index pid l) = [].
Proof.
  intros Hq. apply filter_none.
  eapply Forall_impl; [|apply rows_from_owned].
  intros row Hr. unfold owned_by. rewrite Hr. apply Z.eqb_neq. congruence.
Qed.

Lemma not_deleted_value (s : TaskStatus) :
  s <> DELETED -> String.eqb (TaskStatus_value s) "deleted" = false.
Proof. destruct s; intros H; try reflexivity. congruence. Qed.

Lemma rows_from_counted (first_id : Z) (first_tick : nat) (first_index pid : Z)
  (l : list Task.t) :
  Forall (fun t => Task.status t <> DELETED) l ->
  filter (fun t => owned_by pid t && not_deleted t)
    (rows_from clock first_id first_tick first_index pid l)
  = rows_from clock first_id first_tick first_index pid l.
Proof.
  intros H. apply filter_all.
  revert first_id first_tick first_index.
  induction H as [|task rest Ht _ IH]; intros; simpl; constructor; auto.
  unfold owned_by, not_deleted. simpl.
  rewrite Z.eqb_refl, (not_deleted_value _ Ht). reflexivity.
Qed.

(** No row of a store that honours the foreign key names a fresh key. *)
Lemma fresh_key_unowned (w : World) :
  foreign_key_ok w ->
  filter (owned_by (next_rowid (plan_ids w))) (tasks w) = [].
Proof.
  intros Hfk. apply filter_none.
  eapply Forall_impl; [|exact Hfk].
  intros t Hin. unfold owned_by. apply Z.eqb_neq. intros E.
  cbv beta in Hin. rewrite E in Hin. now apply next_rowid_fresh in Hin.
Qed.

Lemma create_plan_ok (w : World) (plan : Plan.t) :
  store_ok w ->
  Forall (fun t => Task.status t <> DELETED) (Plan.tasks plan) ->
  store_ok (snd (create_plan clock w plan)).
Proof.
  intros (Hk & Hfk & Hb & Hx) Hadm.
  rewrite create_plan_world.
  set (pid := next_rowid (plan_ids w)).
  set (rows := rows_from clock _ _ 0 pid (Plan.tasks plan)).
  set (row := PlanModel.mk pid _ _ _ _ _ _ _ _ _).
  unfold store_ok, plan_key_ok, foreign_key_ok, counters_bounded, totals_exact,
    plan_ids. simpl plans. simpl tasks.
  rewrite map_app. simpl map. fold (plan_ids w).
  split; [|split; [|split]].
  - apply NoDup_app; [exact Hk | repeat constructor; simpl; tauto |].
    intros a Ha [<- | []]. now apply next_rowid_fresh in Ha.
  - apply Forall_app. split.
    + eapply Forall_impl; [|exact Hfk]. intros t Ht. apply in_or_app. now left.
    + eapply Forall_impl; [|apply rows_from_owned].
      intros r Hr. rewrite Hr. apply in_or_app. right. now left.
  - apply Forall_app. split; [exact Hb|]. constructor; [|constructor].
    simpl. lia.
  - apply Forall_app. split.
    + apply Forall_forall. intros p Hp.
      unfold totals_exact in Hx. rewrite Forall_forall in Hx.
      rewrite (Hx p Hp). symmetry. apply progress_total_owned. simpl tasks.
      rewrite filter_app. unfold rows. rewrite rows_from_not_owned.
      * apply app_nil_r.
      * intros E. apply (next_rowid_fresh (plan_ids w)). fold pid. rewrite <- E.
        unfold plan_ids. now apply in_map.
    + constructor; [|constructor]. simpl PlanModel.total_tasks. simpl PlanModel.id.
      unfold progress_total, progress_rows. simpl tasks.
      rewrite filter_app, length_app.
      rewrite filter_andb. unfold pid at 1. rewrite (fresh_key_unowned w Hfk).
      simpl. unfold rows. rewrite rows_from_counted by exact Hadm.
      now rewrite rows_from_length.
Qed.

(** What [update_task_status] does to the plans table, matched or not. *)
Lemma update_task_status_plans (w : World) (task_ids : list Z)
  (status : TaskStatus) (notes : option string) :
  plan_key_ok w ->
  let w' := snd (update_task_status clock w task_ids status notes) in
  let pids :=
    distinct (map TaskModel.plan_id (filter (targeted task_ids) (tasks w))) in
  plan_ids w' = plan_ids w
  /\ (ticks w < ticks w')%nat
  /\ Forall2 (refreshed clock w' pids (S (ticks w)) (ticks w'))
       (plans w) (plans w').
Proof.
  intros Hk w' pids. subst w' pids.
  destruct (filter (targeted task_ids) (tasks w)) eqn:E.
  - rewrite update_task_status_unmatched by exact E.
    simpl. repeat split; [lia|].
    apply Forall2_same. intros p _. unfold refreshed.
    split; [repeat split|]. split; [repeat split|].
    split; [intros []|reflexivity].
  - assert (Hne : filter (targeted task_ids) (tasks w) <> [])
      by (rewrite E; discriminate).
    rewrite <- E. clear E.
    rewrite update_task_status_matched by exact Hne. simpl snd.
    set (pids := distinct _).
    set (w2 := mkWorld (plans w) _ (S (ticks w))).
    assert (Hk2 : plan_key_ok w2) by exact Hk.
    destruct (progress_fold clock pids w2 Hk2) as (Ht & Hi & Htk & HF).
    split; [exact Hi|]. split; [simpl in Htk; lia|].
    eapply Forall2_weaken; [|exact HF].
    intros p p' _ (Hid & Htxt & Hin & Hout).
    split; [exact Hid|]. split; [exact Htxt|]. split; [|exact Hout].
    intros Hp. destruct (Hin Hp) as (H1 & H2 & Hex).
    destruct (progress_same_tasks _ _ (PlanModel.id p) Ht) as [ET EC].
    rewrite ET, EC. auto.
Qed.

Lemma filter_map_fixed {A : Type} (g : A -> bool) (u : A -> A) (l : list A) :
  (forall x, In x l -> g (u x) = g x /\ (g x = true -> u x = x)) ->
  filter g (map u l) = filter g l.
Proof.
  induction l as [|x l IH]; intros H; simpl; [reflexivity|].
  destruct (H x (or_introl eq_refl)) as [E F]. rewrite E.
  rewrite IH by (intros y Hy; apply H; now right).
  destruct (g x); [|reflexivity]. now rewrite F.
Qed.

Lemma refreshed_id (w : World) (pids : list Z) (lo hi : nat)
  (l l' : list PlanModel.t) :
  Forall2 (refreshed clock w pids lo hi) l l' ->
  map PlanModel.id l' = map PlanModel.id l.
Proof.
  induction 1 as [|p p' l l' (Hid & _) _ IH]; simpl; [reflexivity|].
  destruct Hid as [-> _]. now rewrite IH.
Qed.

Lemma update_task_status_ok (w : World) (task_ids : list Z)
  (status : TaskStatus) (notes : option string) :
  store_ok w ->
  store_ok (snd (update_task_status clock w task_ids status notes)).
Proof.
  intros (Hk & Hfk & Hb & Hx).
  destruct (update_task_status_plans w task_ids status notes Hk)
    as (Hids & _ & HF).
  pose proof (update_task_status_tasks clock w task_ids status notes) as Ht.
  set (w' := snd (update_task_status clock w task_ids status notes)) in *.
  set (pids := distinct _) in HF.
  unfold store_ok, plan_key_ok, foreign_key_ok, counters_bounded, totals_exact.
  rewrite Hids.
  split; [exact Hk|]. split; [|split].
  - rewrite Ht. apply Forall_map. eapply Forall_impl; [|exact Hfk].
    intros t Hin. now destruct (targeted task_ids t).
  - unfold counters_bounded in Hb. clear Hx.
    induction HF as [|p p' l l' (_ & _ & Hin & Hout) _ IH]; constructor.
    + inversion Hb; subst.
      destruct (in_dec Z.eq_dec (PlanModel.id p) pids) as [Hp|Hp].
      * destruct (Hin Hp) as (-> & -> & _). apply completed_le_total.
      * now rewrite (Hout Hp).
    + apply IH. now inversion Hb.
  - unfold totals_exact in Hx. clear Hb.
    induction HF as [|p p' l l' (Hid & _ & Hin & Hout) _ IH]; constructor.
    + inversion Hx; subst. destruct Hid as [Eid _]. rewrite Eid.
      destruct (in_dec Z.eq_dec (PlanModel.id p) pids) as [Hp|Hp].
      * now destruct (Hin Hp) as (-> & _).
      * rewrite (Hout Hp), H1. symmetry. apply progress_total_owned.
        rewrite Ht. apply filter_map_fixed. intros t Hint.
        destruct (targeted task_ids t) eqn:F; [|auto].
        split; [reflexivity|]. intros Hown. exfalso. apply Hp.
        unfold pids. rewrite distinct_In, in_map_iff. exists t.
        unfold owned_by in Hown. apply Z.eqb_eq in Hown.
        split; [exact Hown|]. apply filter_In. auto.
    + apply IH. now inversion Hx.
Qed.

End InvariantFacts.

Section InvariantSteps.

Variable clock : nat -> Z.

Lemma Forall_update_first {A : Type} (P : A -> Prop) (p : A -> bool)
  (f : A -> A) (l : list A) :
  (forall x, In x l -> P x -> P (f x)) -> Forall P l ->
  Forall P (update_first p f l).
Proof.
  intros Hf H. induction H as [|x l Hx Hl IH]; simpl; [constructor|].
  destruct (p x).
  - constructor; [apply Hf; [now left | exact Hx] | exact Hl].
  - constructor; [exact Hx|]. apply IH. intros y Hy. apply Hf. now right.
Qed.

Lemma Forall_delete_first {A : Type} (P : A -> Prop) (p : A -> bool)
  (l : list A) :
  Forall P l -> Forall P (delete_first p l).
Proof.
  induction 1 as [|x l Hx Hl IH]; simpl; [constructor|].
  destruct (p x); [exact Hl | now constructor].
Qed.

Lemma map_update_first {A B : Type} (key : A -> B) (p : A -> bool)
  (f : A -> A) (l : list A) :
  (forall x, key (f x) = key x) ->
  map key (update_first p f l) = map key l.
Proof.
  intros Hf. induction l as [|x l IH]; simpl; [reflexivity|].
  destruct (p x); simpl; [now rewrite Hf | now rewrite IH].
Qed.

(** The counters stay in range, whatever the store and the mutation. *)

Lemma progress_step_bounded (w : World) (pid : Z) :
  counters_bounded w -> counters_bounded (_update_plan_progress clock w pid).
Proof.
  unfold counters_bounded, _update_plan_progress. intros H.
  destruct (first_plan w pid); [|exact H]. simpl.
  apply Forall_update_first; [|exact H].
  intros p _ _. simpl. apply completed_le_total.
Qed.

Lemma progress_fold_bounded (pids : list Z) (w : World) :
  counters_bounded w ->
  counters_bounded (fold_left (_update_plan_progress clock) pids w).
Proof.
  revert w. induction pids as [|a rest IH]; intros w H; simpl; [exact H|].
  apply IH. now apply progress_step_bounded.
Qed.

Lemma mutation_keeps_bounds (w : World) (m : mutation) :
  counters_bounded w -> counters_bounded (apply_mutation clock w m).
Proof.
  intros H. destruct m as [plan|ids status notes|pid new_tasks|pid title d|pid];
    simpl.
  - rewrite create_plan_world. unfold counters_bounded. simpl.
    apply Forall_app. split; [exact H|]. constructor; [|constructor].
    simpl. lia.
  - destruct (filter (targeted ids) (tasks w)) eqn:E.
    + now rewrite update_task_status_unmatched by exact E.
    + rewrite update_task_status_matched by (rewrite E; discriminate).
      simpl. now apply progress_fold_bounded.
  - unfold add_tasks_to_plan. simpl. apply progress_step_bounded.
    now rewrite add_tasks_rows.
  - unfold update_plan_info. destruct (first_plan w pid); [|exact H].
    simpl. unfold counters_bounded. simpl.
    apply Forall_update_first; [|exact H]. intros p _ Hp. exact Hp.
  - unfold delete_plan. destruct (first_plan w pid); [|exact H].
    simpl. unfold counters_bounded. simpl. now apply Forall_delete_first.
Qed.

(** The whole invariant, mutation by mutation. *)

Lemma add_tasks_to_plan_ok (w : World) (pid : Z) (new_tasks : list Task.t) :
  store_ok w -> In pid (plan_ids w) ->
  store_ok (snd (add_tasks_to_plan clock w pid new_tasks)).
Proof.
  intros (Hk & Hfk & Hb & Hx) Hin.
  unfold add_tasks_to_plan. simpl snd. rewrite add_tasks_rows.
  set (rows := rows_from clock _ _ _ pid new_tasks).
  set (w1 := mkWorld (plans w) (tasks w ++ rows) _).
  assert (Hk1 : plan_key_ok w1) by exact Hk.
  pose proof (progress_step_plans clock w1 pid Hk1) as Hp.
  pose proof (progress_step_tasks clock w1 pid) as Ht.
  pose proof (progress_step_key clock w1 pid Hk1) as Hi.
  set (w' := _update_plan_progress clock w1 pid) in *.
  unfold store_ok, plan_key_ok, foreign_key_ok, counters_bounded, totals_exact.
  rewrite Hi, Ht, Hp.
  split; [exact Hk|]. split; [|split].
  - simpl. apply Forall_app. split; [exact Hfk|].
    eapply Forall_impl; [|apply rows_from_owned].
    intros r Hr. now rewrite Hr.
  - apply Forall_map. eapply Forall_impl; [|exact Hb].
    intros p Hp'. unfold recompute.
    destruct (PlanModel.id p =? pid); [|exact Hp'].
    simpl. apply completed_le_total.
  - apply Forall_map. unfold totals_exact in Hx.
    eapply Forall_impl; [|exact Hx].
    intros p Hp'. rewrite recompute_id. unfold recompute.
    destruct (Z.eqb_spec (PlanModel.id p) pid) as [E|E].
    + simpl. rewrite E.
      now destruct (progress_same_tasks w1 w' pid Ht) as [-> _].
    + rewrite Hp'. symmetry. apply progress_total_owned.
      rewrite Ht. simpl. rewrite filter_app. unfold rows.
      rewrite rows_from_not_owned by exact E. apply app_nil_r.
Qed.

Lemma update_plan_info_ok (w : World) (pid : Z) (title description : option string) :
  store_ok w -> store_ok (snd (update_plan_info clock w pid title description)).
Proof.
  intros (Hk & Hfk & Hb & Hx).
  unfold update_plan_info. destruct (first_plan w pid); [|repeat split; auto].
  simpl.
  assert (Hids : map PlanModel.id
                   (update_first (plan_has_id pid)
                      (set_info title description (clock (ticks w))) (plans w))
                 = plan_ids w).
  { apply map_update_first. reflexivity. }
  unfold store_ok, plan_key_ok, foreign_key_ok, counters_bounded, totals_exact,
    plan_ids. simpl. rewrite Hids.
  split; [exact Hk|]. split; [exact Hfk|]. split.
  - apply Forall_update_first; [|exact Hb]. intros p _ Hp. exact Hp.
  - apply Forall_update_first; [|exact Hx]. intros p _ Hp. exact Hp.
Qed.

Lemma delete_plan_ok (w : World) (pid : Z) :
  store_ok w -> store_ok (snd (delete_plan w pid)).
Proof.
  intros (Hk & Hfk & Hb & Hx).
  unfold delete_plan. destruct (first_plan w pid) as [p|] eqn:E;
    [|repeat split; auto].
  destruct (find_split _ _ _ E) as (before & after & Hl & Hp & Hbefore).
  unfold plan_has_id in Hp. apply Z.eqb_eq in Hp.
  simpl snd.
  unfold store_ok, plan_key_ok, foreign_key_ok, counters_bounded, totals_exact,
    plan_ids in *.
  simpl plans. simpl tasks.
  rewrite Hl in *. rewrite delete_first_app by (auto; unfold plan_has_id;
                                                now apply Z.eqb_eq).
  rewrite map_app in Hk. simpl map in Hk. rewrite Hp in Hk.
  pose proof (NoDup_remove_1 _ _ _ Hk) as Hk'.
  pose proof (NoDup_remove_2 _ _ _ Hk) as Hfresh.
  rewrite <- map_app in Hk', Hfresh.
  split; [exact Hk'|]. split; [|split].
  - apply Forall_forall. intros t Ht. apply filter_In in Ht.
    destruct Ht as [Ht Hne]. rewrite Forall_forall in Hfk.
    specialize (Hfk t Ht). rewrite map_app in Hfk |- *. simpl map in Hfk.
    unfold owned_by in Hne. apply negb_true_iff, Z.eqb_neq in Hne.
    apply in_app_or in Hfk. apply in_or_app.
    destruct Hfk as [H|[H|H]]; [now left | congruence | now right].
  - apply Forall_app in Hb. destruct Hb as [Hb1 Hb2].
    apply Forall_app. split; [exact Hb1 | now inversion Hb2].
  - apply Forall_app in Hx. destruct Hx as [Hx1 Hx2].
    assert (Hx3 : Forall (fun q => PlanModel.total_tasks q
                                   = progress_total w (PlanModel.id q))
                    (before ++ after)).
    { apply Forall_app. split; [exact Hx1 | now inversion Hx2]. }
    apply Forall_forall. intros q Hq. rewrite Forall_forall in Hx3.
    rewrite (Hx3 q Hq). symmetry. apply progress_total_owned. simpl tasks.
    rewrite <- filter_andb. apply filter_ext. intros t. unfold owned_by.
    destruct (Z.eqb_spec (TaskModel.plan_id t) (PlanModel.id q)) as [Eq|Eq];
      [|now rewrite andb_false_r].
    rewrite andb_true_r. apply negb_true_iff, Z.eqb_neq.
    rewrite Eq. intros Eqp. apply Hfresh. rewrite <- Eqp. now apply in_map.
Qed.

Lemma mutation_keeps_store_ok (w : World) (m : mutation) :
  store_ok w -> admissible w m -> store_ok (apply_mutation clock w m).
Proof.
  intros H Hadm. destruct m; simpl in *.
  - now apply create_plan_ok.
  - now apply update_task_status_ok.
  - now apply add_tasks_to_plan_ok.
  - now apply update_plan_info_ok.
  - now apply delete_plan_ok.
Qed.

End InvariantSteps.

Lemma empty_world_ok : store_ok empty_world.
Proof. repeat split; constructor. Qed.

(** C1, as the code has it.  After every mutation the counters of every
    plan lie in range, [0 <= completed_tasks <= total_tasks], whatever the
    store held before.  [total_tasks] equals the number of the plan's task
    rows that are not deleted (and keys stay unique, task rows keep naming
    stored plans) along every history in which plans are created from tasks
    that are not deleted and tasks are added to stored plans. *)
Theorem store_counters_invariant (clock : nat -> Z) (w : World)
  (ms : list mutation) :
  (counters_bounded w -> counters_bounded (run clock w ms))
  /\ (store_ok w -> admissible_run clock w ms -> store_ok (run clock w ms)).
Proof.
  split.
  - revert w. induction ms as [|m rest IH]; intros w H; simpl; [exact H|].
    apply IH. now apply mutation_keeps_bounds.
  - revert w. induction ms as [|m rest IH]; intros w H Hadm; simpl; [exact H|].
    destruct Hadm as [Hm Hrest].
    apply IH; [|exact Hrest]. now apply mutation_keeps_store_ok.
Qed.

Lemma store_counters_invariant_witness :
  admissible_run demo_clock empty_world sample_history
  /\ store_ok (run demo_clock empty_world sample_history)
  /\ counters_bounded (run demo_clock empty_world sample_history).
Proof.
  assert (Hadm : admissible_run demo_clock empty_world sample_history).
  { simpl. repeat split.
    - repeat constructor; discriminate.
    - vm_compute. now left.
    - repeat constructor; discriminate. }
  split; [exact Hadm|]. split.
  - apply (proj2 (store_counters_invariant demo_clock empty_world sample_history));
      [exact empty_world_ok | exact Hadm].
  - apply (proj1 (store_counters_invariant demo_clock empty_world sample_history)).
    constructor.
Defined.

(** C1 as stated fails: [create_plan] counts a task that is already deleted
    into [total_tasks], the recount does not. *)
Lemma create_plan_counts_deleted_input :
  let w := snd (create_plan demo_clock empty_world plan_with_deleted_task) in
  map PlanModel.total_tasks (plans w) = [1]
  /\ map (fun p => progress_total w (PlanModel.id p)) (plans w) = [0]
  /\ ~ totals_exact w.
Proof.
  cbv zeta. split; [reflexivity|]. split; [reflexivity|].
  intros H. inversion H as [|p l Hp _ E]; subst.
  vm_compute in Hp. discriminate.
Qed.

(** ** completed_at *)

Lemma progress_fold_ticks (clock : nat -> Z) (pids : list Z) (w : World) :
  (ticks w <= ticks (fold_left (_update_plan_progress clock) pids w))%nat.
Proof.
  revert w. induction pids as [|a rest IH]; intros w; simpl; [lia|].
  specialize (IH (_update_plan_progress clock w a)).
  rewrite progress_step_ticks in IH.
  destruct (mem_Z a (plan_ids w)); lia.
Qed.

Lemma update_task_status_ticks (clock : nat -> Z) (w : World)
  (task_ids : list Z) (status : TaskStatus) (notes : option string) :
  (ticks w < ticks (snd (update_task_status clock w task_ids status notes)))%nat.
Proof.
  destruct (filter (targeted task_ids) (tasks w)) eqn:E.
  - rewrite update_task_status_unmatched by exact E. simpl. lia.
  - rewrite update_task_status_matched by (rewrite E; discriminate).
    simpl snd.
    match goal with
    | |- context [fold_left _ ?pids ?w2] =>
        pose proof (progress_fold_ticks clock pids w2) as H;
        change (ticks w2) with (S (ticks w)) in H
    end.
    lia.
Qed.

(** C3, as the code has it.  Every completed update writes the time of its
    own call into [completed_at] of the rows it matches, so of two such
    updates in a row the second replaces the time the first wrote by a later
    reading of the clock; an update to any other status leaves
    [completed_at] as it was. *)
Theorem completed_at_follows_last_completion
  (clock : nat -> Z) (w : World) (task_ids : list Z) (notes : option string) :
  let w1 := snd (update_task_status clock w task_ids COMPLETED notes) in
  let w2 := snd (update_task_status clock w1 task_ids COMPLETED notes) in
  (ticks w < ticks w1)%nat
  /\ Forall2
       (fun t1 t2 =>
          same_task_identity t1 t2
          /\ (In (TaskModel.id t1) task_ids ->
              TaskModel.completed_at t1 = Some (clock (ticks w))
              /\ TaskModel.completed_at t2 = Some (clock (ticks w1)))
          /\ (~ In (TaskModel.id t1) task_ids -> t2 = t1))
       (tasks w1) (tasks w2)
  /\ (forall status,
         status <> COMPLETED ->
         Forall2 (fun t t' => TaskModel.completed_at t' = TaskModel.completed_at t)
           (tasks w)
           (tasks (snd (update_task_status clock w task_ids status notes)))).
Proof.
  intros w1 w2. split; [apply update_task_status_ticks|]. split.
  - pose proof (update_task_status_tasks clock w task_ids COMPLETED notes) as E1.
    pose proof (update_task_status_tasks clock w1 task_ids COMPLETED notes) as E2.
    fold w1 in E1. fold w2 in E2. rewrite E2. clear E2.
    apply Forall2_map_right. rewrite E1. intros t1 Hin.
    apply in_map_iff in Hin. destruct Hin as (t & Ht1 & Hin).
    assert (Hid : TaskModel.id t1 = TaskModel.id t).
    { rewrite <- Ht1. now destruct (targeted task_ids t). }
    assert (Htg : targeted task_ids t1 = targeted task_ids t).
    { unfold targeted. now rewrite Hid. }
    rewrite Htg.
    destruct (targeted task_ids t) eqn:F.
    + split; [apply set_task_status_identity|]. split.
      * intros _. rewrite <- Ht1. split; reflexivity.
      * intros Hn. exfalso. apply Hn. rewrite Hid. now apply mem_Z_In.
    + split; [repeat split|]. split; [|reflexivity].
      intros Hyes. rewrite Hid in Hyes. apply mem_Z_In in Hyes.
      unfold targeted in F. congruence.
  - intros status Hs. rewrite update_task_status_tasks.
    apply Forall2_map_right. intros t _.
    destruct (targeted task_ids t); [|reflexivity].
    destruct status; try reflexivity. congruence.
Qed.

Lemma completed_at_follows_last_completion_witness :
  tasks completed_once_world <> []
  /\ Forall2
       (fun t t' => TaskModel.completed_at t' = TaskModel.completed_at t)
       (tasks completed_once_world)
       (tasks (snd (update_task_status demo_clock completed_once_world [1]
                      IN_PROGRESS None))).
Proof.
  split; [discriminate|].
  apply (proj2 (proj2 (completed_at_follows_last_completion demo_clock
                         completed_once_world [1] None)) IN_PROGRESS).
  discriminate.
Defined.

(** C3 as stated fails: the second completed update of task 1 moves its
    [completed_at] from the reading 1003 to the reading 1005. *)
Lemma completed_at_is_overwritten :
  option_map TaskModel.completed_at (first_task completed_once_world 1)
  = Some (Some 1003)
  /\ option_map TaskModel.status (first_task completed_once_world 1)
     = Some "completed"
  /\ option_map TaskModel.completed_at
       (first_task
          (snd (update_task_status demo_clock completed_once_world [1]
                  COMPLETED None)) 1)
     = Some (Some 1005)
  /\ ~ completed_at_set_once demo_clock.
Proof.
  split; [reflexivity|]. split; [reflexivity|]. split; [reflexivity|].
  intros H.
  destruct (first_task completed_once_world 1) as [t|] eqn:E1; [|discriminate].
  destruct (first_task
              (snd (update_task_status demo_clock completed_once_world [1]
                      COMPLETED None)) 1) as [t'|] eqn:E2; [|discriminate].
  specialize (H completed_once_world 1 t t' E1).
  vm_compute in E1. injection E1 as <-.
  vm_compute in E2. injection E2 as <-.
  specialize (H eq_refl eq_refl). discriminate.
Qed.

(** ** create_plan *)

Section CreateFacts.

Variable clock : nat -> Z.

Lemma create_tasks_length (pid : Z) (l : list Task.t) (i : Z) (w : World) :
  List.length (fst (create_tasks clock pid i l w)) = List.length l.
Proof.
  revert i w. induction l as [|task rest IH]; intros i w; simpl; [reflexivity|].
  unfold insert_task, now. simpl.
  match goal with
  | |- context [create_tasks ?c ?q ?j ?r ?w0] =>
      specialize (IH j w0); destruct (create_tasks c q j r w0) as [created w2]
  end.
  simpl in IH |- *. now rewrite IH.
Qed.

(** The [n]-th task that [create_plan] hands back. *)
Lemma create_tasks_nth (pid : Z) (l : list Task.t) (i : Z) (w : World)
  (n : nat) (task : Task.t) :
  nth_error l n = Some task ->
  nth_error (fst (create_tasks clock pid i l w)) n
  = Some (created_task task
            (TaskModel.mk
               (next_rowid (map TaskModel.id (tasks w)) + Z.of_nat n) pid
               (Task.title task) (Task.description task)
               (TaskStatus_value (Task.status task))
               (Priority_value (Task.priority task))
               (i + Z.of_nat n)
               (JsonRef.dumps_ints (Task.dependencies task))
               (clock (ticks w + n)) (clock (ticks w + n)) None)).
Proof.
  revert i w n. induction l as [|x rest IH]; intros i w n;
    destruct n as [|n]; simpl; try discriminate.
  - intros [= ->]. unfold insert_task, now. simpl.
    destruct (create_tasks clock pid (i + 1) rest _) as [created w2]. simpl.
    rewrite !Z.add_0_r, Nat.add_0_r. reflexivity.
  - intros H. unfold insert_task, now. simpl.
    match goal with
    | |- context [create_tasks ?c ?q ?j ?r ?w0] =>
        specialize (IH j w0 n H); destruct (create_tasks c q j r w0) as [created w2]
    end.
    cbn [fst tasks ticks] in IH. cbn [fst nth_error].
    rewrite IH. rewrite map_app. cbn [map TaskModel.id]. rewrite next_rowid_snoc.
    replace (next_rowid (map TaskModel.id (tasks w)) + 1 + Z.of_nat n)
      with (next_rowid (map TaskModel.id (tasks w)) + Z.of_nat (S n)) by lia.
    replace (i + 1 + Z.of_nat n) with (i + Z.of_nat (S n)) by lia.
    replace (S (ticks w) + n)%nat with (ticks w + S n)%nat by lia.
    reflexivity.
Qed.

Lemma create_plan_returns (w : World) (plan : Plan.t) :
  fst (create_plan clock w plan)
  = Plan.mk (Some (next_rowid (plan_ids w))) (Plan.title plan)
      (Plan.description plan) (Plan.category plan) (Plan.goal plan)
      (Plan.status plan) (Z.of_nat (List.length (Plan.tasks plan))) 0
      (Some (clock (ticks w))) (Some (clock (ticks w)))
      (fst (create_tasks clock (next_rowid (plan_ids w)) 0 (Plan.tasks plan)
              (mkWorld
                 (plans w ++
                  [PlanModel.mk (next_rowid (plan_ids w)) (Plan.title plan)
                     (Plan.description plan)
                     (PlanCategory_value (Plan.category plan)) (Plan.goal plan)
                     (TaskStatus_value (Plan.status plan))
                     (Z.of_nat (List.length (Plan.tasks plan))) 0
                     (clock (ticks w)) (clock (ticks w))])
                 (tasks w) (S (ticks w))))).
Proof.
  unfold create_plan, insert_plan, now. simpl.
  match goal with
  | |- context [create_tasks ?c ?q ?j ?r ?w0] =>
      destruct (create_tasks c q j r w0) as [created w2] eqn:E
  end.
  unfold plan_ids. simpl. rewrite E. reflexivity.
Qed.

End CreateFacts.

(** C2, as the code has it.  [create_plan] writes one plan row under a
    fresh key and one task row per input task, in input order, after the
    rows already stored: the [n]-th row carries [order_index = n], the plan's
    key, a fresh key of its own, the task's columns and the clock's reading
    as both times.  The plan row holds [total_tasks] = the number of input
    tasks and [completed_tasks = 0], whatever the statuses of the input
    tasks.  The plan handed back carries the keys and times of the rows.
    There is no validation step and no failure: every plan value is written
    in full. *)
Theorem create_plan_persists (clock : nat -> Z) (w : World) (plan : Plan.t) :
  let pid := next_rowid (plan_ids w) in
  let result := create_plan clock w plan in
  let stored := fst result in
  let w' := snd result in
  ~ In pid (plan_ids w)
  /\ (exists row rows,
        plans w' = (plans w ++ [row])%list
        /\ tasks w' = (tasks w ++ rows)%list
        /\ row = PlanModel.mk pid (Plan.title plan) (Plan.description plan)
                   (PlanCategory_value (Plan.category plan)) (Plan.goal plan)
                   (TaskStatus_value (Plan.status plan))
                   (Z.of_nat (List.length (Plan.tasks plan))) 0
                   (clock (ticks w)) (clock (ticks w))
        /\ List.length rows = List.length (Plan.tasks plan)
        /\ forall n task,
             nth_error (Plan.tasks plan) n = Some task ->
             exists r t',
               nth_error rows n = Some r
               /\ nth_error (Plan.tasks stored) n = Some t'
               /\ TaskModel.order_index r = Z.of_nat n
               /\ TaskModel.plan_id r = pid
               /\ TaskModel.id r
                  = next_rowid (map TaskModel.id (tasks w)) + Z.of_nat n
               /\ TaskModel.title r = Task.title task
               /\ TaskModel.description r = Task.description task
               /\ TaskModel.status r = TaskStatus_value (Task.status task)
               /\ TaskModel.priority r = Priority_value (Task.priority task)
               /\ TaskModel.dependencies r
                  = JsonRef.dumps_ints (Task.dependencies task)
               /\ TaskModel.created_at r = clock (S (ticks w) + n)%nat
               /\ TaskModel.updated_at r = clock (S (ticks w) + n)%nat
               /\ TaskModel.completed_at r = None
               /\ Task.id t' = Some (TaskModel.id r)
               /\ Task.plan_id t' = pid
               /\ Task.created_at t' = Some (TaskModel.created_at r)
               /\ Task.updated_at t' = Some (TaskModel.updated_at r)
               /\ Task.title t' = Task.title task
               /\ Task.status t' = Task.status task
               /\ Task.priority t' = Task.priority task
               /\ Task.dependencies t' = Task.dependencies task)
  /\ Plan.id stored = Some pid
  /\ Plan.total_tasks stored = Z.of_nat (List.length (Plan.tasks plan))
  /\ Plan.completed_tasks stored = 0
  /\ Plan.created_at stored = Some (clock (ticks w))
  /\ Plan.updated_at stored = Some (clock (ticks w))
  /\ Plan.title stored = Plan.title plan
  /\ List.length (Plan.tasks stored) = List.length (Plan.tasks plan).
Proof.
  intros pid result stored w'.
  split; [apply next_rowid_fresh|].
  split.
  - eexists. eexists.
    unfold w', result. rewrite create_plan_world. simpl plans. simpl tasks.
    split; [reflexivity|]. split; [reflexivity|]. split; [reflexivity|].
    split; [apply rows_from_length|].
    intros n task Hn.
    eexists. eexists.
    split; [apply rows_from_nth; exact Hn|].
    split.
    { unfold stored, result. rewrite create_plan_returns. simpl Plan.tasks.
      apply create_tasks_nth. exact Hn. }
    simpl. repeat split.
  - unfold stored, result. rewrite create_plan_returns. simpl.
    repeat split. apply create_tasks_length.
Qed.

(** C2 as stated fails on [completed_tasks]: the plan of the filtering test
    has one input task that is already completed, and is stored with
    [completed_tasks = 0]. *)
Lemma create_plan_ignores_completed_input :
  let result := create_plan demo_clock empty_world completed_plan in
  Z.of_nat (List.length
              (filter (fun t => TaskStatus_eqb (Task.status t) COMPLETED)
                 (Plan.tasks completed_plan))) = 1
  /\ map PlanModel.completed_tasks (plans (snd result)) = [0]
  /\ Plan.completed_tasks (fst result) = 0
  /\ Plan.completed_tasks (fst result)
     <> Z.of_nat (List.length
                    (filter (fun t => TaskStatus_eqb (Task.status t) COMPLETED)
                       (Plan.tasks completed_plan))).
Proof.
  cbv zeta. split; [reflexivity|]. split; [reflexivity|]. split; [reflexivity|].
  vm_compute. discriminate.
Qed.

(** ** ORDER BY *)

Section OrderFacts.

Context {A : Type}.
Variable leb : A -> A -> bool.

Lemma insert_by_perm (x : A) (l : list A) :
  Permutation (insert_by leb x l) (x :: l).
Proof.
  induction l as [|y l IH]; simpl; [reflexivity|].
  destruct (leb x y); [reflexivity|].
  rewrite IH. apply perm_swap.
Qed.

Lemma order_by_perm (l : list A) : Permutation (order_by leb l) l.
Proof.
  induction l as [|x l IH]; simpl; [reflexivity|].
  rewrite insert_by_perm. now rewrite IH.
Qed.

Lemma order_by_length (l : list A) :
  List.length (order_by leb l) = List.length l.
Proof. apply Permutation_length, order_by_perm. Qed.

Lemma order_by_In (x : A) (l : list A) : In x (order_by leb l) <-> In x l.
Proof.
  split; apply Permutation_in; [|symmetry]; apply order_by_perm.
Qed.

(** A list already in order is returned as it is. *)
Lemma order_by_sorted_id (l : list A) :
  Sorted (fun a b => leb a b = true) l -> order_by leb l = l.
Proof.
  induction 1 as [|x l Hs IH Hd]; simpl; [reflexivity|].
  rewrite IH. destruct Hd as [|y l Hxy]; simpl; [reflexivity|].
  now rewrite Hxy.
Qed.

Hypothesis leb_total : forall a b, leb a b = false -> leb b a = true.
Hypothesis leb_trans :
  forall a b c, leb a b = true -> leb b c = true -> leb a c = true.

Lemma insert_by_sorted (x : A) (l : list A) :
  StronglySorted (fun a b => leb a b = true) l ->
  StronglySorted (fun a b => leb a b = true) (insert_by leb x l).
Proof.
  induction 1 as [|y l Hs IH Hy]; simpl.
  - constructor; constructor.
  - destruct (leb x y) eqn:E.
    + constructor; [now constructor|].
      constructor; [exact E|].
      eapply Forall_impl; [|exact Hy]. intros z Hz. now apply leb_trans with y.
    + constructor; [exact IH|].
      apply Forall_forall. intros z Hz.
      apply (Permutation_in _ (insert_by_perm x l)) in Hz.
      destruct Hz as [<- | Hz]; [now apply leb_total|].
      rewrite Forall_forall in Hy. now apply Hy.
Qed.

Lemma order_by_sorted (l : list A) :
  StronglySorted (fun a b => leb a b = true) (order_by leb l).
Proof.
  induction l as [|x l IH]; simpl; [constructor|].
  now apply insert_by_sorted.
Qed.

End OrderFacts.

Lemma StronglySorted_weaken {A : Type} (R R' : A -> A -> Prop) (l : list A) :
  (forall a b, R a b -> R' a b) -> StronglySorted R l -> StronglySorted R' l.
Proof.
  intros H. induction 1 as [|x l Hs IH Hx]; constructor; [exact IH|].
  eapply Forall_impl; [|exact Hx]. intros y. apply H.
Qed.

Lemma StronglySorted_skipn {A : Type} (R : A -> A -> Prop) (n : nat)
  (l : list A) :
  StronglySorted R l -> StronglySorted R (skipn n l).
Proof.
  revert l. induction n as [|n IH]; intros l H; simpl; [exact H|].
  destruct l as [|x l]; [constructor|]. apply IH. now inversion H.
Qed.

Lemma StronglySorted_firstn {A : Type} (R : A -> A -> Prop) (n : nat)
  (l : list A) :
  StronglySorted R l -> StronglySorted R (firstn n l).
Proof.
  revert l. induction n as [|n IH]; intros l H; simpl; [constructor|].
  destruct l as [|x l]; [constructor|]. inversion H; subst.
  constructor; [now apply IH|].
  apply Forall_forall. intros y Hy. rewrite Forall_forall in H3.
  apply H3. revert Hy. clear. revert l.
  induction n as [|n IH]; intros l; simpl; [tauto|].
  destruct l as [|z l]; simpl; [tauto|]. intros [-> | H]; auto.
Qed.

Lemma In_firstn {A : Type} (n : nat) (l : list A) (x : A) :
  In x (firstn n l) -> In x l.
Proof.
  revert l. induction n as [|n IH]; intros l; simpl; [tauto|].
  destruct l as [|z l]; simpl; [tauto|]. intros [-> | H]; auto.
Qed.

Lemma In_skipn {A : Type} (n : nat) (l : list A) (x : A) :
  In x (skipn n l) -> In x l.
Proof.
  revert l. induction n as [|n IH]; intros l; simpl; [tauto|].
  destruct l as [|z l]; simpl; [tauto|]. intros H. right. now apply IH.
Qed.

Lemma map_outcome_returns {A B : Type} (f : A -> outcome B) (l : list A) :
  Forall (fun x => exists y, f x = Returned y) l ->
  exists ys, map_outcome f l = Returned ys /\ List.length ys = List.length l.
Proof.
  induction 1 as [|x l [y Hy] _ (ys & E & Hlen)]; simpl.
  - now exists [].
  - rewrite Hy, E. simpl. exists (y :: ys). simpl. now rewrite Hlen.
Qed.

(** ** get_all_plans *)

Lemma select_plans_eq (w : World) (include_completed : bool)
  (page page_size : Z) :
  select_plans w include_completed page page_size
  = offset_limit ((page - 1) * page_size) page_size
      (order_by by_updated_at_desc (visible_plans w include_completed)).
Proof.
  unfold select_plans, visible_plans. now destruct include_completed.
Qed.

Lemma select_plans_length (w : World) (include_completed : bool)
  (page page_size : Z) :
  1 <= page -> 0 <= page_size ->
  List.length (select_plans w include_completed page page_size)
  = Nat.min (Z.to_nat page_size)
      (List.length (visible_plans w include_completed)
       - Z.to_nat ((page - 1) * page_size)).
Proof.
  intros Hp Hs. rewrite select_plans_eq. unfold offset_limit.
  destruct (Z.ltb_spec page_size 0) as [H|_]; [lia|].
  now rewrite length_firstn, length_skipn, order_by_length.
Qed.

Lemma select_plans_in (w : World) (include_completed : bool)
  (page page_size : Z) (p : PlanModel.t) :
  In p (select_plans w include_completed page page_size) ->
  In p (visible_plans w include_completed).
Proof.
  rewrite select_plans_eq. unfold offset_limit. intros H.
  apply (order_by_In by_updated_at_desc).
  destruct (page_size <? 0).
  - now apply In_skipn in H.
  - apply In_firstn in H. now apply In_skipn in H.
Qed.

Lemma get_all_plans_returns (w : World) (include_completed : bool)
  (page page_size : Z) :
  Forall row_readable (plans w) ->
  exists ps,
    get_all_plans w include_completed page page_size = Returned ps
    /\ List.length ps
       = List.length (select_plans w include_completed page page_size).
Proof.
  intros Hr. unfold get_all_plans. apply map_outcome_returns.
  apply Forall_forall. intros p Hp. apply select_plans_in in Hp.
  rewrite Forall_forall in Hr. apply Hr.
  unfold visible_plans in Hp. destruct include_completed; [exact Hp|].
  now apply filter_In in Hp.
Qed.

(** The rows a listing selects. *)
Lemma get_all_plans_rows (w : World) (include_completed : bool)
  (page page_size : Z) :
  let rows := select_plans w include_completed page page_size in
  let shown := visible_plans w include_completed in
  (forall p, In p rows -> In p (plans w))
  /\ (include_completed = false ->
      Forall (fun p => PlanModel.total_tasks p = 0
                       \/ PlanModel.completed_tasks p < PlanModel.total_tasks p)
        rows)
  /\ StronglySorted
       (fun a b => PlanModel.updated_at b <= PlanModel.updated_at a) rows
  /\ (1 <= page -> 0 <= page_size ->
      List.length rows
      = Nat.min (Z.to_nat page_size)
          (List.length shown - Z.to_nat ((page - 1) * page_size)))
  /\ (Forall row_readable (plans w) ->
      List.length shown = 35%nat ->
      (exists page1 page2,
          get_all_plans w include_completed 1 30 = Returned page1
          /\ List.length page1 = 30%nat
          /\ get_all_plans w include_completed 2 30 = Returned page2
          /\ List.length page2 = 5%nat)
      /\ forall later, 3 <= later ->
           get_all_plans w include_completed later 30 = Returned []).
Proof.
  intros rows shown.
  assert (Hvis : forall p, In p shown -> In p (plans w)).
  { unfold shown, visible_plans. destruct include_completed; [auto|].
    intros p Hp. now apply filter_In in Hp. }
  split; [intros p Hp; apply Hvis; now apply select_plans_in in Hp|].
  split.
  { intros ->. apply Forall_forall. intros p Hp.
    apply select_plans_in in Hp. unfold visible_plans in Hp.
    apply filter_In in Hp. destruct Hp as [_ Ha]. unfold is_active in Ha.
    apply orb_true_iff in Ha. destruct Ha as [Ha|Ha].
    - left. now apply Z.eqb_eq.
    - right. now apply Z.ltb_lt. }
  split.
  { unfold rows. rewrite select_plans_eq. unfold offset_limit.
    assert (Hs : StronglySorted
                   (fun a b => PlanModel.updated_at b <= PlanModel.updated_at a)
                   (order_by by_updated_at_desc shown)).
    { apply StronglySorted_weaken
        with (R := fun a b => by_updated_at_desc a b = true).
      - intros a b H. unfold by_updated_at_desc in H. apply Z.leb_le in H.
        exact H.
      - apply (order_by_sorted by_updated_at_desc).
        + unfold by_updated_at_desc. intros a b H.
          apply Z.leb_gt in H. apply Z.leb_le. lia.
        + unfold by_updated_at_desc. intros a b c H1 H2.
          apply Z.leb_le in H1, H2. apply Z.leb_le. lia. }
    destruct (page_size <? 0).
    - now apply StronglySorted_skipn.
    - now apply StronglySorted_firstn, StronglySorted_skipn. }
  split; [apply select_plans_length|].
  intros Hr H35. split.
  - destruct (get_all_plans_returns w include_completed 1 30 Hr)
      as (page1 & E1 & L1).
    destruct (get_all_plans_returns w include_completed 2 30 Hr)
      as (page2 & E2 & L2).
    exists page1, page2.
    rewrite select_plans_length in L1, L2 by lia.
    fold shown in L1, L2. rewrite H35 in L1, L2.
    repeat split; auto.
  - intros later Hl.
    destruct (get_all_plans_returns w include_completed later 30 Hr)
      as (ps & E & L).
    rewrite select_plans_length in L by lia.
    fold shown in L. rewrite H35 in L.
    assert (Hz : (35 - Z.to_nat ((later - 1) * 30) = 0)%nat) by lia.
    rewrite Hz in L. simpl in L.
    destruct ps; [exact E | discriminate].
Qed.

Lemma lookup_by_value_value {E : Type} (value_of : E -> string)
  (members : list E) (v : string) (m : E) :
  lookup_by_value value_of members v = Some m -> value_of m = v.
Proof.
  unfold lookup_by_value. intros H. apply find_some in H.
  now apply String.eqb_eq.
Qed.

Lemma Forall2_Forall {A B : Type} (R : A -> B -> Prop) (P : A -> Prop)
  (Q : B -> Prop) (l : list A) (l' : list B) :
  (forall x y, R x y -> P x -> Q y) ->
  Forall2 R l l' -> Forall P l -> Forall Q l'.
Proof.
  intros H F. induction F as [|x y l l' Hxy _ IH]; intros HP; constructor.
  - apply (H x y Hxy). now inversion HP.
  - apply IH. now inversion HP.
Qed.

Lemma Forall2_StronglySorted {A B : Type} (R : A -> B -> Prop)
  (before : A -> A -> Prop) (before' : B -> B -> Prop) (l : list A)
  (l' : list B) :
  (forall x y x' y', R x x' -> R y y' -> before x y -> before' x' y') ->
  Forall2 R l l' -> StronglySorted before l -> StronglySorted before' l'.
Proof.
  intros H F. induction F as [|x x' l l' Hx Hrest IH]; intros HS;
    constructor.
  - apply IH. now inversion HS.
  - inversion HS as [|? ? _ Hall]; subst.
    eapply Forall2_Forall; [|exact Hrest|exact Hall].
    intros y y' Hy Hxy. exact (H x y x' y' Hx Hy Hxy).
Qed.

Lemma map_outcome_pairs {A B : Type} (f : A -> outcome B) (l : list A)
  (ys : list B) :
  map_outcome f l = Returned ys -> Forall2 (fun x y => f x = Returned y) l ys.
Proof.
  revert ys. induction l as [|x rest IH]; intros ys; cbn [map_outcome].
  - intros [= <-]. constructor.
  - destruct (f x) as [y|e] eqn:Hx; [|discriminate]. cbn [bind_outcome].
    destruct (map_outcome f rest) as [ys'|e]; [|discriminate].
    cbn [bind_outcome]. intros [= <-]. constructor; [exact Hx|now apply IH].
Qed.

Lemma plan_of_row_fields (row : PlanModel.t) (ts : list Task.t) (p : Plan.t) :
  plan_of_row row ts = Returned p ->
  Plan.id p = Some (PlanModel.id row)
  /\ Plan.title p = PlanModel.title row
  /\ Plan.description p = PlanModel.description row
  /\ PlanCategory_value (Plan.category p) = PlanModel.category row
  /\ Plan.goal p = PlanModel.goal row
  /\ TaskStatus_value (Plan.status p) = PlanModel.status row
  /\ Plan.total_tasks p = PlanModel.total_tasks row
  /\ Plan.completed_tasks p = PlanModel.completed_tasks row
  /\ Plan.created_at p = Some (PlanModel.created_at row)
  /\ Plan.updated_at p = Some (PlanModel.updated_at row)
  /\ Plan.tasks p = ts.
Proof.
  unfold plan_of_row.
  destruct (PlanCategory_of_value (PlanModel.category row)) as [c|] eqn:Hc;
    [|discriminate].
  destruct (TaskStatus_of_value (PlanModel.status row)) as [st|] eqn:Hs;
    [|discriminate].
  cbn [of_option bind_outcome]. unfold Plan_new.
  destruct (_ && _ && _); [|discriminate]. intros [= <-].
  cbn [Plan.id Plan.title Plan.description Plan.category Plan.goal Plan.status
       Plan.total_tasks Plan.completed_tasks Plan.created_at Plan.updated_at
       Plan.tasks].
  repeat split.
  - exact (lookup_by_value_value _ _ _ _ Hc).
  - exact (lookup_by_value_value _ _ _ _ Hs).
Qed.


Lemma readable_rows (l : list PlanModel.t) :
  forallb (fun p => match plan_of_row p [] with
                    | Returned _ => true
                    | Raised _ => false
                    end) l = true ->
  Forall row_readable l.
Proof.
  intros H. apply Forall_forall. intros p Hp.
  rewrite forallb_forall in H. specialize (H p Hp).
  unfold row_readable. destruct (plan_of_row p []) as [q|e]; [|discriminate].
  now exists q.
Qed.


(** ** create_plan, then get_plan *)

Lemma TaskStatus_of_value_value (s : TaskStatus) :
  TaskStatus_of_value (TaskStatus_value s) = Some s.
Proof. now destruct s. Qed.

Lemma Priority_of_value_value (p : Priority) :
  Priority_of_value (Priority_value p) = Some p.
Proof. now destruct p. Qed.

Lemma PlanCategory_of_value_value (c : PlanCategory) :
  PlanCategory_of_value (PlanCategory_value c) = Some c.
Proof. now destruct c. Qed.

Lemma find_snoc_fresh {A : Type} (p : A -> bool) (l : list A) (x : A) :
  Forall (fun y => p y = false) l -> p x = true ->
  List.find p (l ++ [x]) = Some x.
Proof.
  intros H Hx. induction H as [|y l Hy _ IH]; simpl.
  - now rewrite Hx.
  - now rewrite Hy.
Qed.

Section RoundTripFacts.

Variable clock : nat -> Z.
Variable json_loads : string -> loads_result.

(** The reader inverts the writer on lists of integers. *)
Hypothesis reader_inverts_writer :
  forall l, json_loads (JsonRef.dumps_ints l) = Loaded (JArr (map JInt l)).

Lemma decode_dumped (l : list Z) :
  decode_dependencies json_loads (JsonRef.dumps_ints l) = Returned l.
Proof.
  unfold decode_dependencies.
  replace (String.eqb (JsonRef.dumps_ints l) "") with false by reflexivity.
  rewrite reader_inverts_writer.
  induction l as [|x l IH]; simpl; [reflexivity|]. now rewrite IH.
Qed.

Lemma rows_from_sorted (first_id : Z) (first_tick : nat) (first_index pid : Z)
  (l : list Task.t) :
  Sorted (fun a b => by_order_index a b = true)
    (rows_from clock first_id first_tick first_index pid l).
Proof.
  revert first_id first_tick first_index.
  induction l as [|task rest IH]; intros; simpl; constructor.
  - apply IH.
  - destruct rest as [|task' rest]; simpl; constructor.
    unfold by_order_index. simpl. apply Z.leb_le. lia.
Qed.

(** Reading back the rows that a run of inserts appended. *)
Lemma read_rows_from (first_id : Z) (first_tick : nat) (first_index pid : Z)
  (l : list Task.t) :
  forallb Task_valid l = true ->
  exists ts,
    map_outcome (task_of_row json_loads)
      (rows_from clock first_id first_tick first_index pid l) = Returned ts
    /\ map Task.title ts = map Task.title l
    /\ map Task.description ts = map Task.description l
    /\ map Task.status ts = map Task.status l
    /\ map Task.priority ts = map Task.priority l
    /\ map Task.dependencies ts = map Task.dependencies l
    /\ map Task.order_index ts
       = map (fun n => first_index + Z.of_nat n) (seq 0 (List.length l))
    /\ Forall (fun t => Task.plan_id t = pid
                        /\ Task.id t <> None
                        /\ Task.created_at t <> None
                        /\ Task.updated_at t <> None) ts.
Proof.
  revert first_id first_tick first_index.
  induction l as [|task rest IH]; intros first_id first_tick first_index Hv.
  - exists []. simpl. repeat split; constructor.
  - simpl in Hv. apply andb_true_iff in Hv. destruct Hv as [Hv Hrest].
    destruct (IH (first_id + 1) (S first_tick) (first_index + 1) Hrest)
      as (ts & E & Ht & Hd & Hs & Hp & Hdep & Ho & Hpop).
    cbn [rows_from map_outcome]. unfold task_of_row at 1.
    cbn [TaskModel.status TaskModel.priority TaskModel.dependencies
         TaskModel.id TaskModel.plan_id TaskModel.title TaskModel.description
         TaskModel.order_index TaskModel.created_at TaskModel.updated_at
         TaskModel.completed_at].
    rewrite TaskStatus_of_value_value, Priority_of_value_value, decode_dumped.
    cbn [of_option bind_outcome]. unfold Task_new.
    replace (Task_valid _) with true by (symmetry; exact Hv).
    cbn [bind_outcome]. rewrite E. cbn [bind_outcome].
    eexists. split; [reflexivity|].
    cbn [map Task.title Task.description Task.status Task.priority
         Task.dependencies Task.order_index List.length seq].
    rewrite Ht, Hd, Hs, Hp, Hdep, Ho.
    repeat split.
    + f_equal; [lia|]. rewrite <- seq_shift, map_map.
      apply map_ext. intros n. lia.
    + constructor; [|exact Hpop]. simpl. repeat split; discriminate.
Qed.

End RoundTripFacts.


(** ** The reference reader inverts the writer on lists of integers *)

Module JsonRefFacts.

Import JsonRef.

Lemma append_assoc (a b c : string) : ((a ++ b) ++ c = a ++ (b ++ c))%string.
Proof. induction a as [|x a IH]; simpl; [reflexivity|]. now rewrite IH. Qed.

Lemma length_append (a b : string) :
  String.length (a ++ b) = (String.length a + String.length b)%nat.
Proof. induction a as [|x a IH]; simpl; [reflexivity|]. now rewrite IH. Qed.

Lemma closes_item_head (rest : string) :
  closes_item rest ->
  exists c r, rest = String c r
              /\ is_digit c = false /\ is_ws c = false
              /\ Ascii.eqb c "."%char = false
              /\ Ascii.eqb c "e"%char = false /\ Ascii.eqb c "E"%char = false.
Proof.
  intros [H|H]; destruct rest as [|c r]; simpl in H; try discriminate;
    apply Ascii.eqb_eq in H; subst c; eexists; exists r; repeat split.
Qed.

Lemma take_digits_uint (d : uint) (rest : string) :
  closes_item rest ->
  take_digits (NilEmpty.string_of_uint d ++ rest)
  = (NilEmpty.string_of_uint d, rest).
Proof.
  intros H. induction d; simpl; try (rewrite IHd; reflexivity).
  destruct (closes_item_head rest H) as (c & r & -> & Hd & _).
  simpl. now rewrite Hd.
Qed.

Lemma uint_string_head (d : uint) :
  d <> Nil ->
  exists c r, NilEmpty.string_of_uint d = String c r /\ is_digit c = true.
Proof.
  intros H. destruct d; [contradiction| | | | | | | | | |];
    simpl; eexists; eexists; split; reflexivity.
Qed.

Lemma uint_string_no_leading_zero (d : uint) :
  (forall d', d <> D0 d') \/ d = D0 Nil ->
  leading_zero (NilEmpty.string_of_uint d) = false.
Proof.
  intros [H| ->]; [|reflexivity].
  destruct d; simpl; try reflexivity.
  - exfalso. now apply (H d).
  - now destruct (NilEmpty.string_of_uint d).
  - now destruct (NilEmpty.string_of_uint d).
  - now destruct (NilEmpty.string_of_uint d).
  - now destruct (NilEmpty.string_of_uint d).
  - now destruct (NilEmpty.string_of_uint d).
  - now destruct (NilEmpty.string_of_uint d).
  - now destruct (NilEmpty.string_of_uint d).
  - now destruct (NilEmpty.string_of_uint d).
  - now destruct (NilEmpty.string_of_uint d).
Qed.

Lemma parse_unsigned_uint (neg : bool) (d : uint) (rest : string) :
  d <> Nil ->
  leading_zero (NilEmpty.string_of_uint d) = false ->
  closes_item rest ->
  parse_unsigned neg (NilEmpty.string_of_uint d ++ rest)
  = Some (JInt (if neg then - Z.of_uint d else Z.of_uint d), rest).
Proof.
  intros Hd Hz Hrest. unfold parse_unsigned.
  rewrite take_digits_uint by exact Hrest. rewrite Hz.
  assert (Hu : NilZero.uint_of_string (NilEmpty.string_of_uint d) = Some d).
  { unfold NilZero.uint_of_string.
    destruct (uint_string_head d Hd) as (c & r & E & _).
    rewrite E, <- E. apply NilEmpty.usu. }
  rewrite Hu.
  destruct (closes_item_head rest Hrest) as (c & r & -> & _ & _ & Hp & He & HE).
  unfold take_frac, take_exp. rewrite Hp, He, HE. reflexivity.
Qed.

(** The digits [Z.to_int] produces have no leading zero. *)
Lemma to_int_canonical (x : Z) :
  exists (neg : bool) (d : uint),
    Z.to_int x = (if neg then Neg d else Pos d)
    /\ d <> Nil
    /\ leading_zero (NilEmpty.string_of_uint d) = false
    /\ (if neg then - Z.of_uint d else Z.of_uint d) = x.
Proof.
  pose proof (DecimalZ.of_to x) as Hof.
  pose proof (DecimalZ.to_of (Z.to_int x)) as Hnorm.
  rewrite Hof in Hnorm.
  destruct (Z.to_int x) as [d|d] eqn:E.
  - exists false, d. split; [reflexivity|].
    simpl in Hnorm. injection Hnorm as Hu.
    split; [rewrite Hu; apply unorm_nonnil|].
    split; [|exact Hof].
    apply uint_string_no_leading_zero.
    destruct (uint_eq_dec (nzhead d) Nil) as [Hn|Hn].
    + right. unfold unorm in Hu. rewrite Hn in Hu. now rewrite Hu.
    + left. intros d' Hd'. rewrite unorm_nzhead in Hu by exact Hn.
      apply (nzhead_nonzero d d'). now rewrite <- Hu.
  - exists true, d. split; [reflexivity|].
    simpl in Hnorm.
    assert (Hn : nzhead d = d).
    { destruct (nzhead d); try discriminate; now injection Hnorm. }
    split.
    { intros ->. simpl in Hnorm. discriminate. }
    split; [|exact Hof].
    apply uint_string_no_leading_zero. left. intros d' Hd'.
    apply (nzhead_nonzero d d'). now rewrite Hn.
Qed.

Lemma str_of_Z_head (x : Z) :
  exists c r, PyStr.str_of_Z x = String c r /\ number_head c.
Proof.
  destruct (to_int_canonical x) as (neg & d & E & Hd & _ & _).
  unfold PyStr.str_of_Z. rewrite E. destruct neg; simpl.
  - eexists. eexists. split; [reflexivity|]. now right.
  - destruct (uint_string_head d Hd) as (c & r & Es & Hc).
    exists c, r. split; [|now left].
    unfold NilZero.string_of_uint. now destruct d.
Qed.

Lemma parse_number_str (x : Z) (rest : string) :
  closes_item rest ->
  parse_number (PyStr.str_of_Z x ++ rest) = Some (JInt x, rest).
Proof.
  intros Hrest.
  destruct (to_int_canonical x) as (neg & d & E & Hd & Hz & Hx).
  unfold PyStr.str_of_Z. rewrite E. destruct neg.
  - simpl. fold (NilZero.string_of_uint d).
    replace (NilZero.string_of_uint d) with (NilEmpty.string_of_uint d)
      by (now destruct d).
    rewrite parse_unsigned_uint by assumption. now rewrite Hx.
  - simpl NilZero.string_of_int.
    replace (NilZero.string_of_uint d) with (NilEmpty.string_of_uint d)
      by (now destruct d).
    pose proof (parse_unsigned_uint false d rest Hd Hz Hrest) as Hp.
    rewrite Hx in Hp. rewrite <- Hp.
    destruct (uint_string_head d Hd) as (c & r & Es & Hc).
    rewrite Es. simpl append. unfold parse_number.
    destruct (Ascii.eqb_spec c "-"%char) as [->|_]; [discriminate|reflexivity].
Qed.

Lemma number_head_plain (c : ascii) :
  number_head c ->
  is_ws c = false
  /\ Ascii.eqb c "["%char = false /\ Ascii.eqb c "]"%char = false
  /\ Ascii.eqb c "{"%char = false /\ Ascii.eqb c PyStr.dquote = false
  /\ Ascii.eqb "n"%char c = false /\ Ascii.eqb "t"%char c = false
  /\ Ascii.eqb "f"%char c = false.
Proof.
  intros [H| ->]; [|repeat split].
  repeat split;
    match goal with
    | |- is_ws c = false =>
        unfold is_ws;
        repeat match goal with
               | |- context [Ascii.eqb c ?k] =>
                   destruct (Ascii.eqb_spec c k); [subst c; discriminate|]
               end; reflexivity
    | |- Ascii.eqb c ?k = false =>
        destruct (Ascii.eqb_spec c k); [subst c; discriminate|reflexivity]
    | |- Ascii.eqb ?k c = false =>
        destruct (Ascii.eqb_spec k c); [subst c; discriminate|reflexivity]
    end.
Qed.

Lemma parse_value_number (fuel room : nat) (c : ascii) (r : string) :
  number_head c ->
  parse_value (S fuel) room (String c r) = of_scalar (parse_number (String c r)).
Proof.
  intros H.
  destruct (number_head_plain c H) as (_ & H1 & _ & H2 & H3 & H4 & H5 & H6).
  cbn [parse_value starts_with]. rewrite H1, H2, H3.
  unfold parse_word. cbn [after_word]. now rewrite H4, H5, H6.
Qed.

Lemma skip_ws_number (c : ascii) (r : string) :
  number_head c -> skip_ws (String c r) = String c r.
Proof.
  intros H. destruct (number_head_plain c H) as (Hw & _).
  simpl. now rewrite Hw.
Qed.

Lemma parse_value_str (fuel room : nat) (x : Z) (rest : string) :
  closes_item rest ->
  parse_value (S fuel) room (PyStr.str_of_Z x ++ rest) = Ok (JInt x) rest.
Proof.
  intros Hrest. destruct (str_of_Z_head x) as (c & r & E & Hc).
  rewrite E. cbn [append]. rewrite parse_value_number by exact Hc.
  change (String c (r ++ rest)) with (String c r ++ rest)%string.
  rewrite <- E. now rewrite parse_number_str.
Qed.

Lemma parse_items_eq (fuel room : nat) (s : string) :
  parse_items (S fuel) room s
  = match parse_value fuel room s with
    | Malformed => Malformed
    | TooDeep => TooDeep
    | Ok v r =>
        let r1 := skip_ws r in
        if starts_with ","%char r1 then
          match parse_items fuel room (skip_ws (tail r1)) with
          | Ok vs rest => Ok (v :: vs) rest
          | Malformed => Malformed
          | TooDeep => TooDeep
          end
        else if starts_with "]"%char r1 then Ok [v] (tail r1)
        else Malformed
    end.
Proof. reflexivity. Qed.

Lemma parse_items_last (fuel room : nat) (x : Z) (after : string) :
  parse_items (S (S fuel)) room (PyStr.str_of_Z x ++ "]" ++ after)
  = Ok [JInt x] after.
Proof.
  rewrite parse_items_eq, parse_value_str by (right; reflexivity).
  reflexivity.
Qed.

Lemma parse_items_next (fuel room : nat) (x : Z) (more : string) (c : ascii)
  (r : string) :
  more = String c r -> number_head c ->
  parse_items (S (S fuel)) room (PyStr.str_of_Z x ++ ", " ++ more)
  = match parse_items (S fuel) room more with
    | Ok vs rest => Ok (JInt x :: vs) rest
    | Malformed => Malformed
    | TooDeep => TooDeep
    end.
Proof.
  intros -> Hc.
  rewrite parse_items_eq, parse_value_str by (left; reflexivity).
  cbv zeta.
  assert (E1 : skip_ws (", " ++ String c r)
               = String ","%char (String " "%char (String c r))) by reflexivity.
  rewrite E1. cbn [starts_with tail].
  change (Ascii.eqb ","%char ","%char) with true. cbv iota.
  assert (E2 : skip_ws (String " "%char (String c r)) = skip_ws (String c r))
    by reflexivity.
  rewrite E2, skip_ws_number by exact Hc. reflexivity.
Qed.

Lemma written_items_head (x : Z) (l : list Z) (after : string) :
  exists c r,
    (String.concat ", " (map PyStr.str_of_Z (x :: l)) ++ after = String c r)%string
    /\ number_head c.
Proof.
  destruct (str_of_Z_head x) as (c & r & E & Hc).
  destruct l as [|y l]; cbn [map String.concat]; rewrite E; cbn [append];
    eexists; eexists; split; try reflexivity; exact Hc.
Qed.

(** The items of a written list, from the first item on. *)
Lemma parse_items_ints (l : list Z) (x : Z) (fuel room : nat) (after : string) :
  (List.length l + 2 <= fuel)%nat ->
  parse_items fuel room
    (String.concat ", " (map PyStr.str_of_Z (x :: l)) ++ "]" ++ after)
  = Ok (map JInt (x :: l)) after.
Proof.
  revert x fuel. induction l as [|y l IH]; intros x fuel Hf.
  - destruct fuel as [|[|fuel]]; [simpl in Hf; lia | simpl in Hf; lia|].
    cbn [map String.concat]. apply parse_items_last.
  - destruct fuel as [|[|fuel]]; [simpl in Hf; lia | simpl in Hf; lia|].
    change (String.concat ", " (map PyStr.str_of_Z (x :: y :: l)))
      with (PyStr.str_of_Z x ++ ", " ++
            String.concat ", " (map PyStr.str_of_Z (y :: l)))%string.
    rewrite !append_assoc.
    destruct (written_items_head y l ("]" ++ after)) as (c & r & E & Hc).
    rewrite (parse_items_next fuel room x _ c r E Hc).
    rewrite IH by (simpl in Hf |- *; lia). reflexivity.
Qed.

Lemma concat_length (items : list string) :
  Forall (fun s => (1 <= String.length s)%nat) items ->
  (List.length items <= String.length (String.concat ", " items))%nat.
Proof.
  induction 1 as [|s items Hs Hrest IH]; simpl; [lia|].
  destruct items as [|t items]; [simpl; lia|].
  rewrite !length_append. simpl in IH |- *. lia.
Qed.

Lemma parse_value_array (fuel room : nat) (r : string) :
  parse_value (S fuel) (S room) (String "["%char r)
  = let r1 := skip_ws r in
    if starts_with "]"%char r1 then Ok (JArr []) (tail r1)
    else
      match parse_items fuel room r1 with
      | Ok vs rest => Ok (JArr vs) rest
      | Malformed => Malformed
      | TooDeep => TooDeep
      end.
Proof. reflexivity. Qed.

(** One level of nesting is all a list of integers needs. *)
Lemma loads_within_dumps_ints (room : nat) (l : list Z) :
  loads_within (S room) (dumps_ints l) = Loaded (JArr (map JInt l)).
Proof.
  destruct l as [|x l]; [reflexivity|].
  unfold loads_within, dumps_ints.
  set (body := String.concat ", " (map PyStr.str_of_Z (x :: l))).
  assert (Hlen : (List.length (x :: l) <= String.length body)%nat).
  { unfold body. rewrite <- (length_map PyStr.str_of_Z).
    apply concat_length. apply Forall_forall. intros s Hs.
    apply in_map_iff in Hs. destruct Hs as (z & <- & _).
    destruct (str_of_Z_head z) as (c & r & E & _). rewrite E. simpl. lia. }
  assert (Es : ("[" ++ body ++ "]")%string = String "["%char (body ++ "]"))
    by reflexivity.
  rewrite Es.
  assert (Ew : skip_ws (String "["%char (body ++ "]"))
               = String "["%char (body ++ "]")) by reflexivity.
  rewrite Ew.
  assert (Hfuel : exists fuel,
             (2 * String.length (String "["%char (body ++ "]")) + 2 = S fuel
              /\ List.length l + 2 <= fuel)%nat).
  { exists (2 * String.length (String "["%char (body ++ "]")) + 1)%nat.
    cbn [String.length]. rewrite length_append. simpl in Hlen |- *. lia. }
  destruct Hfuel as (fuel & -> & Hf).
  rewrite parse_value_array. cbv zeta.
  destruct (written_items_head x l "]") as (c & rest & Hb & Hc).
  fold body in Hb.
  rewrite Hb, skip_ws_number by exact Hc.
  cbn [starts_with].
  destruct (number_head_plain c Hc) as (_ & _ & Hclose & _).
  rewrite Hclose. rewrite <- Hb.
  change (body ++ "]")%string with (body ++ "]" ++ "")%string.
  unfold body. rewrite parse_items_ints by exact Hf.
  reflexivity.
Qed.

Lemma loads_dumps_ints (l : list Z) :
  loads (dumps_ints l) = Loaded (JArr (map JInt l)).
Proof. exact (loads_within_dumps_ints 999 l). Qed.

End JsonRefFacts.



Lemma update_task_status_batch_witness :
  plan_key_ok sample_world
  /\ (fst (update_task_status demo_clock sample_world [42] COMPLETED None) = false
      /\ plans (snd (update_task_status demo_clock sample_world [42] COMPLETED None))
         = plans sample_world
      /\ tasks (snd (update_task_status demo_clock sample_world [42] COMPLETED None))
         = tasks sample_world)
  /\ fst (update_task_status demo_clock sample_world [1; 99] COMPLETED None) = true
  /\ Forall2
       (fun p p' =>
          PlanModel.total_tasks p = 2 /\ PlanModel.completed_tasks p = 0
          /\ PlanModel.total_tasks p' = 2 /\ PlanModel.completed_tasks p' = 1)
       (plans sample_world)
       (plans (snd (update_task_status demo_clock sample_world [1; 99]
                      COMPLETED None))).
Proof.
  assert (Hk : plan_key_ok sample_world).
  { unfold plan_key_ok. vm_compute. repeat constructor. intros []. }
  split; [exact Hk|]. split.
  - apply (proj1 (update_task_status_batch demo_clock sample_world [42]
                    COMPLETED None Hk)).
    intros t Ht Hm. vm_compute in Ht.
    destruct Ht as [<-|[<-|[]]]; simpl in Hm; destruct Hm as [Hm|[]];
      discriminate.
  - destruct (proj2 (update_task_status_batch demo_clock sample_world [1; 99]
                       COMPLETED None Hk)) as (Hr & _ & Hplans).
    { eexists. split; [left; reflexivity | left; reflexivity]. }
    split; [exact Hr|].
    eapply Forall2_weaken; [|exact Hplans].
    intros p p' Hp (_ & _ & Hin & _).
    assert (Ep : p = sample_row).
    { vm_compute in Hp. destruct Hp as [<- | []]. reflexivity. }
    subst p.
    destruct Hin as (Htotal & Hcompleted & _).
    { eexists. split; [left; reflexivity|]. split; [left; reflexivity|].
      reflexivity. }
    split; [reflexivity|]. split; [reflexivity|].
    split; [rewrite Htotal | rewrite Hcompleted]; vm_compute; reflexivity.
Defined.

Lemma create_plan_persists_witness :
  exists row rows,
    plans (snd (create_plan demo_clock empty_world sample_plan)) = [row]
    /\ tasks (snd (create_plan demo_clock empty_world sample_plan)) = rows
    /\ PlanModel.total_tasks row = 2
    /\ PlanModel.completed_tasks row = 0
    /\ map TaskModel.order_index rows = [0; 1].
Proof.
  destruct (proj1 (proj2 (create_plan_persists demo_clock empty_world sample_plan)))
    as (row & rows & Hp & Ht & Hrow & Hlen & Hn).
  exists row, rows. simpl app in Hp, Ht.
  split; [exact Hp|]. split; [exact Ht|].
  rewrite Hrow. split; [reflexivity|]. split; [reflexivity|].
  rewrite <- Ht. reflexivity.
Defined.

(** ** Agreement with the test suite ([tests/test_planer.py]) *)

(** [test_create_plan] and [test_get_plan] *)
Example test_create_plan :
  let created := fst (create_plan demo_clock empty_world sample_plan) in
  Plan.id created = Some 1
  /\ Plan.title created = Plan.title sample_plan
  /\ Plan.total_tasks created = 2
  /\ option_map (fun p => List.length (Plan.tasks p))
       (match get_plan JsonRef.loads sample_world 1 with
        | Returned o => o
        | Raised _ => None
        end) = Some 2%nat.
Proof. repeat split. Qed.

(** [test_update_task_status] *)
Example test_update_task_status :
  let r := update_task_status demo_clock sample_world [1] COMPLETED None in
  fst r = true
  /\ match get_plan JsonRef.loads (snd r) 1 with
     | Returned (Some p) =>
         Plan.completed_tasks p = 1
         /\ option_map Task.status (hd_error (Plan.tasks p)) = Some COMPLETED
     | _ => False
     end.
Proof. vm_compute. repeat split. Qed.

(** [test_completed_plan_filtering] *)
Example test_completed_plan_filtering :
  let w1 := snd (create_plan demo_clock empty_world completed_plan) in
  let w2 := snd (update_task_status demo_clock w1 [1] COMPLETED None) in
  option_map (@List.length Plan.t)
    (match get_all_plans w2 false 1 30 with
     | Returned l => Some l
     | Raised _ => None
     end) = Some 0%nat
  /\ option_map (@List.length Plan.t)
       (match get_all_plans w2 true 1 30 with
        | Returned l => Some l
        | Raised _ => None
        end) = Some 1%nat.
Proof. vm_compute. split; reflexivity. Qed.

(** [test_add_tasks_to_plan] *)
Example test_add_tasks_to_plan :
  let r := add_tasks_to_plan demo_clock sample_world 1
             [Task.mk None 1 "New Task" None PENDING LOW 2 [] None None None] in
  fst r = true
  /\ match get_plan JsonRef.loads (snd r) 1 with
     | Returned (Some p) => Plan.total_tasks p = 3
     | _ => False
     end.
Proof. vm_compute. split; reflexivity. Qed.

(** [test_update_plan_info] *)
Example test_update_plan_info :
  let r := update_plan_info demo_clock sample_world 1 (Some "Updated Title")
             (Some "Updated description") in
  fst r = true
  /\ match get_plan JsonRef.loads (snd r) 1 with
     | Returned (Some p) =>
         Plan.title p = "Updated Title"
         /\ Plan.description p = Some "Updated description"
     | _ => False
     end.
Proof. vm_compute. repeat split. Qed.

(** [test_delete_plan] *)
Example test_delete_plan :
  let r := delete_plan sample_world 1 in
  fst r = true
  /\ get_plan JsonRef.loads (snd r) 1 = Returned None
  /\ tasks (snd r) = [].
Proof. vm_compute. repeat split. Qed.

(** [test_plan_is_completed] *)
Example test_plan_is_completed :
  Plan.is_completed
    (Plan.mk None "Test" None PROJECT "Test" PENDING 2 2 None None []) = true
  /\ Plan.is_completed
       (Plan.mk None "Test" None PROJECT "Test" PENDING 2 1 None None []) = false.
Proof. split; reflexivity. Qed.

(** * Further properties of the store *)

Lemma find_app_split {A : Type} (f : A -> bool) (l l' : list A) :
  List.find f (l ++ l')
  = match List.find f l with
    | Some x => Some x
    | None => List.find f l'
    end.
Proof.
  induction l as [|x l IH]; simpl; [reflexivity|].
  now destruct (f x).
Qed.

(** ** delete_plan *)

(** X1. With the plan keys unique: [delete_plan] on a key that is not
    stored returns false and leaves the store as it was.  On a stored key
    it returns true, after which [get_plan] on that key finds nothing and
    no task row names the key; every other plan row and the task rows of
    every other plan are as before, and the clock was not read. *)
Theorem delete_plan_cascades (json_loads : string -> loads_result) (w : World)
  (plan_id : Z) :
  plan_key_ok w ->
  (first_plan w plan_id = None -> delete_plan w plan_id = (false, w))
  /\ (forall p, first_plan w plan_id = Some p ->
      let w' := snd (delete_plan w plan_id) in
      fst (delete_plan w plan_id) = true
      /\ get_plan json_loads w' plan_id = Returned None
      /\ Forall (fun t => TaskModel.plan_id t <> plan_id) (tasks w')
      /\ (forall q, q <> plan_id ->
            first_plan w' q = first_plan w q
            /\ filter (owned_by q) (tasks w') = filter (owned_by q) (tasks w))
      /\ List.length (plans w') = pred (List.length (plans w))
      /\ ticks w' = ticks w).
Proof.
  intros Hk. unfold delete_plan. split.
  - intros ->. reflexivity.
  - intros p Hp. rewrite Hp. cbn [fst snd].
    destruct (find_split _ _ _ Hp) as (before & after & Hl & Hx & Hb).
    assert (Hdel : delete_first (plan_has_id plan_id) (plans w)
                   = (before ++ after)%list).
    { rewrite Hl. now apply delete_first_app. }
    assert (Hfresh : Forall (fun y => plan_has_id plan_id y = false)
                       (before ++ after)).
    { unfold plan_key_ok, plan_ids in Hk. rewrite Hl, map_app in Hk.
      cbn [map] in Hk. apply NoDup_remove_2 in Hk. rewrite <- map_app in Hk.
      apply Forall_forall. intros y Hy. unfold plan_has_id in *.
      apply Z.eqb_eq in Hx. apply Z.eqb_neq. intros E. apply Hk.
      rewrite Hx, <- E. now apply in_map. }
    split; [reflexivity|]. split.
    { unfold get_plan, first_plan. cbn [plans]. rewrite Hdel.
      destruct (List.find (plan_has_id plan_id) (before ++ after)) as [y|] eqn:E;
        [|reflexivity].
      apply find_some in E. destruct E as [Hin Hy].
      rewrite Forall_forall in Hfresh. rewrite (Hfresh y Hin) in Hy.
      discriminate. }
    split.
    { cbn [tasks]. apply Forall_forall. intros t Ht. apply filter_In in Ht.
      destruct Ht as [_ Ht]. unfold owned_by in Ht.
      now apply negb_true_iff, Z.eqb_neq in Ht. }
    split.
    { intros q Hq. split.
      - unfold first_plan. cbn [plans]. rewrite Hdel, Hl, !find_app_split.
        destruct (List.find (plan_has_id q) before); [reflexivity|].
        cbn [List.find]. unfold plan_has_id in Hx |- *. apply Z.eqb_eq in Hx.
        rewrite Hx. apply Z.eqb_neq in Hq. rewrite Z.eqb_sym in Hq.
        now rewrite Hq.
      - cbn [tasks]. rewrite <- filter_andb. apply filter_ext. intros t.
        unfold owned_by.
        destruct (Z.eqb_spec (TaskModel.plan_id t) q) as [E|E];
          [|now rewrite andb_false_r].
        rewrite andb_true_r. apply negb_true_iff, Z.eqb_neq. congruence. }
    split; [|reflexivity].
    cbn [plans]. rewrite Hdel, Hl, !length_app. cbn [List.length]. lia.
Qed.

Lemma delete_plan_cascades_witness :
  plan_key_ok sample_world
  /\ delete_plan sample_world 7 = (false, sample_world)
  /\ fst (delete_plan sample_world 1) = true
  /\ get_plan JsonRef.loads (snd (delete_plan sample_world 1)) 1 = Returned None.
Proof.
  assert (Hk : plan_key_ok sample_world).
  { unfold plan_key_ok. vm_compute. repeat constructor. intros []. }
  split; [exact Hk|]. split.
  - apply (proj1 (delete_plan_cascades JsonRef.loads sample_world 7 Hk)).
    reflexivity.
  - destruct (proj2 (delete_plan_cascades JsonRef.loads sample_world 1 Hk)
                sample_row eq_refl) as (H1 & H2 & _).
    split; assumption.
Defined.

(** ** add_tasks_to_plan *)

Lemma find_map_same_test {A : Type} (f : A -> bool) (u : A -> A) (l : list A) :
  (forall x, f (u x) = f x) ->
  List.find f (map u l) = option_map u (List.find f l).
Proof.
  intros H. induction l as [|x l IH]; simpl; [reflexivity|].
  rewrite H. now destruct (f x).
Qed.

(** X2. [add_tasks_to_plan] always returns true and appends one row per
    new task, in order, under the given plan key.  The positions continue
    after the largest [order_index] of the plan's rows, except that a
    largest index of 0 is read as no index: with no row, or with 0 as the
    largest index, the new rows start at 0 again.  A stored plan with that
    key (keys unique) has its counters recounted; when no plan has the key
    the plans table is left as it was. *)
Theorem add_tasks_to_plan_appends (clock : nat -> Z) (w : World) (plan_id : Z)
  (new_tasks : list Task.t) :
  let r := add_tasks_to_plan clock w plan_id new_tasks in
  let indices :=
    map TaskModel.order_index (filter (owned_by plan_id) (tasks w)) in
  fst r = true
  /\ (exists start rows,
        tasks (snd r) = (tasks w ++ rows)%list
        /\ List.length rows = List.length new_tasks
        /\ (indices = [] -> start = 0)
        /\ (sql_max indices = Some 0 -> start = 0)
        /\ (forall m, sql_max indices = Some m -> m <> 0 -> start = m + 1)
        /\ forall n task,
             nth_error new_tasks n = Some task ->
             exists row,
               nth_error rows n = Some row
               /\ TaskModel.plan_id row = plan_id
               /\ TaskModel.order_index row = start + Z.of_nat n
               /\ TaskModel.title row = Task.title task
               /\ TaskModel.description row = Task.description task
               /\ TaskModel.status row = TaskStatus_value (Task.status task)
               /\ TaskModel.priority row = Priority_value (Task.priority task)
               /\ TaskModel.dependencies row
                  = JsonRef.dumps_ints (Task.dependencies task)
               /\ TaskModel.completed_at row = None)
  /\ (first_plan w plan_id = None -> plans (snd r) = plans w)
  /\ (plan_key_ok w ->
      forall p, first_plan w plan_id = Some p ->
        exists p',
          first_plan (snd r) plan_id = Some p'
          /\ same_plan_identity p p'
          /\ same_plan_text p p'
          /\ PlanModel.total_tasks p' = progress_total (snd r) plan_id
          /\ PlanModel.completed_tasks p' = progress_completed (snd r) plan_id).
Proof.
  intros r indices. unfold r, add_tasks_to_plan. cbn [fst snd].
  fold indices. rewrite add_tasks_rows.
  set (max_index := match sql_max indices with
                    | Some m => if m =? 0 then -1 else m
                    | None => -1
                    end).
  set (rows := rows_from clock _ _ (max_index + 1 + 0) plan_id new_tasks).
  set (w1 := mkWorld (plans w) (tasks w ++ rows) _).
  split; [reflexivity|]. split; [|split].
  - exists (max_index + 1), rows.
    split; [now rewrite progress_step_tasks|].
    split; [apply rows_from_length|].
    split; [intros E; unfold max_index; now rewrite E|].
    split; [intros E; unfold max_index; now rewrite E|].
    split.
    { intros m E Hm. unfold max_index. rewrite E.
      apply Z.eqb_neq in Hm. now rewrite Hm. }
    intros n task Hn. eexists.
    split; [unfold rows; apply rows_from_nth; exact Hn|].
    cbn. repeat split. lia.
  - intros Hnone. unfold _update_plan_progress.
    replace (first_plan w1 plan_id) with (first_plan w plan_id) by reflexivity.
    now rewrite Hnone.
  - intros Hk p Hp.
    assert (Hk1 : plan_key_ok w1) by exact Hk.
    pose proof (progress_step_plans clock w1 plan_id Hk1) as Hplans.
    pose proof (progress_step_tasks clock w1 plan_id) as Htasks.
    set (w' := _update_plan_progress clock w1 plan_id) in *.
    exists (recompute w1 plan_id (clock (ticks w1)) p).
    destruct (first_plan_some w plan_id p Hp) as [_ Hid].
    split.
    { unfold first_plan. rewrite Hplans.
      rewrite find_map_same_test.
      - change (plans w1) with (plans w).
        unfold first_plan in Hp. now rewrite Hp.
      - intros x. unfold plan_has_id. now rewrite recompute_id. }
    unfold recompute. rewrite Hid, Z.eqb_refl.
    destruct (progress_same_tasks w1 w' plan_id Htasks) as [ET EC].
    rewrite ET, EC. repeat split.
Qed.

Lemma add_tasks_to_plan_appends_witness :
  plan_key_ok sample_world
  /\ exists p',
       first_plan
         (snd (add_tasks_to_plan demo_clock sample_world 1
                 [Task.mk None 1 "New Task" None PENDING LOW 2 [] None None None]))
         1 = Some p'
       /\ PlanModel.total_tasks p' = 3.
Proof.
  assert (Hk : plan_key_ok sample_world).
  { unfold plan_key_ok. vm_compute. repeat constructor. intros []. }
  split; [exact Hk|].
  destruct (proj2 (proj2 (proj2
              (add_tasks_to_plan_appends demo_clock sample_world 1
                 [Task.mk None 1 "New Task" None PENDING LOW 2 [] None None None])))
              Hk sample_row eq_refl)
    as (p' & H1 & _ & _ & H4 & _).
  exists p'. split; [exact H1|]. rewrite H4. reflexivity.
Defined.

(** ** Listings *)

Lemma plan_of_row_counters (p : PlanModel.t) (ts : list Task.t) (q : Plan.t) :
  plan_of_row p ts = Returned q ->
  Plan.total_tasks q = PlanModel.total_tasks p
  /\ Plan.completed_tasks q = PlanModel.completed_tasks p
  /\ Plan.id q = Some (PlanModel.id p)
  /\ Plan.title q = PlanModel.title p
  /\ Plan.tasks q = ts.
Proof.
  unfold plan_of_row, Plan_new.
  destruct (PlanCategory_of_value _); [|discriminate].
  destruct (TaskStatus_of_value _); [|discriminate].
  simpl. destruct (_ && _); [|discriminate].
  intros [= <-]. repeat split.
Qed.

(** X3. On a store whose counters lie in range, the default listing
    leaves out exactly the plans that read as completed
    ([total_tasks > 0] and [completed_tasks = total_tasks]); with
    [include_completed] every stored plan is listable. *)
Theorem default_listing_hides_completed (w : World) (p : PlanModel.t)
  (ts : list Task.t) (q : Plan.t) :
  counters_bounded w ->
  In p (plans w) ->
  plan_of_row p ts = Returned q ->
  (In p (visible_plans w false) <-> Plan.is_completed q = false)
  /\ In p (visible_plans w true).
Proof.
  intros Hb Hin Hq.
  destruct (plan_of_row_counters p ts q Hq) as (Ht & Hc & _).
  unfold counters_bounded in Hb. rewrite Forall_forall in Hb.
  specialize (Hb p Hin).
  assert (E : is_active p = negb (Plan.is_completed q)).
  { unfold is_active, Plan.is_completed. rewrite Ht, Hc.
    destruct (Z.eqb_spec (PlanModel.total_tasks p) 0) as [E0|E0];
      destruct (Z.ltb_spec (PlanModel.completed_tasks p) (PlanModel.total_tasks p));
      destruct (Z.eqb_spec (PlanModel.completed_tasks p) (PlanModel.total_tasks p));
      destruct (PlanModel.total_tasks p >? 0) eqn:G;
      try reflexivity; try lia;
      try (apply Z.gtb_lt in G; lia);
      rewrite Z.gtb_ltb in G; apply Z.ltb_ge in G; lia. }
  split; [|exact Hin].
  unfold visible_plans. rewrite filter_In, E. split.
  - intros [_ H]. now apply negb_true_iff in H.
  - intros H. split; [exact Hin|]. now rewrite H.
Qed.

Lemma default_listing_hides_completed_witness :
  counters_bounded sample_world
  /\ In sample_row (plans sample_world)
  /\ (In sample_row (visible_plans sample_world false)
      <-> Plan.is_completed
            (Plan.mk (Some 1) "Test Project" (Some "A test project plan")
               PROJECT "Complete the test successfully" PENDING 2 0
               (Some 1000) (Some 1000) []) = false).
Proof.
  assert (Hb : counters_bounded sample_world).
  { unfold counters_bounded. vm_compute. repeat constructor; discriminate. }
  split; [exact Hb|]. split; [now left|].
  apply (default_listing_hides_completed sample_world sample_row [] _ Hb).
  - now left.
  - reflexivity.
Defined.

Lemma firstn_then {A : Type} (n m : nat) (l : list A) :
  (firstn n l ++ firstn m (skipn n l) = firstn (n + m) l)%list.
Proof.
  revert l. induction n as [|n IH]; intros l; simpl; [reflexivity|].
  destruct l as [|x l]; simpl; [now rewrite firstn_nil|].
  now rewrite IH.
Qed.

(** X4. With a positive page size every listable plan is on some page
    (pages counted from 1), and pages [2k-1] and [2k] of size [s], one after
    the other, are page [k] of size [2s]: pages neither skip nor repeat a
    position of the ordered listing. *)
Theorem pages_cover_listing (w : World) (include_completed : bool)
  (page_size : Z) :
  0 < page_size ->
  (forall p, In p (visible_plans w include_completed) ->
     exists page, 1 <= page
                  /\ In p (select_plans w include_completed page page_size))
  /\ (forall k, 1 <= k ->
        (select_plans w include_completed (2 * k - 1) page_size
         ++ select_plans w include_completed (2 * k) page_size)%list
        = select_plans w include_completed k (2 * page_size)).
Proof.
  intros Hs. split.
  - intros p Hp.
    apply (order_by_In by_updated_at_desc) in Hp.
    apply In_nth_error in Hp. destruct Hp as [i Hi].
    set (s := Z.to_nat page_size).
    assert (Hs0 : s <> 0%nat) by (unfold s; lia).
    exists (Z.of_nat (i / s) + 1). split; [lia|].
    rewrite select_plans_eq. unfold offset_limit.
    destruct (Z.ltb_spec page_size 0) as [H|_]; [lia|].
    apply nth_error_In with (n := (i mod s)%nat).
    rewrite nth_error_firstn.
    pose proof (Nat.mod_upper_bound i s Hs0) as Hm.
    fold s. destruct (Nat.ltb_spec (i mod s) s) as [_|H]; [|lia].
    rewrite nth_error_skipn.
    replace (Z.to_nat ((Z.of_nat (i / s) + 1 - 1) * page_size) + i mod s)%nat
      with i; [exact Hi|].
    pose proof (Nat.div_mod_eq i s) as Hd.
    replace ((Z.of_nat (i / s) + 1 - 1) * page_size)
      with (Z.of_nat (i / s * s)) by (unfold s; nia).
    rewrite Nat2Z.id. lia.
  - intros k Hk. rewrite !select_plans_eq. unfold offset_limit.
    destruct (Z.ltb_spec page_size 0) as [H|_]; [lia|].
    destruct (Z.ltb_spec (2 * page_size) 0) as [H|_]; [lia|].
    set (l := order_by by_updated_at_desc (visible_plans w include_completed)).
    replace (Z.to_nat ((2 * k - 1) * page_size))
      with (Z.to_nat page_size + Z.to_nat ((k - 1) * (2 * page_size)))%nat
      by nia.
    replace (Z.to_nat ((2 * k - 1 - 1) * page_size))
      with (Z.to_nat ((k - 1) * (2 * page_size))) by (f_equal; ring).
    rewrite <- skipn_skipn.
    replace (Z.to_nat (2 * page_size))
      with (Z.to_nat page_size + Z.to_nat page_size)%nat by lia.
    apply firstn_then.
Qed.

Lemma pages_cover_listing_witness :
  0 < 30
  /\ (select_plans (numbered_world 35) false 1 30
      ++ select_plans (numbered_world 35) false 2 30)%list
     = select_plans (numbered_world 35) false 1 60.
Proof.
  split; [lia|].
  apply (proj2 (pages_cover_listing (numbered_world 35) false 30 eq_refl) 1).
  lia.
Defined.

(** ** Creating a plan, then completing its tasks *)

Section CompletionFacts.

Variable clock : nat -> Z.

Lemma create_tasks_ids (pid : Z) (l : list Task.t) (i : Z) (w : World) :
  flat_map (fun t => match Task.id t with Some k => [k] | None => [] end)
    (fst (create_tasks clock pid i l w))
  = map TaskModel.id
      (rows_from clock (next_rowid (map TaskModel.id (tasks w))) (ticks w) i
         pid l).
Proof.
  revert i w. induction l as [|task rest IH]; intros i w; [reflexivity|].
  cbn [create_tasks rows_from map]. unfold insert_task, now.
  cbn [fst snd tasks ticks plans].
  match goal with
  | |- context [create_tasks ?c ?q ?j ?r ?w0] =>
      specialize (IH j w0); destruct (create_tasks c q j r w0) as [created w2]
  end.
  cbn [fst flat_map created_task Task.id TaskModel.id app] in IH |- *.
  rewrite IH. cbn [tasks ticks]. rewrite map_app. cbn [map TaskModel.id].
  now rewrite next_rowid_snoc.
Qed.

Lemma rows_from_ids_fresh (first_tick : nat) (first_index pid : Z)
  (l : list Task.t) (ids : list Z) (first_id : Z) :
  (forall x, In x ids -> x < first_id) ->
  forall x, In x ids ->
    ~ In x (map TaskModel.id
              (rows_from clock first_id first_tick first_index pid l)).
Proof.
  revert first_id first_tick first_index.
  induction l as [|task rest IH]; intros first_id first_tick first_index H x Hx;
    simpl; [tauto|].
  intros [E|Hin].
  - specialize (H x Hx). lia.
  - apply (IH (first_id + 1) (S first_tick) (first_index + 1)) with (x := x);
      auto.
    intros y Hy. specialize (H y Hy). lia.
Qed.

End CompletionFacts.

(** X5. On a store with unique plan keys whose task rows name stored
    plans: after a plan with at least one task is created and all the task
    keys handed back are set to completed in one call, the plan's row has
    [completed_tasks = total_tasks] = the number of its tasks, whatever
    their statuses were at creation; the default listing no longer shows
    the plan, the listing with [include_completed] still does. *)
Theorem completing_every_task_hides_plan (clock : nat -> Z) (w : World)
  (plan : Plan.t) :
  plan_key_ok w ->
  foreign_key_ok w ->
  Plan.tasks plan <> [] ->
  let created := fst (create_plan clock w plan) in
  let w1 := snd (create_plan clock w plan) in
  let r := update_task_status clock w1 (assigned_ids created) COMPLETED None in
  fst r = true
  /\ exists row,
       first_plan (snd r) (next_rowid (plan_ids w)) = Some row
       /\ PlanModel.total_tasks row = Z.of_nat (List.length (Plan.tasks plan))
       /\ PlanModel.completed_tasks row = PlanModel.total_tasks row
       /\ ~ In row (visible_plans (snd r) false)
       /\ In row (visible_plans (snd r) true).
Proof.
  intros Hk Hfk Hne created w1 r. subst r.
  set (pid := next_rowid (plan_ids w)).
  set (base := next_rowid (map TaskModel.id (tasks w))).
  set (rows := rows_from clock base (S (ticks w)) 0 pid (Plan.tasks plan)).
  set (ids := assigned_ids created).
  set (r := update_task_status clock w1 ids COMPLETED None).
  assert (Hw1 : w1 = mkWorld
                      (plans w ++
                       [PlanModel.mk pid (Plan.title plan) (Plan.description plan)
                          (PlanCategory_value (Plan.category plan))
                          (Plan.goal plan) (TaskStatus_value (Plan.status plan))
                          (Z.of_nat (List.length (Plan.tasks plan))) 0
                          (clock (ticks w)) (clock (ticks w))])
                      (tasks w ++ rows)
                      (S (ticks w) + List.length (Plan.tasks plan))).
  { unfold w1. now rewrite create_plan_world. }
  set (prow := PlanModel.mk pid _ _ _ _ _ _ _ _ _) in Hw1.
  assert (Hids : ids = map TaskModel.id rows).
  { unfold ids, assigned_ids, created. rewrite create_plan_returns.
    cbn [Plan.tasks]. now rewrite create_tasks_ids. }
  assert (Hold : forall t, In t (tasks w) -> targeted ids t = false).
  { intros t Ht. apply mem_Z_not_In. rewrite Hids.
    apply rows_from_ids_fresh with (ids := map TaskModel.id (tasks w)).
    - intros x Hx. now apply next_rowid_above.
    - now apply in_map. }
  assert (Hnew : forall t, In t rows -> targeted ids t = true).
  { intros t Ht. apply mem_Z_In. rewrite Hids. now apply in_map. }
  assert (Hk1 : plan_key_ok w1).
  { rewrite Hw1. unfold plan_key_ok, plan_ids. cbn [plans].
    rewrite map_app. apply NoDup_app; [exact Hk | repeat constructor; simpl; tauto|].
    intros a Ha [<- | []]. now apply next_rowid_fresh in Ha. }
  assert (Hrows : rows <> []).
  { unfold rows. destruct (Plan.tasks plan); [contradiction|discriminate]. }
  assert (Hmatch : filter (targeted ids) (tasks w1) <> []).
  { rewrite Hw1. cbn [tasks]. rewrite filter_app.
    destruct rows as [|t rows'] eqn:Er; [contradiction|].
    cbn [filter]. rewrite (Hnew t (or_introl eq_refl)).
    intros E. apply app_eq_nil in E. destruct E as [_ E]. discriminate. }
  split.
  { unfold r. fold ids. now rewrite update_task_status_matched. }
  destruct (update_task_status_plans clock w1 ids COMPLETED None Hk1)
    as (Hpids & _ & HF).
  pose proof (update_task_status_tasks clock w1 ids COMPLETED None) as Ht.
  fold r in Hpids, HF, Ht.
  set (w' := snd r) in *.
  set (pids := distinct _) in HF.
  assert (Hpid : In pid pids).
  { unfold pids. rewrite distinct_In, in_map_iff.
    destruct rows as [|t rows'] eqn:Er; [contradiction|].
    exists t. split.
    - pose proof (rows_from_owned clock base (S (ticks w)) 0 pid (Plan.tasks plan))
        as Ho. fold rows in Ho. rewrite Er in Ho. now inversion Ho.
    - apply filter_In. split.
      + rewrite Hw1. cbn [tasks]. apply in_or_app. right. now left.
      + apply Hnew. now left. }
  (* the rows the recount sees *)
  set (upd := fun t : TaskModel.t =>
                if targeted ids t
                then set_task_status (TaskStatus_value COMPLETED)
                       (clock (ticks w1))
                       (if TaskStatus_eqb COMPLETED COMPLETED
                        then Some (clock (ticks w1)) else None) t
                else t) in Ht.
  assert (Hcount : progress_rows w' pid = map upd rows).
  { unfold progress_rows. rewrite Ht, Hw1. cbn [tasks].
    rewrite map_app, filter_app.
    rewrite (filter_none _ (map upd (tasks w))).
    - cbn [app]. apply filter_all. apply Forall_map. apply Forall_forall.
      intros t Hin. unfold upd. rewrite (Hnew t Hin).
      pose proof (rows_from_owned clock base (S (ticks w)) 0 pid (Plan.tasks plan))
        as Ho. fold rows in Ho. rewrite Forall_forall in Ho.
      unfold owned_by, not_deleted. cbn. rewrite (Ho t Hin), Z.eqb_refl.
      reflexivity.
    - apply Forall_map. apply Forall_forall. intros t Hin.
      unfold upd. rewrite (Hold t Hin).
      pose proof (fresh_key_unowned w Hfk) as Hf. fold pid in Hf.
      assert (Ho : owned_by pid t = false).
      { destruct (owned_by pid t) eqn:E; [|reflexivity].
        assert (Hi : In t (filter (owned_by pid) (tasks w)))
          by (apply filter_In; auto).
        rewrite Hf in Hi. contradiction. }
      now rewrite Ho. }
  assert (Htotal : progress_total w' pid
                   = Z.of_nat (List.length (Plan.tasks plan))).
  { unfold progress_total. rewrite Hcount, length_map. unfold rows.
    now rewrite rows_from_length. }
  assert (Hcompleted : progress_completed w' pid = progress_total w' pid).
  { unfold progress_completed, progress_total. rewrite Hcount.
    assert (Hall : Forall (fun t => is_completed_row t = true) (map upd rows)).
    { apply Forall_map. apply Forall_forall. intros t Hin.
      unfold upd. now rewrite (Hnew t Hin). }
    revert Hall. generalize (map upd rows). intros l Hall.
    induction Hall as [|t l Hc _ IH]; [reflexivity|].
    cbn [fold_right List.length]. rewrite Hc, IH, Nat2Z.inj_succ. lia. }
  (* the refreshed row *)
  rewrite Hw1 in HF. cbn [plans] in HF.
  apply Forall2_app_inv_l in HF.
  destruct HF as (l1 & l2 & HF1 & HF2 & Hplans).
  inversion HF2 as [|? row ? l2' Hrow Hnil]; subst. inversion Hnil; subst.
  destruct Hrow as ((Hid & _) & _ & Hin & _).
  cbn [PlanModel.id] in Hid, Hin. destruct (Hin Hpid) as (HT & HC & _).
  assert (Hl1 : Forall (fun y => plan_has_id pid y = false) l1).
  { apply Forall_forall. intros y Hy. unfold plan_has_id. apply Z.eqb_neq.
    intros E. apply (next_rowid_fresh (plan_ids w)). fold pid. rewrite <- E.
    unfold plan_ids. rewrite <- (refreshed_id _ _ _ _ _ _ _ HF1).
    now apply in_map. }
  assert (Etotal : PlanModel.total_tasks row
                   = Z.of_nat (List.length (Plan.tasks plan)))
    by (rewrite HT; exact Htotal).
  assert (Ecompleted : PlanModel.completed_tasks row = PlanModel.total_tasks row)
    by (rewrite HT, HC; exact Hcompleted).
  exists row.
  split.
  { unfold first_plan. rewrite Hplans. apply find_snoc_fresh; [exact Hl1|].
    unfold plan_has_id. rewrite Hid. apply Z.eqb_refl. }
  split; [exact Etotal|]. split; [exact Ecompleted|].
  assert (Hrowin : In row (plans w')).
  { rewrite Hplans. apply in_or_app. right. now left. }
  split; [|exact Hrowin].
  unfold visible_plans. rewrite filter_In. intros [_ Ha].
  unfold is_active in Ha. rewrite Ecompleted, Etotal in Ha.
  apply orb_true_iff in Ha. destruct Ha as [Ha|Ha].
  - apply Z.eqb_eq in Ha. destruct (Plan.tasks plan); [contradiction|].
    simpl in Ha. lia.
  - apply Z.ltb_lt in Ha. lia.
Qed.

Lemma completing_every_task_hides_plan_witness :
  plan_key_ok empty_world
  /\ foreign_key_ok empty_world
  /\ Plan.tasks sample_plan <> []
  /\ exists row,
       first_plan
         (snd (update_task_status demo_clock sample_world
                 (assigned_ids (fst (create_plan demo_clock empty_world sample_plan)))
                 COMPLETED None)) 1 = Some row
       /\ PlanModel.completed_tasks row = PlanModel.total_tasks row.
Proof.
  split; [constructor|]. split; [constructor|]. split; [discriminate|].
  destruct (completing_every_task_hides_plan demo_clock empty_world sample_plan
              (NoDup_nil _) (Forall_nil _) ltac:(discriminate))
    as (_ & row & H1 & _ & H3 & _).
  exists row. split; assumption.
Defined.

(** ** update_plan_info and the schema *)

Lemma find_update_first {A : Type} (f : A -> bool) (u : A -> A) (l : list A) :
  (forall x, f (u x) = f x) ->
  List.find f (update_first f u l) = option_map u (List.find f l).
Proof.
  intros H. induction l as [|x l IH]; simpl; [reflexivity|].
  destruct (f x) eqn:E; simpl.
  - now rewrite H, E.
  - now rewrite E, IH.
Qed.

Lemma plan_of_row_checks_lengths (p : PlanModel.t) (ts : list Task.t) :
  len_between 1 200 (PlanModel.title p)
  && opt_len_at_most 1000 (PlanModel.description p) = false ->
  exists e, plan_of_row p ts = Raised e.
Proof.
  intros H. unfold plan_of_row, Plan_new.
  destruct (PlanCategory_of_value _); simpl; [|eexists; reflexivity].
  destruct (TaskStatus_of_value _); simpl; [|eexists; reflexivity].
  rewrite H. simpl. eexists. reflexivity.
Qed.

(** X6. [update_plan_info] does not apply the schema's length limits: on a
    stored plan it returns true and stores a title of more than 200
    characters, or a description of more than 1000, as given; from then on
    [get_plan] on that plan raises instead of returning it. *)
Theorem update_plan_info_skips_validation (clock : nat -> Z)
  (json_loads : string -> loads_result) (w : World) (plan_id : Z)
  (p : PlanModel.t) (title description : option string) :
  first_plan w plan_id = Some p ->
  (exists s, title = Some s /\ (200 < String.length s)%nat)
  \/ (exists d, description = Some d /\ (1000 < String.length d)%nat) ->
  let r := update_plan_info clock w plan_id title description in
  fst r = true
  /\ (exists p',
        first_plan (snd r) plan_id = Some p'
        /\ (forall s, title = Some s -> s <> "" -> PlanModel.title p' = s)
        /\ (forall d, description = Some d -> PlanModel.description p' = Some d))
  /\ exists e, get_plan json_loads (snd r) plan_id = Raised e.
Proof.
  intros Hp Hlong r. unfold r, update_plan_info, now. rewrite Hp.
  cbn [fst snd plans tasks ticks].
  set (p' := set_info title description (clock (ticks w)) p).
  assert (Hfind : first_plan
                    (mkWorld (update_first (plan_has_id plan_id)
                                (set_info title description (clock (ticks w)))
                                (plans w))
                       (tasks w) (S (ticks w))) plan_id = Some p').
  { unfold first_plan. cbn [plans]. rewrite find_update_first by reflexivity.
    unfold first_plan in Hp. now rewrite Hp. }
  split; [reflexivity|]. split.
  - exists p'. split; [exact Hfind|]. split.
    + intros s -> Hs. unfold p'. cbn. apply String.eqb_neq in Hs. now rewrite Hs.
    + intros d ->. reflexivity.
  - unfold get_plan. rewrite Hfind.
    destruct (map_outcome _ _) as [ts|e]; [|eexists; reflexivity].
    cbn [bind_outcome].
    destruct (plan_of_row_checks_lengths p' ts) as [e He].
    + unfold p'. cbn [PlanModel.title PlanModel.description set_info].
      destruct Hlong as [(s & -> & Hs) | (d & -> & Hd)].
      * assert (Es : String.eqb s "" = false).
        { apply String.eqb_neq. intros ->. simpl in Hs. lia. }
        rewrite Es. unfold len_between.
        replace (String.length s <=? 200)%nat with false
          by (symmetry; apply Nat.leb_gt; lia).
        now rewrite andb_false_r.
      * cbn [opt_len_at_most].
        replace (String.length d <=? 1000)%nat with false
          by (symmetry; apply Nat.leb_gt; lia).
        now rewrite andb_false_r.
    + rewrite He. eexists. reflexivity.
Qed.

Lemma update_plan_info_skips_validation_witness :
  first_plan sample_world 1 = Some sample_row
  /\ (200 < String.length long_title)%nat
  /\ exists e,
       get_plan JsonRef.loads
         (snd (update_plan_info demo_clock sample_world 1 (Some long_title) None))
         1 = Raised e.
Proof.
  split; [reflexivity|].
  assert (Hlen : (200 < String.length long_title)%nat)
    by (vm_compute; repeat constructor).
  split; [exact Hlen|].
  apply (update_plan_info_skips_validation demo_clock JsonRef.loads sample_world
           1 sample_row (Some long_title) None eq_refl).
  left. exists long_title. split; [reflexivity | exact Hlen].
Defined.

(** * Further properties of the workflow *)

(** ** _create_task_from_dict *)

Section MaterializerFacts.

Variable int_of_json : json -> option Z.

Lemma Task_of_decoded_returns (pid : Z) (title : json)
  (description : option json) (priority : Priority) (i : Z)
  (dependencies : json) (t : Task.t) :
  Task_of_decoded int_of_json pid title description priority i dependencies
  = Returned t ->
  exists s d l,
    title = JStr s
    /\ t = Task.mk None pid s d PENDING priority i l None None None
    /\ Task_valid t = true
    /\ (description = None -> d = None)
    /\ (dependencies = JArr [] -> l = []).
Proof.
  unfold Task_of_decoded. destruct title as [| | | |s| |]; try discriminate.
  destruct (match description with
            | Some JNull | None => Returned None
            | Some (JStr d) => Returned (Some d)
            | Some _ => Raised "ValidationError"
            end) as [d|e] eqn:Ed; [|discriminate].
  cbn [bind_outcome].
  destruct (match dependencies with
            | JArr items =>
                map_outcome
                  (fun v => of_option "ValidationError" (int_of_json v)) items
            | _ => Raised "ValidationError"
            end) as [l|e] eqn:El; [|discriminate].
  cbn [bind_outcome]. unfold Task_new.
  destruct (Task_valid _) eqn:Ev; [|discriminate].
  intros [= <-]. exists s, d, l.
  split; [reflexivity|]. split; [reflexivity|]. split; [exact Ev|]. split.
  - intros ->. now injection Ed.
  - intros ->. simpl in El. now injection El.
Qed.

Lemma create_task_from_dict_order_index (d : json) (i pid : Z) (t : Task.t) :
  _create_task_from_dict int_of_json d i pid = Returned t ->
  Task.order_index t = i.
Proof.
  destruct d; try discriminate. unfold _create_task_from_dict. intros Hr.
  apply Task_of_decoded_returns in Hr.
  destruct Hr as (s & d & l & _ & -> & _). reflexivity.
Qed.

Lemma create_tasks_from_returns (items : list json) (i : Z) (ts : list Task.t) :
  create_tasks_from int_of_json i items = Returned ts ->
  List.length ts = List.length items
  /\ map Task.order_index ts
     = map (fun n => i + Z.of_nat n) (seq 0 (List.length items))
  /\ forall n d, nth_error items n = Some d ->
       exists t, nth_error ts n = Some t
                 /\ _create_task_from_dict int_of_json d (i + Z.of_nat n) 0
                    = Returned t.
Proof.
  revert i ts. induction items as [|d0 rest IH]; intros i ts Hr.
  - injection Hr as <-. repeat split. intros [|n] d; discriminate.
  - cbn [create_tasks_from] in Hr.
    destruct (_create_task_from_dict int_of_json d0 i 0) as [t0|e] eqn:E0;
      [|discriminate].
    cbn [bind_outcome] in Hr.
    destruct (create_tasks_from int_of_json (i + 1) rest) as [ts'|e] eqn:Er;
      [|discriminate].
    cbn [bind_outcome] in Hr. injection Hr as <-.
    destruct (IH (i + 1) ts' Er) as (Hlen & Hidx & Hnth).
    split; [simpl; now rewrite Hlen|]. split.
    + cbn [map List.length seq]. rewrite Hidx. f_equal.
      * rewrite (create_task_from_dict_order_index _ _ _ _ E0). lia.
      * rewrite <- seq_shift, map_map. apply map_ext. intros n. lia.
    + intros [|n] d Hd.
      * injection Hd as <-. exists t0. split; [reflexivity|].
        now rewrite Z.add_0_r.
      * destruct (Hnth n d Hd) as (t & Ht & Hc). exists t.
        split; [exact Ht|].
        replace (i + Z.of_nat (S n)) with (i + 1 + Z.of_nat n) by lia.
        exact Hc.
Qed.

End MaterializerFacts.

(** X7. [_create_task_from_dict] raises on a value that is not an object.
    A task it returns has the given position as [order_index], the given
    plan key, status pending and no key or times of its own, and satisfies
    the schema's length limits; its priority is the member named by the
    "priority" string, and medium for a missing, unknown or non-string
    priority; a missing title becomes "Task N" with N the position plus 1; a
    missing description is none and missing dependencies are the empty
    list. *)
Theorem create_task_from_dict_defaults (int_of_json : json -> option Z)
  (task_dict : json) (order_index plan_id : Z) :
  ((forall members, task_dict <> JObj members) ->
   _create_task_from_dict int_of_json task_dict order_index plan_id
   = Raised "AttributeError")
  /\ forall members t,
       task_dict = JObj members ->
       _create_task_from_dict int_of_json task_dict order_index plan_id
       = Returned t ->
       Task.order_index t = order_index
       /\ Task.plan_id t = plan_id
       /\ Task.status t = PENDING
       /\ Task.id t = None
       /\ Task.created_at t = None
       /\ Task.updated_at t = None
       /\ Task.completed_at t = None
       /\ Task_valid t = true
       /\ (forall s p, dict_get "priority" members = Some (JStr s) ->
                       Priority_of_value s = Some p -> Task.priority t = p)
       /\ ((forall s, dict_get "priority" members = Some (JStr s) ->
                      Priority_of_value s = None) ->
           Task.priority t = MEDIUM)
       /\ (dict_get "title" members = None ->
           Task.title t = "Task " ++ PyStr.str_of_Z (order_index + 1))
       /\ (dict_get "description" members = None -> Task.description t = None)
       /\ (dict_get "dependencies" members = None -> Task.dependencies t = []).
Proof.
  split.
  - intros H. destruct task_dict; try reflexivity. now destruct (H members).
  - intros members t -> Hr. unfold _create_task_from_dict in Hr.
    apply Task_of_decoded_returns in Hr.
    destruct Hr as (s & d & l & Htitle & -> & Hv & Hd & Hl).
    cbn [Task.order_index Task.plan_id Task.status Task.id Task.created_at
         Task.updated_at Task.completed_at Task.priority Task.title
         Task.description Task.dependencies].
    repeat (split; [reflexivity|]).
    split; [exact Hv|]. split.
    { intros s' p E Ep. now rewrite E, Ep. }
    split.
    { intros H. destruct (dict_get "priority" members) as [[| | | |s'| |]|];
        try reflexivity.
      now rewrite (H s' eq_refl). }
    split.
    { intros E. rewrite E in Htitle. now injection Htitle as <-. }
    split; [exact Hd|].
    intros E. apply Hl. now rewrite E.
Qed.

Lemma create_task_from_dict_defaults_witness :
  _create_task_from_dict demo_int_of_json (JStr "not an object") 3 0
  = Raised "AttributeError"
  /\ forall t,
       _create_task_from_dict demo_int_of_json
         (JObj [("priority", JStr "urgent")]) 3 0 = Returned t ->
       Task.priority t = MEDIUM /\ Task.title t = "Task 4".
Proof.
  split.
  - apply (proj1 (create_task_from_dict_defaults demo_int_of_json
                    (JStr "not an object") 3 0)).
    discriminate.
  - intros t Ht.
    destruct (proj2 (create_task_from_dict_defaults demo_int_of_json
                       (JObj [("priority", JStr "urgent")]) 3 0)
                [("priority", JStr "urgent")] t eq_refl Ht)
      as (_ & _ & _ & _ & _ & _ & _ & _ & _ & Hp & Ht' & _).
    split.
    + apply Hp. intros s [= <-]. reflexivity.
    + now apply Ht'.
Defined.

(** X8. The list of tasks built from a decoded array is all or nothing: if
    any item fails to become a task the whole construction raises; if it
    returns, there is one task per item, in order, with positions counted
    from the starting index, each the task [_create_task_from_dict] makes of
    its item. *)
Theorem create_tasks_from_positions (int_of_json : json -> option Z)
  (items : list json) (i : Z) :
  (forall ts, create_tasks_from int_of_json i items = Returned ts ->
     List.length ts = List.length items
     /\ map Task.order_index ts
        = map (fun n => i + Z.of_nat n) (seq 0 (List.length items))
     /\ forall n d, nth_error items n = Some d ->
          exists t, nth_error ts n = Some t
                    /\ _create_task_from_dict int_of_json d (i + Z.of_nat n) 0
                       = Returned t)
  /\ ((exists n d e, nth_error items n = Some d
                     /\ _create_task_from_dict int_of_json d (i + Z.of_nat n) 0
                        = Raised e) ->
      exists e, create_tasks_from int_of_json i items = Raised e).
Proof.
  split.
  - intros ts. apply create_tasks_from_returns.
  - revert i. induction items as [|d0 rest IH]; intros i (n & d & e & Hn & He).
    + destruct n; discriminate.
    + cbn [create_tasks_from].
      destruct n as [|n].
      * injection Hn as ->. rewrite Z.add_0_r in He. rewrite He.
        eexists. reflexivity.
      * destruct (_create_task_from_dict int_of_json d0 i 0);
          [|eexists; reflexivity].
        cbn [bind_outcome].
        destruct (IH (i + 1)) as [e' He'].
        { exists n, d, e. split; [exact Hn|].
          replace (i + 1 + Z.of_nat n) with (i + Z.of_nat (S n)) by lia.
          exact He. }
        rewrite He'. eexists. reflexivity.
Qed.

Lemma create_tasks_from_positions_witness :
  (exists n d e,
      nth_error [JObj []; JInt 5] n = Some d
      /\ _create_task_from_dict demo_int_of_json d (0 + Z.of_nat n) 0 = Raised e)
  /\ exists e, create_tasks_from demo_int_of_json 0 [JObj []; JInt 5] = Raised e.
Proof.
  assert (H : exists n d e,
             nth_error [JObj []; JInt 5] n = Some d
             /\ _create_task_from_dict demo_int_of_json d (0 + Z.of_nat n) 0
                = Raised e).
  { exists 1%nat, (JInt 5), "AttributeError". split; reflexivity. }
  split; [exact H|].
  exact (proj2 (create_tasks_from_positions demo_int_of_json
                  [JObj []; JInt 5] 0) H).
Defined.

(** ** The generation stage, for any service *)

Section StageFacts.

Variable json_loads : string -> loads_result.
Variable sample : nat -> string -> sample_result.
Variable int_of_json : json -> option Z.

Lemma usable_items (tasks_data : option json) :
  usable tasks_data = true -> items_of tasks_data <> [].
Proof.
  unfold usable. intros H.
  apply andb_prop in H. destruct H as [_ H].
  destruct (items_of tasks_data); [discriminate|discriminate].
Qed.

Lemma created_positions (items : list json) (ts : list Task.t) :
  items <> [] ->
  create_tasks_from int_of_json 0 items = Returned ts ->
  ts <> []
  /\ map Task.order_index ts = map Z.of_nat (seq 0 (List.length ts)).
Proof.
  intros Hne Hr.
  destruct (create_tasks_from_returns int_of_json items 0 ts Hr)
    as (Hlen & Hidx & _).
  split.
  - intros ->. destruct items; [now apply Hne|discriminate].
  - rewrite Hidx, Hlen. apply map_ext. intros n. lia.
Qed.

Lemma attempt_body_break (attempt : Z) (prompt : string) (calls : nat)
  (ts : list Task.t) :
  attempt_body json_loads sample int_of_json attempt prompt calls = Break ts ->
  ts <> []
  /\ map Task.order_index ts = map Z.of_nat (seq 0 (List.length ts)).
Proof.
  unfold attempt_body. destruct (sample calls prompt); [|discriminate].
  destruct (_extract_json_from_text _ _ _) as [tasks_data|e]; [|discriminate].
  destruct (usable _) eqn:Hu.
  - destruct (create_tasks_from _ _ _) eqn:Hc; [|discriminate].
    intros [= <-]. exact (created_positions _ _ (usable_items _ Hu) Hc).
  - destruct (attempt <? max_retries - 1); discriminate.
Qed.

Lemma attempt_body_continue (attempt : Z) (prompt : string) (calls : nat)
  (prompt1 : string) :
  attempt_body json_loads sample int_of_json attempt prompt calls
  = Continue prompt1 ->
  (attempt <? max_retries - 1) = true /\ prompt1 = (prompt ++ JSON_ONLY)%string.
Proof.
  unfold attempt_body. destruct (sample calls prompt); [|discriminate].
  destruct (_extract_json_from_text _ _ _) as [tasks_data|e]; [|discriminate].
  destruct (usable _).
  - destruct (create_tasks_from _ _ _); discriminate.
  - destruct (attempt <? max_retries - 1); [|discriminate].
    intros [= <-]. now split.
Qed.

Lemma stage_shape_later (left : nat) (prompt prompt1 : string)
  (sent : list string) (r : generation_end * list string) :
  (1 <= left)%nat ->
  stage_shape left prompt1 (sent ++ [prompt]) r ->
  stage_shape (S left) prompt sent r.
Proof.
  intros Hl (requests & Hs & Hlen & Hhd & Hr).
  exists (prompt :: requests). split.
  - rewrite Hs, <- app_assoc. reflexivity.
  - split; [simpl; lia|]. split; [reflexivity|].
    destruct (fst r) as [ts p| |]; [|simpl; lia|exact Hr].
    destruct Hr as (Hne & Hidx & Hlast). split; [exact Hne|].
    split; [exact Hidx|].
    destruct requests as [|q rest]; [simpl in Hlen; lia|].
    rewrite <- Hlast. cbn [last].
    clear. revert q. induction rest as [|q' rest IH]; intros q;
      [reflexivity|]. cbn [last]. apply IH.
Qed.

Lemma generation_loop_last (prompt : string) (sent : list string) :
  stage_shape 1 prompt sent
    (generation_loop json_loads sample int_of_json [2] prompt sent).
Proof.
  cbn [generation_loop].
  destruct (attempt_body json_loads sample int_of_json 2 prompt
              (List.length sent)) as [ts|p1|e] eqn:E.
  - exists [prompt]. destruct (attempt_body_break _ _ _ _ E) as [Hne Hidx].
    cbn [fst snd]. repeat split; auto.
  - destruct (attempt_body_continue _ _ _ _ E) as [H _]. discriminate H.
  - exists [prompt]. change (2 <? max_retries - 1) with false.
    cbn [fst snd]. repeat split; auto.
Qed.

Lemma generation_loop_second (prompt : string) (sent : list string) :
  stage_shape 2 prompt sent
    (generation_loop json_loads sample int_of_json [1; 2] prompt sent).
Proof.
  cbn [generation_loop].
  destruct (attempt_body json_loads sample int_of_json 1 prompt
              (List.length sent)) as [ts|p1|e] eqn:E.
  - exists [prompt]. destruct (attempt_body_break _ _ _ _ E) as [Hne Hidx].
    cbn [fst snd]. repeat split; auto.
  - apply stage_shape_later with (prompt1 := p1); [lia|].
    exact (generation_loop_last p1 (sent ++ [prompt])).
  - change (1 <? max_retries - 1) with true. cbv iota.
    apply stage_shape_later with (prompt1 := prompt); [lia|].
    exact (generation_loop_last prompt (sent ++ [prompt])).
Qed.

Lemma generation_stage_shape (prompt : string) (sent : list string) :
  stage_shape 3 prompt sent
    (generation_stage json_loads sample int_of_json prompt sent).
Proof.
  unfold generation_stage, attempts_range. cbn [generation_loop].
  destruct (attempt_body json_loads sample int_of_json 0 prompt
              (List.length sent)) as [ts|p1|e] eqn:E.
  - exists [prompt]. destruct (attempt_body_break _ _ _ _ E) as [Hne Hidx].
    cbn [fst snd]. repeat split; auto.
  - apply stage_shape_later with (prompt1 := p1); [lia|].
    exact (generation_loop_second p1 (sent ++ [prompt])).
  - change (0 <? max_retries - 1) with true. cbv iota.
    apply stage_shape_later with (prompt1 := prompt); [lia|].
    exact (generation_loop_second prompt (sent ++ [prompt])).
Qed.

End StageFacts.

(** X9. Whatever the service answers, the generation stage sends at least
    one and at most three requests, the first with the prompt as given.  It
    ends with a non-empty list of tasks numbered from 0 in order, the prompt
    it leaves being the last request sent, or, after all three requests,
    with a failure; the loop is never left without one of the two, so
    [new_plan] never returns its "No valid tasks generated" report. *)
Theorem generation_stage_bounded (json_loads : string -> loads_result)
  (sample : nat -> string -> sample_result) (int_of_json : json -> option Z)
  (prompt : string) (sent : list string) :
  (exists requests,
      snd (generation_stage json_loads sample int_of_json prompt sent)
      = (sent ++ requests)%list
      /\ (1 <= List.length requests <= 3)%nat
      /\ hd_error requests = Some prompt
      /\ match fst (generation_stage json_loads sample int_of_json prompt sent)
         with
         | Generated ts p =>
             ts <> []
             /\ map Task.order_index ts = map Z.of_nat (seq 0 (List.length ts))
             /\ last requests prompt = p
         | Failed _ => List.length requests = 3%nat
         | Exhausted _ => False
         end)
  /\ forall clock dumps_tasks w title description category goal confirmation,
       fst (fst (generate_and_commit clock json_loads sample int_of_json
                   dumps_tasks w title description category goal prompt
                   confirmation sent))
       <> NoValidTasks.
Proof.
  pose proof (generation_stage_shape json_loads sample int_of_json prompt sent)
    as H.
  split; [exact H|].
  intros clock dumps_tasks w title description category goal confirmation.
  unfold generate_and_commit.
  destruct H as (requests & _ & _ & _ & Hr).
  destruct (generation_stage json_loads sample int_of_json prompt sent)
    as [[ts p|e|p] sent1]; cbn [fst] in Hr.
  - destruct Hr as [Hne _]. destruct ts as [|t ts]; [now destruct Hne|].
    destruct (Plan_new _); [|discriminate].
    unfold confirm_and_commit.
    destruct (String.eqb (action confirmation) "cancel"); [discriminate|].
    destruct (String.eqb (action confirmation) "accept").
    + destruct (is_cancel_reply _); [discriminate|].
      destruct (wants_regeneration _).
      * destruct (regenerate _ _ _ _ _ _ _ _). destruct (create_plan _ _ _).
        discriminate.
      * destruct (create_plan _ _ _). discriminate.
    + destruct (create_plan _ _ _). discriminate.
  - discriminate.
  - destruct Hr.
Qed.

(** X10. An exception of the service is retried with the prompt unchanged:
    when the three requests of the stage all raise, the same prompt has been
    sent three times, and [new_plan] reports the message of the third
    exception and leaves the store as it was. *)
Theorem service_errors_keep_prompt
  (clock : nat -> Z) (json_loads : string -> loads_result)
  (sample : nat -> string -> sample_result)
  (int_of_json : json -> option Z) (dumps_tasks : list Task.t -> string)
  (w : World) (title : string) (description : option string)
  (category : PlanCategory) (goal prompt : string)
  (confirmation : elicit_result) (sent : list string) (e0 e1 e2 : string) :
  sample (List.length sent) prompt = SampleError e0 ->
  sample (S (List.length sent)) prompt = SampleError e1 ->
  sample (S (S (List.length sent))) prompt = SampleError e2 ->
  generation_stage json_loads sample int_of_json prompt sent
  = (Failed e2, (sent ++ [prompt; prompt; prompt])%list)
  /\ generate_and_commit clock json_loads sample int_of_json dumps_tasks
       w title description category goal prompt confirmation sent
     = (GenerationFailed e2, w, (sent ++ [prompt; prompt; prompt])%list).
Proof.
  intros H0 H1 H2.
  assert (E : generation_stage json_loads sample int_of_json prompt sent
              = (Failed e2, (sent ++ [prompt; prompt; prompt])%list)).
  { unfold generation_stage, attempts_range. cbn [generation_loop].
    unfold attempt_body at 1. rewrite H0.
    change (0 <? max_retries - 1) with true. cbv iota.
    unfold attempt_body at 1.
    replace (List.length (sent ++ [prompt])) with (S (List.length sent))
      by (rewrite length_app; simpl; lia).
    rewrite H1.
    change (1 <? max_retries - 1) with true. cbv iota.
    unfold attempt_body at 1.
    replace (List.length ((sent ++ [prompt]) ++ [prompt]))
      with (S (S (List.length sent)))
      by (rewrite !length_app; simpl; lia).
    rewrite H2.
    change (2 <? max_retries - 1) with false. cbv iota.
    now rewrite <- !app_assoc. }
  split; [exact E|].
  unfold generate_and_commit. now rewrite E.
Qed.

Lemma service_errors_keep_prompt_witness :
  generate_and_commit demo_clock JsonRef.loads unreachable_service
    demo_int_of_json demo_dumps_tasks sample_world "Trip" None PERSONAL
    "See the coast" "PROMPT" (mkElicit "accept" (Some "yes")) []
  = (GenerationFailed "connection lost, request 2", sample_world,
     ([] ++ ["PROMPT"; "PROMPT"; "PROMPT"])%list).
Proof.
  exact (proj2 (service_errors_keep_prompt demo_clock JsonRef.loads
                  unreachable_service demo_int_of_json demo_dumps_tasks
                  sample_world "Trip" None PERSONAL "See the coast" "PROMPT"
                  (mkElicit "accept" (Some "yes")) []
                  "connection lost, request 0" "connection lost, request 1"
                  "connection lost, request 2"
                  eq_refl eq_refl eq_refl)).
Defined.

(** ** Confirmation, for any answer *)

Section AnswerFacts.

Variable clock : nat -> Z.
Variable json_loads : string -> loads_result.
Variable sample : nat -> string -> sample_result.
Variable int_of_json : json -> option Z.
Variable dumps_tasks : list Task.t -> string.

Lemma regenerate_cases (plan : Plan.t) (prompt reply : string)
  (sent : list string) :
  let plan' :=
    fst (regenerate json_loads sample int_of_json dumps_tasks plan prompt reply
           sent) in
  plan' = plan
  \/ exists ts,
       ts <> []
       /\ map Task.order_index ts = map Z.of_nat (seq 0 (List.length ts))
       /\ plan' = with_tasks plan ts.
Proof.
  unfold regenerate. destruct (sample _ _) as [text|e]; [|now left].
  destruct (_extract_json_from_text json_loads text "array")
    as [new_tasks_data|e]; [|now left].
  destruct (truthy_opt _ && is_list_opt _) eqn:Hu; [|now left].
  destruct (create_tasks_from _ _ _) as [ts|e] eqn:Hc; [|now left].
  right. exists ts. cbn [fst].
  apply andb_prop in Hu. destruct Hu as [Ht Hl].
  assert (Hne : items_of new_tasks_data <> []).
  { destruct new_tasks_data as [[| | | | |[|x l]|]|]; try discriminate. }
  destruct (created_positions int_of_json _ _ Hne Hc) as [H1 H2].
  now repeat split.
Qed.

Lemma create_plan_grows (w : World) (p : Plan.t) :
  List.length (plans (snd (create_plan clock w p))) = S (List.length (plans w))
  /\ List.length (tasks (snd (create_plan clock w p)))
     = (List.length (tasks w) + List.length (Plan.tasks p))%nat.
Proof.
  rewrite create_plan_world. cbn [plans tasks].
  rewrite !length_app, rows_from_length. simpl. lia.
Qed.

End AnswerFacts.

Lemma confirm_and_commit_cases
  (clock : nat -> Z) (json_loads : string -> loads_result)
  (sample : nat -> string -> sample_result)
  (int_of_json : json -> option Z) (dumps_tasks : list Task.t -> string)
  (w : World) (plan : Plan.t) (prompt : string) (confirmation : elicit_result)
  (sent : list string) :
  let r := confirm_and_commit clock json_loads sample int_of_json dumps_tasks
             w plan prompt confirmation sent in
  let message := regeneration_message dumps_tasks prompt (Plan.tasks plan)
                   (user_response_of confirmation) in
  r = (Cancelled, w, sent)
  \/ exists committed sent',
       r = (Created (fst (create_plan clock w committed)),
            snd (create_plan clock w committed), sent')
       /\ ((committed = plan
            /\ (sent' = sent \/ sent' = (sent ++ [message])%list))
           \/ (exists ts,
                  ts <> []
                  /\ map Task.order_index ts
                     = map Z.of_nat (seq 0 (List.length ts))
                  /\ committed = with_tasks plan ts)
              /\ sent' = (sent ++ [message])%list)
       /\ List.length (plans (snd (create_plan clock w committed)))
          = S (List.length (plans w))
       /\ List.length (tasks (snd (create_plan clock w committed)))
          = (List.length (tasks w) + List.length (Plan.tasks committed))%nat.
Proof.
  intros r message. subst r. unfold confirm_and_commit.
  destruct (String.eqb (action confirmation) "cancel"); [now left|].
  assert (Hplain :
    (let (created_plan, w') := create_plan clock w plan in
     (Created created_plan, w', sent)) = (Cancelled, w, sent)
    \/ exists committed sent',
         (let (created_plan, w') := create_plan clock w plan in
          (Created created_plan, w', sent))
         = (Created (fst (create_plan clock w committed)),
            snd (create_plan clock w committed), sent')
         /\ ((committed = plan
              /\ (sent' = sent \/ sent' = (sent ++ [message])%list))
             \/ (exists ts,
                    ts <> []
                    /\ map Task.order_index ts
                       = map Z.of_nat (seq 0 (List.length ts))
                    /\ committed = with_tasks plan ts)
                /\ sent' = (sent ++ [message])%list)
         /\ List.length (plans (snd (create_plan clock w committed)))
            = S (List.length (plans w))
         /\ List.length (tasks (snd (create_plan clock w committed)))
            = (List.length (tasks w) + List.length (Plan.tasks committed))%nat).
  { right. exists plan, sent. split.
    - now destruct (create_plan clock w plan).
    - split; [left; split; [reflexivity|now left]|].
      apply create_plan_grows. }
  destruct (String.eqb (action confirmation) "accept"); [|exact Hplain].
  destruct (is_cancel_reply _); [now left|].
  destruct (wants_regeneration _); [|exact Hplain].
  clear Hplain. right.
  pose proof (regenerate_sends_one json_loads sample int_of_json dumps_tasks
                plan prompt (user_response_of confirmation) sent) as Hs.
  pose proof (regenerate_cases json_loads sample int_of_json dumps_tasks
                plan prompt (user_response_of confirmation) sent) as Hc.
  cbv zeta in Hc.
  destruct (regenerate json_loads sample int_of_json dumps_tasks plan prompt
              (user_response_of confirmation) sent) as [plan' sent'].
  cbn [fst snd] in Hs, Hc. fold message in Hs.
  exists plan', sent'. split.
  - now destruct (create_plan clock w plan').
  - split; [|apply create_plan_grows].
    destruct Hc as [-> | Hts].
    + left. split; [reflexivity|now right].
    + right. split; [exact Hts|exact Hs].
Qed.

(** X11. From the preview on, [new_plan] either cancels, with the store and
    the service untouched, or commits exactly one plan: the plan shown, or
    the plan shown with its tasks replaced by a non-empty list numbered from
    0, which happens only after the one regeneration request.  A failed or
    unusable regeneration is not an error: the plan shown is committed.  The
    store gains one plan row and one task row per task of the committed
    plan. *)
Theorem confirmation_commits_or_cancels
  (clock : nat -> Z) (json_loads : string -> loads_result)
  (sample : nat -> string -> sample_result)
  (int_of_json : json -> option Z) (dumps_tasks : list Task.t -> string)
  (w : World) (plan : Plan.t) (prompt : string) (confirmation : elicit_result)
  (sent : list string) :
  let r := confirm_and_commit clock json_loads sample int_of_json dumps_tasks
             w plan prompt confirmation sent in
  let message := regeneration_message dumps_tasks prompt (Plan.tasks plan)
                   (user_response_of confirmation) in
  r = (Cancelled, w, sent)
  \/ exists committed sent',
       r = (Created (fst (create_plan clock w committed)),
            snd (create_plan clock w committed), sent')
       /\ ((committed = plan
            /\ (sent' = sent \/ sent' = (sent ++ [message])%list))
           \/ (exists ts,
                  ts <> []
                  /\ map Task.order_index ts
                     = map Z.of_nat (seq 0 (List.length ts))
                  /\ committed = with_tasks plan ts)
              /\ sent' = (sent ++ [message])%list)
       /\ List.length (plans (snd (create_plan clock w committed)))
          = S (List.length (plans w))
       /\ List.length (tasks (snd (create_plan clock w committed)))
          = (List.length (tasks w) + List.length (Plan.tasks committed))%nat.
Proof.
  exact (confirm_and_commit_cases clock json_loads sample int_of_json
           dumps_tasks w plan prompt confirmation sent).
Qed.

(** X12. A preview that is answered with any action other than "cancel" and
    "accept" (a declined one, for instance), or accepted with no text or
    with the empty text, commits the plan shown without calling the
    service. *)
Theorem declined_preview_is_saved
  (clock : nat -> Z) (json_loads : string -> loads_result)
  (sample : nat -> string -> sample_result)
  (int_of_json : json -> option Z) (dumps_tasks : list Task.t -> string)
  (w : World) (plan : Plan.t) (prompt : string) (confirmation : elicit_result)
  (sent : list string) :
  action confirmation <> "cancel" ->
  (action confirmation <> "accept"
   \/ data confirmation = None
   \/ data confirmation = Some "") ->
  confirm_and_commit clock json_loads sample int_of_json dumps_tasks
    w plan prompt confirmation sent
  = (Created (fst (create_plan clock w plan)),
     snd (create_plan clock w plan), sent).
Proof.
  intros Hc Hd. unfold confirm_and_commit.
  destruct (String.eqb_spec (action confirmation) "cancel") as [E|_];
    [now destruct Hc|].
  assert (Hplain :
    (let (created_plan, w') := create_plan clock w plan in
     (Created created_plan, w', sent))
    = (Created (fst (create_plan clock w plan)),
       snd (create_plan clock w plan), sent)).
  { now destruct (create_plan clock w plan). }
  destruct (String.eqb_spec (action confirmation) "accept") as [E|_];
    [|exact Hplain].
  assert (Hu : user_response_of confirmation = "").
  { unfold user_response_of.
    destruct Hd as [Hd | [-> | ->]]; [now destruct Hd|reflexivity|reflexivity]. }
  rewrite Hu.
  change (is_cancel_reply "") with false.
  change (wants_regeneration "") with false.
  cbv iota. exact Hplain.
Qed.

Lemma declined_preview_is_saved_witness :
  confirm_and_commit demo_clock JsonRef.loads one_task_service
    demo_int_of_json demo_dumps_tasks empty_world sample_plan "PROMPT"
    (mkElicit "decline" None) []
  = (Created (fst (create_plan demo_clock empty_world sample_plan)),
     snd (create_plan demo_clock empty_world sample_plan), []).
Proof.
  apply (declined_preview_is_saved demo_clock JsonRef.loads one_task_service
           demo_int_of_json demo_dumps_tasks empty_world sample_plan "PROMPT"
           (mkElicit "decline" None) []).
  - simpl. discriminate.
  - left. simpl. discriminate.
Defined.

(** * Properties of the tools *)

Lemma find_update_first_none {A : Type} (g f : A -> bool) (u : A -> A)
  (l : list A) :
  (forall x, g (u x) = g x) ->
  List.find g l = None -> List.find g (update_first f u l) = None.
Proof.
  intros Hg. induction l as [|x rest IH]; simpl; [reflexivity|].
  destruct (g x) eqn:Hx; [discriminate|]. intros Hr.
  destruct (f x); simpl.
  - now rewrite Hg, Hx.
  - rewrite Hx. now apply IH.
Qed.

Section ToolFacts.

Variable clock : nat -> Z.
Variable json_loads : string -> loads_result.

Lemma progress_step_absent (w : World) (pid q : Z) :
  first_plan w q = None ->
  first_plan (_update_plan_progress clock w pid) q = None.
Proof.
  unfold _update_plan_progress, first_plan, now. intros Hq.
  destruct (List.find (plan_has_id pid) (plans w)); [|exact Hq].
  cbn [plans]. now apply find_update_first_none.
Qed.

Lemma progress_fold_absent (pids : list Z) (w : World) (q : Z) :
  first_plan w q = None ->
  first_plan (fold_left (_update_plan_progress clock) pids w) q = None.
Proof.
  revert w. induction pids as [|pid rest IH]; intros w Hq; [exact Hq|].
  simpl. apply IH. now apply progress_step_absent.
Qed.

Lemma get_plan_absent (w : World) (plan_id : Z) :
  first_plan w plan_id = None -> get_plan json_loads w plan_id = Returned None.
Proof. unfold get_plan. now intros ->. Qed.

End ToolFacts.

(** X13. The [update_task_status] tool does not check its [plan_id] against
    the tasks: the store it leaves is the same for every [plan_id].  An
    unknown status word is reported and leaves the store untouched; a known
    one that matches no task row is reported as a failure, with the rows as
    they were.  When task rows match and no plan has the key [plan_id], every
    task row named has the new status although the reply is "Tasks updated,
    but couldn't retrieve plan details." *)
Theorem tool_update_task_status_plan_id_unchecked
  (clock : nat -> Z) (json_loads : string -> loads_result) (w : World)
  (plan_id : Z) (task_ids : list Z) (status : string) (notes : option string) :
  let r := Tool.update_task_status clock json_loads w plan_id task_ids status
             notes in
  (forall other,
      snd (Tool.update_task_status clock json_loads w other task_ids status
             notes) = snd r)
  /\ (TaskStatus_of_value status = None ->
      r = (Returned (InvalidStatus status), w))
  /\ (TaskStatus_of_value status <> None ->
      filter (targeted task_ids) (tasks w) = [] ->
      r = (Returned UpdateFailed, mkWorld (plans w) (tasks w) (S (ticks w))))
  /\ (TaskStatus_of_value status <> None ->
      filter (targeted task_ids) (tasks w) <> [] ->
      first_plan w plan_id = None ->
      fst r = Returned UpdatedWithoutDetails
      /\ List.length (tasks (snd r)) = List.length (tasks w)
      /\ forall t, In t (tasks (snd r)) -> In (TaskModel.id t) task_ids ->
                   TaskModel.status t = status).
Proof.
  intros r. subst r. unfold Tool.update_task_status.
  destruct (TaskStatus_of_value status) as [s|] eqn:Hs.
  - split; [|split; [discriminate|split]].
    + intros other.
      destruct (update_task_status clock w task_ids s notes) as [[|] w1];
        reflexivity.
    + intros _ Hnone. now rewrite (update_task_status_unmatched _ _ _ _ _ Hnone).
    + intros _ Hsome Hp.
      rewrite (update_task_status_matched _ _ _ _ _ Hsome).
      cbn [negb fst snd].
      rewrite get_plan_absent by (now apply progress_fold_absent).
      split; [reflexivity|].
      rewrite progress_fold_tasks. cbn [tasks].
      split; [apply length_map|].
      intros t Ht Hid. apply in_map_iff in Ht.
      destruct Ht as (t0 & <- & _).
      destruct (targeted task_ids t0) eqn:Ht0.
      * cbn [set_task_status TaskModel.status].
        exact (lookup_by_value_value _ _ _ _ Hs).
      * unfold targeted in Ht0. apply mem_Z_In in Hid. rewrite Ht0 in Hid.
        discriminate.
  - split; [reflexivity|]. split; [reflexivity|].
    split; intros H; now destruct H.
Qed.

Lemma tool_update_task_status_plan_id_unchecked_witness :
  fst (Tool.update_task_status demo_clock JsonRef.loads sample_world 7 [1]
         "completed" None)
  = Returned UpdatedWithoutDetails
  /\ forall t,
       In t (tasks (snd (Tool.update_task_status demo_clock JsonRef.loads
                           sample_world 7 [1] "completed" None))) ->
       In (TaskModel.id t) [1] -> TaskModel.status t = "completed".
Proof.
  destruct (proj2 (proj2 (proj2
             (tool_update_task_status_plan_id_unchecked demo_clock
                JsonRef.loads sample_world 7 [1] "completed" None))))
    as (H1 & _ & H3).
  - discriminate.
  - discriminate.
  - reflexivity.
  - split; [exact H1 | exact H3].
Defined.

Section UpdatePlanFacts.

Variable clock : nat -> Z.
Variable json_loads : string -> loads_result.

Lemma titled_task_returns (plan_id : Z) (task_title : string) :
  len_between 1 200 task_title = true ->
  Tool.titled_task plan_id task_title
  = Returned (Task.mk None plan_id task_title None PENDING MEDIUM 0 [] None
                None None).
Proof.
  intros H. unfold Tool.titled_task, Task_new, Task_valid.
  cbn [Task.title Task.description opt_len_at_most]. now rewrite H.
Qed.

Lemma titled_task_raises (plan_id : Z) (task_title : string) :
  len_between 1 200 task_title = false ->
  exists e, Tool.titled_task plan_id task_title = Raised e.
Proof.
  intros H. unfold Tool.titled_task, Task_new, Task_valid.
  cbn [Task.title Task.description opt_len_at_most]. rewrite H.
  eexists. reflexivity.
Qed.

Lemma titled_tasks_return (plan_id : Z) (titles : list string) :
  Forall (fun s => len_between 1 200 s = true) titles ->
  map_outcome (Tool.titled_task plan_id) titles
  = Returned (map (fun s => Task.mk None plan_id s None PENDING MEDIUM 0 []
                              None None None) titles).
Proof.
  induction 1 as [|s rest Hs _ IH]; [reflexivity|].
  cbn [map_outcome map]. rewrite (titled_task_returns _ _ Hs), IH. reflexivity.
Qed.

Lemma titled_tasks_raise (plan_id : Z) (titles : list string) :
  Exists (fun s => len_between 1 200 s = false) titles ->
  exists e, map_outcome (Tool.titled_task plan_id) titles = Raised e.
Proof.
  induction 1 as [s rest Hs | s rest _ IH]; cbn [map_outcome].
  - destruct (titled_task_raises plan_id s Hs) as [e ->].
    eexists. reflexivity.
  - destruct (Tool.titled_task plan_id s); [|eexists; reflexivity].
    cbn [bind_outcome]. destruct IH as [e ->]. eexists. reflexivity.
Qed.

Lemma rows_from_titles (first_id : Z) (first_tick : nat) (first_index pid : Z)
  (l : list Task.t) :
  map TaskModel.title (rows_from clock first_id first_tick first_index pid l)
  = map Task.title l
  /\ Forall (fun t => TaskModel.plan_id t = pid)
       (rows_from clock first_id first_tick first_index pid l).
Proof.
  revert first_id first_tick first_index.
  induction l as [|t rest IH]; intros first_id first_tick first_index;
    cbn [rows_from map]; [now split|].
  destruct (IH (first_id + 1) (S first_tick) (first_index + 1)) as [H1 H2].
  split; [now rewrite H1|]. constructor; [reflexivity|exact H2].
Qed.

End UpdatePlanFacts.

(** X14. The [update_plan] tool called with no title or the empty title,
    with no description or the empty description, and with no new tasks or
    the empty list, leaves the store as it was; it still answers "Plan
    updated successfully!" when the plan can be read.  So an empty
    description alone does not clear the stored one. *)
Theorem tool_update_plan_without_changes
  (clock : nat -> Z) (json_loads : string -> loads_result) (w : World)
  (plan_id : Z) (title description : option string)
  (new_tasks : option (list string)) (additional_context : option string) :
  title = None \/ title = Some "" ->
  description = None \/ description = Some "" ->
  new_tasks = None \/ new_tasks = Some [] ->
  let r := Tool.update_plan clock json_loads w plan_id title description
             new_tasks additional_context in
  snd r = w
  /\ (first_plan w plan_id = None -> fst r = Returned PlanNotFound)
  /\ (forall p, get_plan json_loads w plan_id = Returned (Some p) ->
                fst r = Returned (PlanUpdated p)).
Proof.
  intros Ht Hd Hn r. subst r. unfold Tool.update_plan.
  assert (Eg : given title || given description = false).
  { destruct Ht as [-> | ->], Hd as [-> | ->]; reflexivity. }
  rewrite Eg.
  assert (En : match new_tasks with
               | None | Some [] => Returned w
               | Some titles =>
                   bind_outcome
                     (map_outcome (Tool.titled_task plan_id) titles)
                     (fun tasks =>
                        Returned (snd (add_tasks_to_plan clock w plan_id tasks)))
               end = Returned w).
  { destruct Hn as [-> | ->]; reflexivity. }
  rewrite En. cbn [fst snd]. split; [reflexivity|]. split.
  - intros Hp. now rewrite (get_plan_absent json_loads w plan_id Hp).
  - intros p ->. reflexivity.
Qed.

Lemma tool_update_plan_without_changes_witness :
  snd (Tool.update_plan demo_clock JsonRef.loads sample_world 1 None (Some "")
         (Some []) None) = sample_world.
Proof.
  apply (tool_update_plan_without_changes demo_clock JsonRef.loads sample_world
           1 None (Some "") (Some []) None).
  - now left.
  - now right.
  - now right.
Defined.

(** X15. The [update_plan] tool is not atomic: with a non-empty title for a
    stored plan and a list of new task titles one of which is empty or
    longer than 200 characters, the call raises, no task row is added (not
    even for the valid titles), and the new title has been stored. *)
Theorem tool_update_plan_not_atomic
  (clock : nat -> Z) (json_loads : string -> loads_result) (w : World)
  (plan_id : Z) (p : PlanModel.t) (title : string)
  (description : option string) (titles : list string)
  (additional_context : option string) :
  first_plan w plan_id = Some p ->
  title <> "" ->
  Exists (fun s => len_between 1 200 s = false) titles ->
  let r := Tool.update_plan clock json_loads w plan_id (Some title) description
             (Some titles) additional_context in
  (exists e, fst r = Raised e)
  /\ tasks (snd r) = tasks w
  /\ exists p', first_plan (snd r) plan_id = Some p'
                /\ PlanModel.title p' = title
                /\ PlanModel.updated_at p' = clock (ticks w).
Proof.
  intros Hp Ht Hbad r. subst r. unfold Tool.update_plan.
  assert (Eg : given (Some title) || given description = true).
  { cbn [given]. apply String.eqb_neq in Ht. now rewrite Ht. }
  rewrite Eg.
  destruct titles as [|s0 rest]; [inversion Hbad|].
  destruct (titled_tasks_raise plan_id (s0 :: rest) Hbad) as [e He].
  rewrite He. cbn [bind_outcome fst snd].
  split; [now exists e|].
  unfold update_plan_info, now. rewrite Hp. cbn [snd tasks plans].
  split; [reflexivity|].
  exists (set_info (Some title) description (clock (ticks w)) p). split.
  - unfold first_plan. cbn [plans]. rewrite find_update_first by reflexivity.
    unfold first_plan in Hp. now rewrite Hp.
  - cbn [set_info PlanModel.title PlanModel.updated_at].
    apply String.eqb_neq in Ht. now rewrite Ht.
Qed.

Lemma tool_update_plan_not_atomic_witness :
  (exists e,
      fst (Tool.update_plan demo_clock JsonRef.loads sample_world 1
             (Some "Renamed") None (Some ["Write report"; ""]) None)
      = Raised e)
  /\ tasks (snd (Tool.update_plan demo_clock JsonRef.loads sample_world 1
                   (Some "Renamed") None (Some ["Write report"; ""]) None))
     = tasks sample_world
  /\ exists p',
       first_plan (snd (Tool.update_plan demo_clock JsonRef.loads sample_world
                          1 (Some "Renamed") None (Some ["Write report"; ""])
                          None)) 1 = Some p'
       /\ PlanModel.title p' = "Renamed"
       /\ PlanModel.updated_at p' = demo_clock (ticks sample_world).
Proof.
  apply (tool_update_plan_not_atomic demo_clock JsonRef.loads sample_world 1
           sample_row "Renamed" None ["Write report"; ""] None).
  - reflexivity.
  - discriminate.
  - apply Exists_cons_tl. apply Exists_cons_hd. reflexivity.
Defined.

(** X16. The [update_plan] tool adds tasks to a plan that does not exist:
    when no plan has the key and the new titles are all valid, the reply is
    "Plan not found." and the plans are as they were, but the tasks table
    has gained one row per title, each naming the missing plan, so the
    foreign key of the tasks table no longer holds. *)
Theorem tool_update_plan_leaves_orphans
  (clock : nat -> Z) (json_loads : string -> loads_result) (w : World)
  (plan_id : Z) (title description : option string) (titles : list string)
  (additional_context : option string) :
  first_plan w plan_id = None ->
  titles <> [] ->
  Forall (fun s => len_between 1 200 s = true) titles ->
  let r := Tool.update_plan clock json_loads w plan_id title description
             (Some titles) additional_context in
  fst r = Returned PlanNotFound
  /\ plans (snd r) = plans w
  /\ (exists rows,
         tasks (snd r) = (tasks w ++ rows)%list
         /\ map TaskModel.title rows = titles
         /\ Forall (fun t => TaskModel.plan_id t = plan_id) rows)
  /\ ~ foreign_key_ok (snd r).
Proof.
  intros Hp Hne Hvalid r. subst r. unfold Tool.update_plan.
  assert (E1 : (if given title || given description
                then snd (update_plan_info clock w plan_id title description)
                else w) = w).
  { destruct (given title || given description); [|reflexivity].
    unfold update_plan_info. now rewrite Hp. }
  rewrite E1.
  destruct titles as [|s0 rest]; [now destruct Hne|].
  rewrite (titled_tasks_return plan_id (s0 :: rest) Hvalid).
  cbn [bind_outcome fst snd].
  set (new := map (fun s => Task.mk None plan_id s None PENDING MEDIUM 0 []
                              None None None) (s0 :: rest)).
  unfold add_tasks_to_plan. cbn [snd].
  rewrite add_tasks_rows.
  set (w1 := mkWorld _ _ _).
  assert (Hp1 : first_plan w1 plan_id = None) by exact Hp.
  assert (E2 : _update_plan_progress clock w1 plan_id = w1).
  { unfold _update_plan_progress. now rewrite Hp1. }
  rewrite E2.
  rewrite (get_plan_absent json_loads w1 plan_id Hp1).
  cbn [bind_outcome]. split; [reflexivity|]. split; [reflexivity|].
  subst w1. cbn [tasks].
  match goal with
  | |- context [rows_from clock ?a ?b ?c plan_id new] =>
      destruct (rows_from_titles clock a b c plan_id new) as [Ht Ho];
      set (rows := rows_from clock a b c plan_id new) in *
  end.
  assert (Etitles : map Task.title new = s0 :: rest).
  { unfold new. rewrite map_map. cbn [Task.title]. apply map_id. }
  split.
  - exists rows. split; [reflexivity|]. split; [now rewrite Ht|exact Ho].
  - intros Hfk. unfold foreign_key_ok in Hfk. cbn [tasks] in Hfk.
    apply Forall_app in Hfk. destruct Hfk as [_ Hfk].
    assert (Hrows : rows <> []).
    { intros E. rewrite E in Ht. rewrite Etitles in Ht. discriminate. }
    destruct rows as [|row rows']; [now destruct Hrows|].
    inversion Hfk as [|? ? Hin _]. inversion Ho as [|? ? Hid _].
    rewrite Hid in Hin.
    exact (first_plan_none w plan_id Hp Hin).
Qed.

Lemma tool_update_plan_leaves_orphans_witness :
  fst (Tool.update_plan demo_clock JsonRef.loads sample_world 9 None None
         (Some ["Write report"]) None) = Returned PlanNotFound
  /\ ~ foreign_key_ok
         (snd (Tool.update_plan demo_clock JsonRef.loads sample_world 9 None
                 None (Some ["Write report"]) None)).
Proof.
  destruct (tool_update_plan_leaves_orphans demo_clock JsonRef.loads
              sample_world 9 None None ["Write report"] None)
    as (H1 & _ & _ & H4).
  - reflexivity.
  - discriminate.
  - repeat constructor.
  - split; [exact H1 | exact H4].
Defined.

Section ReadFacts.

Variable json_loads : string -> loads_result.

Lemma get_plan_present (w : World) (plan_id : Z) (q : Plan.t) :
  get_plan json_loads w plan_id = Returned (Some q) ->
  exists p, first_plan w plan_id = Some p.
Proof.
  unfold get_plan. destruct (first_plan w plan_id) as [p|]; [|discriminate].
  intros _. now exists p.
Qed.

Lemma get_plan_unreadable (w : World) (plan_id : Z) (p : PlanModel.t) :
  first_plan w plan_id = Some p ->
  len_between 1 200 (PlanModel.title p)
  && opt_len_at_most 1000 (PlanModel.description p) = false ->
  exists e, get_plan json_loads w plan_id = Raised e.
Proof.
  intros Hp Hbad. unfold get_plan. rewrite Hp.
  destruct (map_outcome _ _) as [ts|e]; [|eexists; reflexivity].
  cbn [bind_outcome].
  destruct (plan_of_row_checks_lengths p ts Hbad) as [e ->].
  eexists. reflexivity.
Qed.

Lemma map_outcome_length {A B : Type} (f : A -> outcome B) (l : list A)
  (ys : list B) :
  map_outcome f l = Returned ys -> List.length ys = List.length l.
Proof.
  revert ys. induction l as [|x rest IH]; intros ys; cbn [map_outcome].
  - now intros [= <-].
  - destruct (f x); [|discriminate]. cbn [bind_outcome].
    destruct (map_outcome f rest); [|discriminate]. cbn [bind_outcome].
    intros [= <-]. simpl. f_equal. now apply IH.
Qed.

Lemma map_outcome_raises {A B : Type} (f : A -> outcome B) (l : list A)
  (x : A) (e : string) :
  In x l -> f x = Raised e -> exists e', map_outcome f l = Raised e'.
Proof.
  intros Hin Hx. induction l as [|y rest IH]; [destruct Hin|].
  cbn [map_outcome]. destruct Hin as [-> | Hin].
  - rewrite Hx. eexists. reflexivity.
  - destruct (f y); [|eexists; reflexivity]. cbn [bind_outcome].
    destruct (IH Hin) as [e' ->]. eexists. reflexivity.
Qed.

End ReadFacts.

(** X17. The [delete_plan] tool reads the plan before it deletes it.  It
    never answers "Failed to delete plan"; for a key no plan has it answers
    "Plan n not found." and leaves the store as it was; for a plan it can
    read it answers with the plan's title and the store is the one the
    store's [delete_plan] leaves; when reading the plan raises, the tool
    raises and nothing is deleted. *)
Theorem tool_delete_plan_reads_first (json_loads : string -> loads_result)
  (w : World) (plan_id : Z) :
  let r := Tool.delete_plan json_loads w plan_id in
  (forall n, fst r <> Returned (DeleteFailed n))
  /\ (first_plan w plan_id = None ->
      r = (Returned (PlanIdNotFound plan_id), w))
  /\ (forall q, get_plan json_loads w plan_id = Returned (Some q) ->
        r = (Returned (PlanDeleted (Plan.title q) plan_id),
             snd (delete_plan w plan_id))
        /\ first_plan w plan_id <> None
        /\ Forall (fun t => TaskModel.plan_id t <> plan_id) (tasks (snd r))
        /\ List.length (plans (snd r)) = pred (List.length (plans w)))
  /\ (forall e, get_plan json_loads w plan_id = Raised e -> r = (Raised e, w)).
Proof.
  intros r. subst r. unfold Tool.delete_plan.
  split; [|split; [|split]].
  - intros n.
    destruct (get_plan json_loads w plan_id) as [[q|]|e] eqn:Hg;
      try discriminate.
    destruct (get_plan_present json_loads w plan_id q Hg) as [p Hp].
    unfold delete_plan. rewrite Hp. discriminate.
  - intros Hp. now rewrite (get_plan_absent json_loads w plan_id Hp).
  - intros q Hg. rewrite Hg.
    destruct (get_plan_present json_loads w plan_id q Hg) as [p Hp].
    unfold delete_plan. rewrite Hp. cbn [fst snd tasks plans].
    split; [reflexivity|]. split; [discriminate|]. split.
    + apply Forall_forall. intros t Ht. apply filter_In in Ht.
      destruct Ht as [_ Ht]. unfold owned_by in Ht.
      apply negb_true_iff, Z.eqb_neq in Ht. exact Ht.
    + unfold first_plan in Hp.
      destruct (find_split _ _ _ Hp) as (before & after & E & Hx & Hb).
      rewrite E, (delete_first_app _ _ _ _ Hb Hx), !length_app. simpl. lia.
  - intros e ->. reflexivity.
Qed.

(** X18. A title longer than 200 characters given to the [update_plan] tool
    for a stored plan is written to the store, and from then on the plan
    cannot be used through the tools: [update_plan] itself raises when it
    reads the plan back, [get_plan] raises, [delete_plan] raises and leaves
    the plan in the store, and [list_plans] raises for every page that
    holds the plan's row. *)
Theorem overlong_title_locks_plan
  (clock : nat -> Z) (json_loads : string -> loads_result) (w : World)
  (plan_id : Z) (p : PlanModel.t) (title : string) :
  first_plan w plan_id = Some p ->
  (200 < String.length title)%nat ->
  let r := Tool.update_plan clock json_loads w plan_id (Some title) None None
             None in
  let w' := snd r in
  (exists e, fst r = Raised e)
  /\ (exists p',
         first_plan w' plan_id = Some p'
         /\ PlanModel.title p' = title
         /\ forall include_completed page,
              In p' (select_plans w' include_completed page 30) ->
              exists e, Tool.list_plans w' include_completed page = Raised e)
  /\ (exists e, Tool.get_plan json_loads w' plan_id = Raised e)
  /\ (exists e, Tool.delete_plan json_loads w' plan_id = (Raised e, w')).
Proof.
  intros Hp Hlen r w'. subst w' r. unfold Tool.update_plan.
  assert (Ht : String.eqb title "" = false).
  { apply String.eqb_neq. intros ->. simpl in Hlen. lia. }
  assert (Eg : given (Some title) || given None = true).
  { cbn [given]. now rewrite Ht. }
  rewrite Eg. cbn [fst snd].
  set (w1 := snd (update_plan_info clock w plan_id (Some title) None)).
  set (p' := set_info (Some title) None (clock (ticks w)) p).
  assert (Hp1 : first_plan w1 plan_id = Some p').
  { unfold w1, update_plan_info, now. rewrite Hp. cbn [snd].
    unfold first_plan. cbn [plans]. rewrite find_update_first by reflexivity.
    unfold first_plan in Hp. now rewrite Hp. }
  assert (Htitle : PlanModel.title p' = title).
  { unfold p'. cbn [set_info PlanModel.title]. now rewrite Ht. }
  assert (Hbad : len_between 1 200 (PlanModel.title p')
                 && opt_len_at_most 1000 (PlanModel.description p') = false).
  { rewrite Htitle. unfold len_between.
    replace (String.length title <=? 200)%nat with false
      by (symmetry; apply Nat.leb_gt; lia).
    now rewrite andb_false_r. }
  destruct (get_plan_unreadable json_loads w1 plan_id p' Hp1 Hbad) as [e He].
  rewrite He. cbn [bind_outcome fst snd].
  split; [now exists e|]. split; [|split].
  - exists p'. split; [exact Hp1|]. split; [exact Htitle|].
    intros include_completed page Hin.
    destruct (plan_of_row_checks_lengths p' [] Hbad) as [e0 He0].
    unfold Tool.list_plans, get_all_plans.
    destruct (map_outcome_raises (fun plan_model => plan_of_row plan_model [])
                _ p' e0 Hin He0) as [e' ->].
    now exists e'.
  - exists e. unfold Tool.get_plan. now rewrite He.
  - exists e. unfold Tool.delete_plan. now rewrite He.
Qed.

Lemma overlong_title_locks_plan_witness :
  first_plan sample_world 1 = Some sample_row
  /\ (200 < String.length long_title)%nat
  /\ exists e,
       Tool.delete_plan JsonRef.loads
         (snd (Tool.update_plan demo_clock JsonRef.loads sample_world 1
                 (Some long_title) None None None)) 1
       = (Raised e,
          snd (Tool.update_plan demo_clock JsonRef.loads sample_world 1
                 (Some long_title) None None None)).
Proof.
  split; [reflexivity|].
  assert (Hlen : (200 < String.length long_title)%nat)
    by (vm_compute; repeat constructor).
  split; [exact Hlen|].
  exact (proj2 (proj2 (proj2
           (overlong_title_locks_plan demo_clock JsonRef.loads sample_world 1
              sample_row long_title eq_refl Hlen)))).
Defined.

(** X19. The [list_plans] tool shows at most 30 plans of the page it is
    asked for, and a page number of 1 or less (0 and negative numbers
    included) selects the first page.  It answers "No plans found" exactly
    when the page has no row, and raises when a row of the page cannot be
    read as a plan. *)
Theorem tool_list_plans_pages (w : World) (include_completed : bool)
  (page : Z) :
  (page <= 1 ->
   select_plans w include_completed page 30
   = select_plans w include_completed 1 30)
  /\ (forall ps n,
        Tool.list_plans w include_completed page = Returned (PlansListed ps n) ->
        n = page
        /\ (1 <= List.length ps <= 30)%nat
        /\ List.length ps
           = List.length (select_plans w include_completed page 30))
  /\ (forall hint,
        Tool.list_plans w include_completed page = Returned (NoPlansFound hint)
        <-> hint = include_completed
            /\ select_plans w include_completed page 30 = [])
  /\ (forall q e,
        In q (select_plans w include_completed page 30) ->
        plan_of_row q [] = Raised e ->
        exists e', Tool.list_plans w include_completed page = Raised e').
Proof.
  split; [|split; [|split]].
  - intros Hpage. unfold select_plans, offset_limit.
    replace (Z.to_nat ((page - 1) * 30)) with 0%nat by lia.
    replace (Z.to_nat ((1 - 1) * 30)) with 0%nat by lia.
    reflexivity.
  - intros ps n. unfold Tool.list_plans, get_all_plans.
    destruct (map_outcome _ _) as [l|e] eqn:Hm; [|discriminate].
    cbn [bind_outcome]. apply map_outcome_length in Hm.
    destruct l as [|x l]; [discriminate|]. intros [= <- <-].
    split; [reflexivity|]. rewrite Hm. split; [|reflexivity].
    split; [rewrite <- Hm; simpl; lia|].
    unfold select_plans, offset_limit. change (30 <? 0) with false. cbv iota.
    apply firstn_le_length.
  - intros hint. unfold Tool.list_plans, get_all_plans. split.
    + destruct (map_outcome _ _) as [l|e] eqn:Hm; [|discriminate].
      cbn [bind_outcome]. apply map_outcome_length in Hm.
      destruct l as [|x l]; [|discriminate]. intros [= <-].
      split; [reflexivity|].
      destruct (select_plans w include_completed page 30); [reflexivity|].
      discriminate.
    + intros [-> ->]. reflexivity.
  - intros q e Hin Hq. unfold Tool.list_plans, get_all_plans.
    destruct (map_outcome_raises (fun plan_model => plan_of_row plan_model [])
                _ q e Hin Hq) as [e' ->].
    now exists e'.
Qed.

(** * Properties of [new_plan] as a whole *)

Section NewPlanFacts.

Variable clock : nat -> Z.
Variable json_loads : string -> loads_result.
Variable sample : nat -> string -> sample_result.
Variable int_of_json : json -> option Z.
Variable dumps_tasks : list Task.t -> string.
Variable float_truthy : string -> bool.
Variable get_planning_prompt : string -> PlanCategory -> string -> string -> string.

Lemma needs_clarification_default (text : string) :
  (forall v, _extract_json_from_text json_loads text "object"
             <> Returned (Some v)) ->
  needs_clarification json_loads float_truthy text <> Some true.
Proof.
  unfold needs_clarification. intros Hnone.
  destruct (_extract_json_from_text json_loads text "object") as [[v|]|e];
    [now destruct (Hnone v)|discriminate|discriminate].
Qed.

Lemma analysis_stage_cases (title goal category : string)
  (description additional_context : option string)
  (clarification : elicit_result) (sent : list string) :
  let message :=
    analysis_prompt title goal category description additional_context in
  let context0 := or_default additional_context "" in
  let r := analysis_stage json_loads sample float_truthy title goal category
             description additional_context clarification sent in
  snd r = (sent ++ [message])%list
  /\ (fst r = context0
      \/ exists d text,
           d <> "" /\ data clarification = Some d
           /\ action clarification = "accept"
           /\ sample (List.length sent) message = Sampled text
           /\ needs_clarification json_loads float_truthy text = Some true
           /\ fst r = clarified context0 d)
  /\ ((exists e, sample (List.length sent) message = SampleError e) ->
      fst r = context0)
  /\ (forall text, sample (List.length sent) message = Sampled text ->
                   (forall v, _extract_json_from_text json_loads text "object"
                              <> Returned (Some v)) ->
                   fst r = context0)
  /\ (action clarification <> "accept" -> fst r = context0).
Proof.
  intros message context0 r. subst r. unfold analysis_stage.
  fold message. fold context0.
  destruct (sample (List.length sent) message) as [text|e] eqn:Hs.
  - destruct (needs_clarification json_loads float_truthy text)
      as [[|]|] eqn:Hn.
    + destruct (String.eqb_spec (action clarification) "accept") as [Ha|Ha].
      * destruct (data clarification) as [d|] eqn:Hd; cbn [given andb].
        -- destruct (String.eqb_spec d "") as [->|Hne]; cbn [negb fst snd].
           ++ repeat split; auto.
           ++ split; [reflexivity|]. split.
              { right. exists d, text. cbn [or_default].
                apply String.eqb_neq in Hne. rewrite Hne.
                apply String.eqb_neq in Hne. now repeat split. }
              split; [intros [e He]; discriminate|]. split.
              { intros text' [= <-] Hnone.
                now destruct (needs_clarification_default _ Hnone). }
              { intros Hna. now destruct Hna. }
        -- cbn [fst snd]. repeat split; auto.
      * cbn [andb fst snd]. repeat split; auto.
    + cbn [fst snd]. repeat split; auto.
    + cbn [fst snd]. repeat split; auto.
  - cbn [fst snd]. repeat split; auto.
Qed.

Lemma Plan_new_returns (p q : Plan.t) :
  Plan_new p = Returned q ->
  q = p
  /\ len_between 1 200 (Plan.title p)
     && opt_len_at_most 1000 (Plan.description p)
     && len_between 1 500 (Plan.goal p) = true.
Proof.
  unfold Plan_new. destruct (_ && _ && _); [|discriminate].
  intros [= <-]. now split.
Qed.

Lemma Plan_new_raises (p : Plan.t) (e : string) :
  Plan_new p = Raised e ->
  len_between 1 200 (Plan.title p)
  && opt_len_at_most 1000 (Plan.description p)
  && len_between 1 500 (Plan.goal p) = false.
Proof.
  unfold Plan_new. destruct (_ && _ && _); [discriminate|reflexivity].
Qed.

Lemma generate_and_commit_cases (w : World) (title : string)
  (description : option string) (category : PlanCategory)
  (goal prompt : string) (confirmation : elicit_result) (sent : list string) :
  let r := generate_and_commit clock json_loads sample int_of_json dumps_tasks
             w title description category goal prompt confirmation sent in
  let fields_valid :=
    len_between 1 200 title && opt_len_at_most 1000 description
    && len_between 1 500 goal in
  exists requests,
    snd r = (sent ++ requests)%list
    /\ (1 <= List.length requests <= 4)%nat
    /\ hd_error requests = Some prompt
    /\ ((snd (fst r) = w
         /\ (fst (fst r) = Cancelled
             \/ (exists e, fst (fst r) = GenerationFailed e)
             \/ (exists e, fst (fst r) = Unhandled e)
                /\ fields_valid = false))
        \/ exists committed,
             fst r = (Created (fst (create_plan clock w committed)),
                      snd (create_plan clock w committed))
             /\ fields_valid = true
             /\ Plan.title committed = title
             /\ Plan.description committed = description
             /\ Plan.category committed = category
             /\ Plan.goal committed = goal
             /\ Plan.status committed = PENDING
             /\ Plan.tasks committed <> []).
Proof.
  intros r fields_valid. subst r. unfold generate_and_commit.
  destruct (generation_stage_shape json_loads sample int_of_json prompt sent)
    as (requests & Hs & Hlen & Hhd & Hr).
  destruct (generation_stage json_loads sample int_of_json prompt sent)
    as [[ts p|e|p] sent1]; cbn [fst snd] in Hs, Hr; subst sent1.
  - destruct Hr as (Hne & _ & _).
    destruct ts as [|t ts]; [now destruct Hne|].
    set (tasks0 := t :: ts) in *.
    destruct (Plan_new _) as [plan|e] eqn:Hplan.
    + apply Plan_new_returns in Hplan. destruct Hplan as [-> Hvalid].
      cbn [Plan.title Plan.description Plan.goal] in Hvalid.
      match goal with
      | |- context [confirm_and_commit _ _ _ _ _ _ ?pl _ _ _] =>
          set (plan := pl) in *
      end.
      destruct (confirm_and_commit_cases clock json_loads sample int_of_json
                  dumps_tasks w plan p confirmation (sent ++ requests))
        as [Hc | (committed & sent' & Hc & Hwhich & _)]; rewrite Hc;
        cbn [fst snd].
      * exists requests. split; [reflexivity|]. split; [lia|].
        split; [exact Hhd|]. left. split; [reflexivity|now left].
      * assert (Hfields :
                  Plan.title committed = title
                  /\ Plan.description committed = description
                  /\ Plan.category committed = category
                  /\ Plan.goal committed = goal
                  /\ Plan.status committed = PENDING
                  /\ Plan.tasks committed <> []).
        { destruct Hwhich as [[-> _] | [(ts' & Hne' & _ & ->) _]].
          - unfold plan. cbn. repeat split; auto.
          - unfold with_tasks, plan. cbn. repeat split; auto. }
        assert (Hsent : exists more,
                   sent' = ((sent ++ requests) ++ more)%list
                   /\ (List.length more <= 1)%nat).
        { destruct Hwhich as [[_ [-> | ->]] | [_ ->]].
          - exists []. split; [now rewrite app_nil_r | simpl; lia].
          - eexists. split; [reflexivity|]. simpl. lia.
          - eexists. split; [reflexivity|]. simpl. lia. }
        destruct Hsent as (more & -> & Hmore).
        exists (requests ++ more)%list.
        split; [now rewrite app_assoc|].
        split; [rewrite length_app; lia|]. split.
        { destruct requests; [simpl in Hlen; lia|exact Hhd]. }
        right. exists committed. split; [reflexivity|].
        split; [exact Hvalid|]. exact Hfields.
    + apply Plan_new_raises in Hplan.
      cbn [Plan.title Plan.description Plan.goal] in Hplan. cbn [fst snd].
      exists requests. split; [reflexivity|]. split; [lia|].
      split; [exact Hhd|]. left. split; [reflexivity|].
      right. right. split; [now exists e|exact Hplan].
  - cbn [fst snd]. exists requests. split; [reflexivity|]. split; [lia|].
    split; [exact Hhd|]. left. split; [reflexivity|].
    right. left. now exists e.
  - destruct Hr.
Qed.

End NewPlanFacts.

(** X20. [new_plan] rejects a category that is not one of the category
    values before anything is sent or stored.  Otherwise the analysis stage
    cannot stop it: one analysis request is sent and the later stages run
    with the planning prompt built from the goal, the category, the
    description (empty when none) and a context that is the additional
    context as given (empty when none), or that context followed by the
    user's clarification.  The clarification is taken only when the analysis
    reply asks for it and the answer is accepted and not empty; when the
    analysis request raises, when no JSON object is found in the reply
    (the extractor returns absence or raises), or when the answer is not
    accepted, the context is as given. *)
Theorem new_plan_analysis_fails_open
  (clock : nat -> Z) (json_loads : string -> loads_result)
  (sample : nat -> string -> sample_result)
  (int_of_json : json -> option Z) (dumps_tasks : list Task.t -> string)
  (float_truthy : string -> bool)
  (get_planning_prompt : string -> PlanCategory -> string -> string -> string)
  (w : World) (title goal category : string)
  (description additional_context : option string)
  (clarification confirmation : elicit_result) :
  let r := new_plan clock json_loads sample int_of_json dumps_tasks
             float_truthy get_planning_prompt w title goal category
             description additional_context clarification confirmation in
  let message :=
    analysis_prompt title goal category description additional_context in
  let context0 := or_default additional_context "" in
  (PlanCategory_of_value category = None ->
   r = (InvalidCategory category, w, []))
  /\ forall plan_category,
       PlanCategory_of_value category = Some plan_category ->
       exists context,
         (let later :=
            generate_and_commit clock json_loads sample int_of_json
              dumps_tasks w title description plan_category goal
              (get_planning_prompt goal plan_category
                 (or_default description "") context)
              confirmation [message] in
          r = (Finished (fst (fst later)), snd (fst later), snd later))
         /\ (context = context0
             \/ exists d text,
                  d <> "" /\ data clarification = Some d
                  /\ action clarification = "accept"
                  /\ sample 0%nat message = Sampled text
                  /\ needs_clarification json_loads float_truthy text
                     = Some true
                  /\ context = clarified context0 d)
         /\ ((exists e, sample 0%nat message = SampleError e) ->
             context = context0)
         /\ (forall text,
                sample 0%nat message = Sampled text ->
                (forall v, _extract_json_from_text json_loads text "object"
                           <> Returned (Some v)) ->
                context = context0)
         /\ (action clarification <> "accept" -> context = context0).
Proof.
  intros r message context0. subst r. unfold new_plan. split.
  - now intros ->.
  - intros plan_category ->.
    pose proof (analysis_stage_cases json_loads sample float_truthy title goal
                  category description additional_context clarification [])
      as Ha.
    cbv zeta in Ha. fold message in Ha. fold context0 in Ha.
    destruct (analysis_stage json_loads sample float_truthy title goal category
                description additional_context clarification [])
      as [context sent1].
    cbn [fst snd] in Ha. destruct Ha as (Hsent & Hctx & Herr & Hnone & Hna).
    cbn [app] in Hsent. subst sent1.
    exists context. split.
    + cbv zeta.
      destruct (generate_and_commit _ _ _ _ _ _ _ _ _ _ _ _ _)
        as [[result w'] sent']. reflexivity.
    + split; [exact Hctx|]. split; [exact Herr|]. split; [exact Hnone|].
      exact Hna.
Qed.

(** X21. With a known category, [new_plan] sends between two and five
    requests to the service, the first being the analysis request, and ends
    in one of two ways.  Either the store is as it was and the result is a
    cancellation, a generation failure, or the exception raised because the
    title, description or goal breaks the schema's length limits (which is
    found only after the generation requests were sent).  Or one plan has
    been stored: it has the next free key, the title, description, category
    and goal as given, at least one task, counters that count its tasks and
    none completed, and the store has gained its row and one row per
    task. *)
Theorem new_plan_outcomes
  (clock : nat -> Z) (json_loads : string -> loads_result)
  (sample : nat -> string -> sample_result)
  (int_of_json : json -> option Z) (dumps_tasks : list Task.t -> string)
  (float_truthy : string -> bool)
  (get_planning_prompt : string -> PlanCategory -> string -> string -> string)
  (w : World) (title goal category : string)
  (description additional_context : option string)
  (clarification confirmation : elicit_result) (plan_category : PlanCategory) :
  PlanCategory_of_value category = Some plan_category ->
  let r := new_plan clock json_loads sample int_of_json dumps_tasks
             float_truthy get_planning_prompt w title goal category
             description additional_context clarification confirmation in
  let fields_valid :=
    len_between 1 200 title && opt_len_at_most 1000 description
    && len_between 1 500 goal in
  (2 <= List.length (snd r) <= 5)%nat
  /\ hd_error (snd r)
     = Some (analysis_prompt title goal category description
               additional_context)
  /\ ((snd (fst r) = w
       /\ (fst (fst r) = Finished Cancelled
           \/ (exists e, fst (fst r) = Finished (GenerationFailed e))
           \/ (exists e, fst (fst r) = Finished (Unhandled e))
              /\ fields_valid = false))
      \/ exists p,
           fst (fst r) = Finished (Created p)
           /\ fields_valid = true
           /\ Plan.id p = Some (next_rowid (plan_ids w))
           /\ Plan.title p = title
           /\ Plan.description p = description
           /\ Plan.category p = plan_category
           /\ Plan.goal p = goal
           /\ Plan.status p = PENDING
           /\ Plan.tasks p <> []
           /\ Plan.total_tasks p = Z.of_nat (List.length (Plan.tasks p))
           /\ Plan.completed_tasks p = 0
           /\ List.length (plans (snd (fst r))) = S (List.length (plans w))
           /\ List.length (tasks (snd (fst r)))
              = (List.length (tasks w) + List.length (Plan.tasks p))%nat).
Proof.
  intros Hc r fields_valid. subst r. unfold new_plan. rewrite Hc.
  pose proof (analysis_stage_cases json_loads sample float_truthy title goal
                category description additional_context clarification [])
    as Ha.
  cbv zeta in Ha.
  destruct (analysis_stage json_loads sample float_truthy title goal category
              description additional_context clarification [])
    as [context sent1].
  cbn [fst snd app] in Ha. destruct Ha as (Hsent & _). subst sent1.
  match goal with
  | |- context [generate_and_commit _ _ _ _ _ _ _ _ _ _ ?pr _ ?st] =>
      destruct (generate_and_commit_cases clock json_loads sample int_of_json
                  dumps_tasks w title description plan_category goal pr
                  confirmation st)
        as (requests & Hs & Hlen & _ & Hend);
      destruct (generate_and_commit clock json_loads sample int_of_json
                  dumps_tasks w title description plan_category goal pr
                  confirmation st) as [[result w'] sent']
  end.
  cbn [fst snd] in Hs, Hend |- *. subst sent'.
  split; [cbn [app List.length]; lia|]. split; [reflexivity|].
  fold fields_valid in Hend.
  destruct Hend as [[-> Hres] | (committed & [= -> ->] & Hv & Ht & Hd & Hcat
                                   & Hg & Hst & Hne)].
  - left. split; [reflexivity|].
    destruct Hres as [-> | [[e ->] | [[e ->] Hf]]].
    + now left.
    + right. left. now exists e.
    + right. right. split; [now exists e|exact Hf].
  - right. exists (fst (create_plan clock w committed)).
    destruct (create_plan_grows clock w committed) as [Hp Htk].
    rewrite create_plan_returns.
    cbn [Plan.id Plan.title Plan.description Plan.category Plan.goal
         Plan.status Plan.tasks Plan.total_tasks Plan.completed_tasks].
    rewrite create_tasks_length.
    split; [reflexivity|]. split; [exact Hv|]. split; [reflexivity|].
    split; [exact Ht|]. split; [exact Hd|]. split; [exact Hcat|].
    split; [exact Hg|]. split; [exact Hst|]. split.
    { intros E. apply (f_equal (@List.length Task.t)) in E.
      rewrite create_tasks_length in E.
      destruct (Plan.tasks committed); [now destruct Hne|discriminate]. }
    split; [reflexivity|]. split; [reflexivity|]. split; [exact Hp|].
    exact Htk.
Qed.

Lemma new_plan_outcomes_witness :
  let r := new_plan demo_clock JsonRef.loads one_task_service demo_int_of_json
             demo_dumps_tasks demo_float_truthy demo_planning_prompt
             empty_world "Trip" "See the coast" "personal" None None
             (mkElicit "decline" None) (mkElicit "accept" (Some "yes")) in
  (2 <= List.length (snd r) <= 5)%nat
  /\ hd_error (snd r)
     = Some (analysis_prompt "Trip" "See the coast" "personal" None None).
Proof.
  destruct (new_plan_outcomes demo_clock JsonRef.loads one_task_service
              demo_int_of_json demo_dumps_tasks demo_float_truthy
              demo_planning_prompt empty_world "Trip" "See the coast"
              "personal" None None (mkElicit "decline" None)
              (mkElicit "accept" (Some "yes")) PERSONAL eq_refl)
    as (H1 & H2 & _).
  split; [exact H1 | exact H2].
Defined.

(** * Further round trips and compositions in the store *)

(** X22. [update_task_status] reads its list of task keys as a set, and
    does nothing with the notes: two lists with the same members, in any
    order and with any repetitions, and any two notes, give the same answer
    and the same store. *)
Theorem update_task_status_by_key_set (clock : nat -> Z) (w : World)
  (task_ids task_ids' : list Z) (status : TaskStatus)
  (notes notes' : option string) :
  (forall k, In k task_ids <-> In k task_ids') ->
  update_task_status clock w task_ids status notes
  = update_task_status clock w task_ids' status notes'.
Proof.
  intros Hsame.
  assert (Ht : forall t, targeted task_ids t = targeted task_ids' t).
  { intros t. unfold targeted.
    destruct (mem_Z (TaskModel.id t) task_ids) eqn:E1,
             (mem_Z (TaskModel.id t) task_ids') eqn:E2; try reflexivity.
    - apply mem_Z_In, Hsame, mem_Z_In in E1. congruence.
    - apply mem_Z_In, Hsame, mem_Z_In in E2. congruence. }
  unfold update_task_status, now. cbn [tasks plans ticks].
  rewrite (filter_ext _ _ Ht).
  destruct (filter (targeted task_ids') (tasks w)); [reflexivity|].
  f_equal. f_equal. f_equal. apply map_ext. intros x. now rewrite Ht.
Qed.

Lemma update_task_status_by_key_set_witness :
  update_task_status demo_clock sample_world [2; 1; 2] COMPLETED
    (Some "done at last")
  = update_task_status demo_clock sample_world [1; 2] COMPLETED None.
Proof.
  apply (update_task_status_by_key_set demo_clock sample_world [2; 1; 2]
           [1; 2] COMPLETED (Some "done at last") None).
  intros k. simpl. tauto.
Defined.

Section KeyFacts.

Variable clock : nat -> Z.
Variable json_loads : string -> loads_result.

Lemma first_plan_fresh (w : World) :
  first_plan w (next_rowid (plan_ids w)) = None.
Proof.
  destruct (first_plan w (next_rowid (plan_ids w))) as [p|] eqn:Hp;
    [|reflexivity].
  apply first_plan_some in Hp. destruct Hp as [Hin Hid].
  destruct (next_rowid_fresh (plan_ids w)).
  rewrite <- Hid. unfold plan_ids. now apply in_map.
Qed.

Lemma owned_rows_from (first_id : Z) (first_tick : nat) (first_index pid : Z)
  (l : list Task.t) :
  filter (owned_by pid) (rows_from clock first_id first_tick first_index pid l)
  = rows_from clock first_id first_tick first_index pid l.
Proof.
  apply filter_all.
  pose proof (rows_from_owned clock first_id first_tick first_index pid l)
    as H.
  apply Forall_forall. intros t Ht.
  rewrite Forall_forall in H. unfold owned_by. rewrite (H t Ht).
  apply Z.eqb_refl.
Qed.

Lemma update_plan_missing (w : World) (plan_id : Z) (titles : list string) :
  first_plan w plan_id = None ->
  titles <> [] ->
  Forall (fun s => len_between 1 200 s = true) titles ->
  exists first_index,
    Tool.update_plan clock json_loads w plan_id None None (Some titles) None
    = (Returned PlanNotFound,
       mkWorld (plans w)
         (tasks w
          ++ rows_from clock (next_rowid (map TaskModel.id (tasks w)))
               (ticks w) first_index plan_id
               (map (fun s => Task.mk None plan_id s None PENDING MEDIUM 0 []
                                None None None) titles))
         (ticks w + List.length titles)).
Proof.
  intros Hp Hne Hvalid. unfold Tool.update_plan. cbn [given orb].
  destruct titles as [|s0 rest]; [now destruct Hne|].
  rewrite (titled_tasks_return plan_id (s0 :: rest) Hvalid).
  cbn [bind_outcome]. unfold add_tasks_to_plan. cbn [snd].
  rewrite add_tasks_rows. rewrite length_map.
  match goal with
  | |- context [rows_from clock ?a ?b ?c plan_id ?l] => exists c
  end.
  set (w1 := mkWorld _ _ _).
  assert (Hp1 : first_plan w1 plan_id = None) by exact Hp.
  assert (E2 : _update_plan_progress clock w1 plan_id = w1).
  { unfold _update_plan_progress. now rewrite Hp1. }
  rewrite E2, (get_plan_absent json_loads w1 plan_id Hp1). reflexivity.
Qed.

End KeyFacts.

(** X23. Creating a plan and deleting it again restores the tables: on a
    store whose task rows name stored plans, the plan tables and the task
    table after [create_plan] followed by [delete_plan] of the new key are
    the ones before.  The key is then free again: the next plan created gets
    the same key as the deleted one. *)
Theorem create_then_delete_restores (clock : nat -> Z) (w : World)
  (plan plan' : Plan.t) :
  foreign_key_ok w ->
  let pid := next_rowid (plan_ids w) in
  let created := create_plan clock w plan in
  let deleted := delete_plan (snd created) pid in
  Plan.id (fst created) = Some pid
  /\ fst deleted = true
  /\ plans (snd deleted) = plans w
  /\ tasks (snd deleted) = tasks w
  /\ Plan.id (fst (create_plan clock (snd deleted) plan')) = Some pid.
Proof.
  intros Hfk pid created deleted. subst deleted created.
  rewrite create_plan_returns. cbn [Plan.id]. fold pid.
  split; [reflexivity|].
  rewrite create_plan_world. cbv zeta. fold pid.
  set (row := PlanModel.mk pid _ _ _ _ _ _ _ _ _).
  assert (Hnone : Forall (fun y => plan_has_id pid y = false) (plans w)).
  { apply find_none_forall. exact (first_plan_fresh w). }
  assert (Hrow : plan_has_id pid row = true) by apply Z.eqb_refl.
  unfold delete_plan, first_plan. cbn [plans tasks ticks].
  rewrite (find_snoc_fresh _ _ _ Hnone Hrow). cbn [fst snd plans tasks].
  assert (Eplans : delete_first (plan_has_id pid) (plans w ++ [row]) = plans w).
  { rewrite (delete_first_app _ _ _ _ Hnone Hrow). apply app_nil_r. }
  rewrite Eplans.
  split; [reflexivity|]. split; [reflexivity|]. split.
  - rewrite filter_app.
    assert (E1 : filter (fun t => negb (owned_by pid t)) (tasks w) = tasks w).
    { apply filter_all. apply Forall_forall. intros t Ht.
      pose proof (fresh_key_unowned w Hfk) as Hf. fold pid in Hf.
      rewrite filter_nil_forall in Hf. now rewrite (Hf t Ht). }
    rewrite E1.
    rewrite filter_none; [apply app_nil_r|].
    apply Forall_forall. intros t Ht.
    pose proof (rows_from_owned clock (next_rowid (map TaskModel.id (tasks w)))
                  (S (ticks w)) 0 pid (Plan.tasks plan)) as Ho.
    rewrite Forall_forall in Ho. unfold owned_by. rewrite (Ho t Ht).
    now rewrite Z.eqb_refl.
  - rewrite create_plan_returns. cbn [Plan.id]. unfold plan_ids at 1.
    cbn [plans]. reflexivity.
Qed.

Lemma create_then_delete_restores_witness :
  tasks (snd (delete_plan (snd (create_plan demo_clock sample_world sample_plan))
                (next_rowid (plan_ids sample_world))))
  = tasks sample_world.
Proof.
  assert (Hfk : foreign_key_ok sample_world).
  { unfold foreign_key_ok. apply Forall_forall. intros t Ht.
    vm_compute in Ht. vm_compute.
    destruct Ht as [<- | [<- | []]]; now left. }
  exact (proj1 (proj2 (proj2 (proj2
           (create_then_delete_restores demo_clock sample_world sample_plan
              sample_plan Hfk))))).
Defined.

(** X24. Task rows that the [update_plan] tool has added for a key no plan
    has are taken over by the plan that gets the key.  On a store whose
    task rows name stored plans, after the tool was called with valid new
    titles for the next free key and a plan was created, the created plan
    has that key and counts only its own tasks, while the task rows under
    its key are its own and the earlier ones, and reading the plan back
    returns them all. *)
Theorem orphans_are_adopted (clock : nat -> Z)
  (json_loads : string -> loads_result) (w : World) (titles : list string)
  (plan : Plan.t) :
  foreign_key_ok w ->
  titles <> [] ->
  Forall (fun s => len_between 1 200 s = true) titles ->
  let pid := next_rowid (plan_ids w) in
  let w1 := snd (Tool.update_plan clock json_loads w pid None None
                   (Some titles) None) in
  let created := create_plan clock w1 plan in
  Plan.id (fst created) = Some pid
  /\ Plan.total_tasks (fst created) = Z.of_nat (List.length (Plan.tasks plan))
  /\ List.length (filter (owned_by pid) (tasks (snd created)))
     = (List.length titles + List.length (Plan.tasks plan))%nat
  /\ forall q, get_plan json_loads (snd created) pid = Returned (Some q) ->
       Plan.total_tasks q = Z.of_nat (List.length (Plan.tasks plan))
       /\ List.length (Plan.tasks q)
          = (List.length titles + List.length (Plan.tasks plan))%nat.
Proof.
  intros Hfk Hne Hvalid pid w1 created. subst created w1.
  destruct (update_plan_missing clock json_loads w pid titles
              (first_plan_fresh w) Hne Hvalid) as [first_index ->].
  cbn [snd].
  set (orphans := rows_from clock _ _ first_index pid _).
  set (w1 := mkWorld (plans w) (tasks w ++ orphans)
               (ticks w + List.length titles)).
  assert (Hids : plan_ids w1 = plan_ids w) by reflexivity.
  rewrite create_plan_returns. cbn [Plan.id Plan.total_tasks].
  rewrite Hids. fold pid. split; [reflexivity|]. split; [reflexivity|].
  rewrite create_plan_world. cbv zeta. rewrite Hids. fold pid.
  set (row := PlanModel.mk pid _ _ _ _ _ _ _ _ _).
  set (own := rows_from clock _ _ 0 pid (Plan.tasks plan)).
  change (tasks w1) with (tasks w ++ orphans)%list.
  change (plans w1) with (plans w).
  assert (Eowned : filter (owned_by pid) ((tasks w ++ orphans) ++ own)
                   = (orphans ++ own)%list).
  { rewrite !filter_app.
    pose proof (fresh_key_unowned w Hfk) as Hf. fold pid in Hf. rewrite Hf.
    unfold orphans, own. now rewrite !owned_rows_from. }
  assert (Elen : List.length (orphans ++ own)
                 = (List.length titles + List.length (Plan.tasks plan))%nat).
  { unfold orphans, own.
    now rewrite length_app, !rows_from_length, length_map. }
  cbn [tasks]. split; [now rewrite Eowned|].
  intros q. unfold get_plan, first_plan. cbn [plans tasks].
  assert (Hnone : Forall (fun y => plan_has_id pid y = false) (plans w)).
  { apply find_none_forall. exact (first_plan_fresh w). }
  assert (Hrow : plan_has_id pid row = true) by apply Z.eqb_refl.
  rewrite (find_snoc_fresh _ _ _ Hnone Hrow), Eowned.
  destruct (map_outcome _ _) as [ts|e] eqn:Hm; [|discriminate].
  cbn [bind_outcome].
  destruct (plan_of_row row ts) as [q'|e] eqn:Hq; [|discriminate].
  cbn [bind_outcome]. intros [= <-].
  destruct (plan_of_row_counters row ts q' Hq) as (Ht & _ & _ & _ & Hts).
  split; [exact Ht|].
  rewrite Hts, (map_outcome_length _ _ _ Hm), order_by_length. exact Elen.
Qed.

Lemma orphans_are_adopted_witness :
  let w1 := snd (Tool.update_plan demo_clock JsonRef.loads empty_world
                   (next_rowid (plan_ids empty_world)) None None
                   (Some ["Write report"]) None) in
  let created := create_plan demo_clock w1 sample_plan in
  Plan.total_tasks (fst created) = 2
  /\ List.length (filter (owned_by 1) (tasks (snd created))) = 3%nat.
Proof.
  destruct (orphans_are_adopted demo_clock JsonRef.loads empty_world
              ["Write report"] sample_plan)
    as (_ & H2 & H3 & _).
  - constructor.
  - discriminate.
  - repeat constructor.
  - split; [exact H2 | exact H3].
Defined.

(** * Further properties of the response extractor *)

Section SpanFacts.

Lemma first_occurrence_after (c : ascii) (pre r : string) :
  first_occurrence c pre = None ->
  first_occurrence c (pre ++ String c r) = Some (String.length pre).
Proof.
  induction pre as [|a pre IH]; simpl.
  - intros _. now rewrite Ascii.eqb_refl.
  - destruct (Ascii.eqb a c); [discriminate|].
    destruct (first_occurrence c pre); [discriminate|].
    intros _. now rewrite IH.
Qed.

Lemma last_occurrence_before (c : ascii) (x post : string) :
  last_occurrence c post = None ->
  last_occurrence c (x ++ String c post) = Some (String.length x).
Proof.
  intros Hpost. induction x as [|a x IH]; simpl.
  - now rewrite Hpost, Ascii.eqb_refl.
  - now rewrite IH.
Qed.

Lemma substring_prefix (body post : string) :
  substring 0 (String.length body) (body ++ post) = body.
Proof.
  induction body as [|a body IH]; simpl.
  - now destruct post.
  - now rewrite IH.
Qed.

Lemma substring_middle (pre body post : string) :
  substring (String.length pre) (String.length body) (pre ++ body ++ post)
  = body.
Proof.
  induction pre as [|a pre IH]; simpl.
  - apply substring_prefix.
  - exact IH.
Qed.

Lemma first_occurrence_head (c : ascii) (t : string) (i m : nat) :
  first_occurrence c t = Some i ->
  PyStr.startswith (substring i (S m) t) c = true.
Proof.
  revert i. induction t as [|a t IH]; intros i; simpl; [discriminate|].
  destruct (Ascii.eqb a c) eqn:Ea.
  - intros [= <-]. simpl. exact Ea.
  - destruct (first_occurrence c t) as [n|]; [|discriminate].
    intros [= <-]. now apply IH.
Qed.

Lemma substring_whole (t : string) :
  substring 0 (String.length t) t = t.
Proof. induction t as [|a t IH]; simpl; [reflexivity|now rewrite IH]. Qed.

Lemma lstrip_keeps_absent (c : ascii) (s : string) :
  first_occurrence c s = None -> first_occurrence c (PyStr.lstrip s) = None.
Proof.
  induction s as [|a s IH]; [reflexivity|].
  intros H. cbn [PyStr.lstrip].
  destruct (PyStr.is_space a); [|exact H].
  apply IH. cbn [first_occurrence] in H.
  destruct (Ascii.eqb a c); [discriminate|].
  now destruct (first_occurrence c s).
Qed.

Lemma rstrip_keeps_absent (c : ascii) (s : string) :
  first_occurrence c s = None -> first_occurrence c (PyStr.rstrip s) = None.
Proof.
  induction s as [|a s IH]; [reflexivity|].
  intros H. cbn [first_occurrence] in H.
  destruct (Ascii.eqb a c) eqn:Ea; [discriminate|].
  destruct (first_occurrence c s) eqn:Es; [discriminate|].
  specialize (IH eq_refl). cbn [PyStr.rstrip].
  destruct (PyStr.rstrip s) as [|b r'].
  - destruct (PyStr.is_space a); [reflexivity|].
    cbn [first_occurrence]. now rewrite Ea.
  - cbn [first_occurrence] in IH |- *. rewrite Ea.
    destruct (Ascii.eqb b c); [discriminate|].
    destruct (first_occurrence c r'); [discriminate|reflexivity].
Qed.

End SpanFacts.

(** X25. Prose around the JSON is tolerated when it holds no delimiter on
    the wrong side.  For a trimmed text made of a prefix without the opening
    delimiter, a body from an opening to a closing delimiter, and a suffix
    without the closing delimiter: with a non-empty prefix the extractor
    returns what the parser makes of the body; with an empty prefix the
    whole text is tried first and the body only if that fails. *)
Theorem extract_tolerates_prose (json_loads : string -> loads_result)
  (expected_type pre inner post : string) :
  let opening := start_char_of expected_type in
  let closing := end_char_of expected_type in
  let body := String opening (inner ++ String closing EmptyString) in
  let text := pre ++ body ++ post in
  let of_body :=
    match json_loads body with
    | Loaded v => Returned (Some v)
    | JSONDecodeError => Returned None
    | LoadsError e => Raised e
    end in
  PyStr.strip text = text ->
  first_occurrence opening pre = None ->
  last_occurrence closing post = None ->
  (pre <> "" ->
   _extract_json_from_text json_loads text expected_type = of_body)
  /\ (pre = "" ->
      _extract_json_from_text json_loads text expected_type
      = match json_loads text with
        | Loaded v => Returned (Some v)
        | LoadsError e => Raised e
        | JSONDecodeError => of_body
        end).
Proof.
  intros opening closing body text of_body Hstrip Hpre Hpost.
  assert (Hfallback :
            fallback_parse json_loads text opening closing = json_loads body).
  { unfold fallback_parse, text, body.
    change (String opening (inner ++ String closing "") ++ post)
      with (String opening ((inner ++ String closing "") ++ post)).
    rewrite (first_occurrence_after opening pre _ Hpre).
    assert (E : pre ++ String opening ((inner ++ String closing "") ++ post)
                = (pre ++ String opening inner) ++ String closing post).
    { rewrite !JsonRefFacts.append_assoc. reflexivity. }
    rewrite E, (last_occurrence_before closing _ post Hpost).
    rewrite JsonRefFacts.length_append. cbn [String.length].
    replace (String.length pre <? String.length pre + S (String.length inner))%nat
      with true by (symmetry; apply Nat.ltb_lt; lia).
    unfold span. rewrite <- E.
    replace (S (String.length pre + S (String.length inner))
             - String.length pre)%nat
      with (String.length (String opening (inner ++ String closing "")))
      by (cbn [String.length]; rewrite JsonRefFacts.length_append;
          cbn [String.length]; lia).
    f_equal.
    exact (substring_middle pre (String opening (inner ++ String closing ""))
             post). }
  assert (Hsecond :
            match fallback_parse json_loads text opening closing with
            | Loaded v => Returned (Some v)
            | LoadsError e => Raised e
            | JSONDecodeError => Returned None
            end = of_body).
  { rewrite Hfallback. unfold of_body. now destruct (json_loads body). }
  rewrite !extract_refines_spec. unfold extract_spec, extract_trimmed.
  rewrite Hstrip. fold opening. fold closing. rewrite Hsecond. split.
  - intros Hne.
    assert (Ed : direct_parse json_loads text opening = JSONDecodeError).
    { destruct pre as [|a pre']; [now destruct Hne|].
      unfold text. cbn [append direct_parse].
      cbn [first_occurrence] in Hpre.
      now destruct (Ascii.eqb a opening). }
    now rewrite Ed.
  - intros ->.
    assert (Ed : direct_parse json_loads text opening = json_loads text).
    { unfold text, body. cbn [append direct_parse].
      now rewrite Ascii.eqb_refl. }
    change (direct_parse json_loads text opening = json_loads text) in Ed.
    rewrite Ed. reflexivity.
Qed.

Lemma extract_tolerates_prose_witness :
  _extract_json_from_text JsonRef.loads
    ("Here are the tasks: " ++ "[1, 2]" ++ " (two of them)") "array"
  = match JsonRef.loads "[1, 2]" with
    | Loaded v => Returned (Some v)
    | JSONDecodeError => Returned None
    | LoadsError e => Raised e
    end.
Proof.
  apply (proj1 (extract_tolerates_prose JsonRef.loads "array"
                  "Here are the tasks: " "1, 2" " (two of them)"
                  eq_refl eq_refl eq_refl)).
  discriminate.
Defined.

(** X26. What the extractor returns was read by the parser from a piece of
    the trimmed text that opens with the delimiter of the expected shape,
    and what it raises was raised by the parser on such a piece; a text
    without that delimiter gives absence, whatever the parser would make of
    it.  Any shape tag other than "array" is read as "object". *)
Theorem extract_reads_delimited_piece (json_loads : string -> loads_result)
  (text expected_type : string) :
  (forall v,
      _extract_json_from_text json_loads text expected_type
      = Returned (Some v) ->
      exists i n,
        let piece := substring i n (PyStr.strip text) in
        json_loads piece = Loaded v
        /\ PyStr.startswith piece (start_char_of expected_type) = true)
  /\ (forall e,
        _extract_json_from_text json_loads text expected_type = Raised e ->
        exists i n,
          let piece := substring i n (PyStr.strip text) in
          json_loads piece = LoadsError e
          /\ PyStr.startswith piece (start_char_of expected_type) = true)
  /\ (first_occurrence (start_char_of expected_type) text = None ->
      _extract_json_from_text json_loads text expected_type = Returned None)
  /\ (expected_type <> "array" ->
      _extract_json_from_text json_loads text expected_type
      = _extract_json_from_text json_loads text "object").
Proof.
  assert (Hpiece : forall r,
            (exists v, r = Loaded v) \/ (exists e, r = LoadsError e) ->
            direct_parse json_loads (PyStr.strip text)
              (start_char_of expected_type) = r
            \/ (direct_parse json_loads (PyStr.strip text)
                  (start_char_of expected_type) = JSONDecodeError
                /\ fallback_parse json_loads (PyStr.strip text)
                     (start_char_of expected_type) (end_char_of expected_type)
                   = r) ->
            exists i n,
              let piece := substring i n (PyStr.strip text) in
              json_loads piece = r
              /\ PyStr.startswith piece (start_char_of expected_type) = true).
  { set (t := PyStr.strip text). set (opening := start_char_of expected_type).
    intros r Hr [Hd | [_ Hf]].
    - exists 0%nat, (String.length t). cbv zeta.
      rewrite substring_whole. unfold direct_parse in Hd.
      destruct t as [|a rest];
        [destruct Hr as [[v ->] | [e ->]]; discriminate|].
      destruct (Ascii.eqb a opening) eqn:Ea;
        [|destruct Hr as [[v ->] | [e ->]]; discriminate].
      split; [exact Hd|exact Ea].
    - unfold fallback_parse in Hf.
      destruct (first_occurrence opening t) as [i|] eqn:Hi;
        [|destruct Hr as [[v ->] | [e ->]]; discriminate].
      destruct (last_occurrence _ t) as [j|];
        [|destruct Hr as [[v ->] | [e ->]]; discriminate].
      destruct (i <? j)%nat eqn:Hij;
        [|destruct Hr as [[v ->] | [e ->]]; discriminate].
      exists i, (S j - i)%nat. cbv zeta.
      split; [exact Hf|].
      apply Nat.ltb_lt in Hij.
      replace (S j - i)%nat with (S (j - i)) by lia.
      now apply first_occurrence_head. }
  split; [|split; [|split]].
  - intros v. rewrite extract_refines_spec.
    unfold extract_spec, extract_trimmed. intros H.
    apply (Hpiece (Loaded v)); [left; now exists v|].
    destruct (direct_parse json_loads (PyStr.strip text)
                (start_char_of expected_type)) as [v'| |e'].
    + left. now injection H as ->.
    + right. split; [reflexivity|].
      destruct (fallback_parse json_loads (PyStr.strip text)
                  (start_char_of expected_type) (end_char_of expected_type))
        as [v'| |e']; [now injection H as ->|discriminate|discriminate].
    + discriminate.
  - intros e. rewrite extract_refines_spec.
    unfold extract_spec, extract_trimmed. intros H.
    apply (Hpiece (LoadsError e)); [right; now exists e|].
    destruct (direct_parse json_loads (PyStr.strip text)
                (start_char_of expected_type)) as [v'| |e'].
    + discriminate.
    + right. split; [reflexivity|].
      destruct (fallback_parse json_loads (PyStr.strip text)
                  (start_char_of expected_type) (end_char_of expected_type))
        as [v'| |e']; [discriminate|discriminate|now injection H as ->].
    + left. now injection H as ->.
  - intros Hnone. rewrite extract_refines_spec.
    unfold extract_spec, extract_trimmed.
    assert (Ht : first_occurrence (start_char_of expected_type)
                   (PyStr.strip text) = None).
    { unfold PyStr.strip. now apply rstrip_keeps_absent, lstrip_keeps_absent. }
    unfold direct_parse, fallback_parse. rewrite Ht.
    destruct (PyStr.strip text) as [|a r]; [reflexivity|].
    cbn [first_occurrence] in Ht.
    destruct (Ascii.eqb a (start_char_of expected_type)); [discriminate|].
    reflexivity.
  - intros Hne. unfold _extract_json_from_text, start_char_of, end_char_of.
    apply String.eqb_neq in Hne. rewrite Hne. reflexivity.
Qed.
